(** * DreamFocuser: the serial protocol client of the INDI driver

    A shallow embedding of [dreamfocuser.cpp] / [dreamfocuser.h]: the 8-byte
    command frame, its checksum, the encoder [send_command], the decoder
    [read_response], the dispatcher [dispatch_command], the device
    operations built on them and the polling routine [TimerHit].

    Conventions of the embedding.
    - A C integer is a [Z]; every conversion of the source is written out
      ([to_uint8], [to_uint32], [to_int32], [to_int16]).
    - A byte of a frame is stored as its unsigned value, [0 .. 255].
    - A [float] or [double] value is stored as the rational it denotes
      ([Q]).  Floating-point arithmetic is IEEE 754 with rounding to nearest
      even, computed with the Standard Library's [SpecFloat]: binary64 for
      [double] expressions, and a narrowing to binary32 where the source
      assigns to a [float] member.
    - The driver object and the serial line form one record that every
      operation threads through: [DreamFocuser -> bool * DreamFocuser].
    - [DEBUG]/[DEBUGF] log lines and the [IDSet...] notifications to clients
      change no field of the driver and are left out. *)

From Stdlib Require Import ZArith List Bool Lia Ascii QArith SpecFloat.
Import ListNotations.
Local Open Scope Z_scope.

(** ** Integer types of the source *)

Definition to_uint8 (x : Z) : Z := x mod 256.
Definition to_uint32 (x : Z) : Z := x mod 2 ^ 32.
(** Conversion to a signed type keeps the two's-complement bit pattern. *)
Definition to_int16 (x : Z) : Z := (x + 2 ^ 15) mod 2 ^ 16 - 2 ^ 15.
Definition to_int32 (x : Z) : Z := (x + 2 ^ 31) mod 2 ^ 32 - 2 ^ 31.

(** ** Floating-point types of the source

    [double] is binary64 and [float] is binary32. *)

(** An integer converted to [double]. *)
Definition double_of_int (v : Z) : spec_float :=
  binary_normalize 53 1024 v 0 false.

Definition double_div (v w : spec_float) : spec_float := SFdiv 53 1024 v w.
Definition double_add (v w : spec_float) : spec_float := SFadd 53 1024 v w.

(** The literal [273.15]: the [double] nearest to 27315/100. *)
Definition double_273_15 : spec_float :=
  double_div (double_of_int 27315) (double_of_int 100).

(** A [double] assigned to a [float]. *)
Definition float_of_double (v : spec_float) : spec_float :=
  match v with
  | S754_finite s m e => binary_normalize 24 128 (cond_Zopp s (Zpos m)) e s
  | _ => v
  end.

(** The number a finite floating-point value denotes. *)
Definition float_value (v : spec_float) : Q :=
  match v with
  | S754_finite s m e =>
      (inject_Z (cond_Zopp s (Zpos m))
       * (if 0 <=? e then inject_Z (2 ^ e) else 1 # Z.to_pos (2 ^ (- e))))%Q
  | _ => 0%Q
  end.

(** A character constant, as the integer the compiler gives it. *)
Definition chr (ch : ascii) : Z := Z.of_nat (nat_of_ascii ch).

(** ** Framework enumerations (indiapi.h, indifocuserinterface.h) *)

Inductive IPState := IPS_IDLE | IPS_OK | IPS_BUSY | IPS_ALERT.
Inductive ISState := ISS_OFF | ISS_ON.
Inductive FocusDirection := FOCUS_INWARD | FOCUS_OUTWARD.

Definition IPState_eqb (x y : IPState) : bool :=
  match x, y with
  | IPS_IDLE, IPS_IDLE | IPS_OK, IPS_OK
  | IPS_BUSY, IPS_BUSY | IPS_ALERT, IPS_ALERT => true
  | _, _ => false
  end.

(** Return codes of the serial helpers (indicom.h, [enum TTY_ERROR]). *)
Definition TTY_OK : Z := 0.
Definition TTY_WRITE_ERROR : Z := -2.
Definition TTY_TIME_OUT : Z := -4.

(** ** The command frame: [struct DreamFocuserCommand] *)

Module Cmd.
Record t := mk {
  M : Z;  (* char M = 'M' *)
  k : Z;  (* char k *)
  a : Z;  (* unsigned char *)
  b : Z;
  c : Z;
  d : Z;
  n : Z;  (* unsigned char n = '\0' *)
  z : Z
}.
End Cmd.
Definition DreamFocuserCommand : Type := Cmd.t.

(** The struct has eight members of size one: it is written to and read from
    the line as these eight bytes, in declaration order. *)
Definition frame_bytes (f : DreamFocuserCommand) : list Z :=
  [Cmd.M f; Cmd.k f; Cmd.a f; Cmd.b f; Cmd.c f; Cmd.d f; Cmd.n f; Cmd.z f].

Definition command_of_bytes (l : list Z) : DreamFocuserCommand :=
  Cmd.mk (nth 0 l 0) (nth 1 l 0) (nth 2 l 0) (nth 3 l 0)
         (nth 4 l 0) (nth 5 l 0) (nth 6 l 0) (nth 7 l 0).

(** [(a<<24) | (b<<16) | (c<<8) | d], before its conversion to the type of the
    variable or comparison it is used in. *)
Definition response_word (f : DreamFocuserCommand) : Z :=
  Z.lor (Z.lor (Z.lor (Z.shiftl (Cmd.a f) 24) (Z.shiftl (Cmd.b f) 16))
               (Z.shiftl (Cmd.c f) 8)) (Cmd.d f).

(** The outcome of one [tty_read(fd, buf, 8, 5, &nbytes_read)]: its return
    code and the bytes that reached the buffer before it returned. *)
Record TtyRead := mkTtyRead {
  err_code : Z;
  data : list Z
}.

(** Bytes [new] stored at the start of a buffer holding [old]. *)
Definition overlay (new old : list Z) : list Z :=
  new ++ skipn (length new) old.

(** ** The driver object and the serial line

    The members of [class DreamFocuser], the fields of the framework
    properties the driver reads or writes, and the serial line behind [fd]:
    what was handed to [tty_write] so far, and what the line will answer to
    the coming [tty_write] and [tty_read] calls. *)

Record DreamFocuser := mkDreamFocuser {
  connected : bool;  (* isConnected(): the framework's connection flag *)
  simulation : bool;  (* isSimulation(): the framework's simulation switch *)
  FocusAbsPosNP_s : IPState;  (* FocusAbsPosNP.s *)
  FocusAbsPosN_value : Z;  (* FocusAbsPosN[0].value *)
  FocusRelPosNP_s : IPState;  (* FocusRelPosNP.s *)
  StatusSP_s : IPState;  (* StatusSP.s *)
  StatusS0_s : ISState;  (* StatusS[0].s, SYNCHRONIZED *)
  StatusS1_s : ISState;  (* StatusS[1].s, MOVING *)
  EnvironmentNP_s : IPState;  (* EnvironmentNP.s *)
  EnvironmentN0_value : Q;  (* EnvironmentN[0].value, TEMPERATURE *)
  EnvironmentN1_value : Q;  (* EnvironmentN[1].value, HUMIDITY *)
  MaxPositionN_value : Z;  (* MaxPositionN[0].value *)
  simulatedTemperature : Q;
  simulatedHumidity : Q;
  simulatedPosition : Z;
  currentTemperature : Q;
  currentHumidity : Q;
  currentPosition : Z;
  isAbsolute : bool;
  isMoving : bool;
  currentResponse : DreamFocuserCommand;
  tty_written : list (list Z);  (* frames handed to tty_write, oldest first *)
  tty_write_results : list Z;  (* return codes of the coming tty_write calls *)
  tty_read_results : list TtyRead  (* outcomes of the coming tty_read calls *)
}.

Definition set_FocusAbsPosNP_s (v : IPState) (s : DreamFocuser) : DreamFocuser :=
  mkDreamFocuser
    (connected s) (simulation s) v (FocusAbsPosN_value s) (FocusRelPosNP_s s)
    (StatusSP_s s) (StatusS0_s s) (StatusS1_s s) (EnvironmentNP_s s)
    (EnvironmentN0_value s) (EnvironmentN1_value s) (MaxPositionN_value s)
    (simulatedTemperature s) (simulatedHumidity s) (simulatedPosition s)
    (currentTemperature s) (currentHumidity s) (currentPosition s)
    (isAbsolute s) (isMoving s) (currentResponse s) (tty_written s)
    (tty_write_results s) (tty_read_results s).

Definition set_FocusAbsPosN_value (v : Z) (s : DreamFocuser) : DreamFocuser :=
  mkDreamFocuser
    (connected s) (simulation s) (FocusAbsPosNP_s s) v (FocusRelPosNP_s s)
    (StatusSP_s s) (StatusS0_s s) (StatusS1_s s) (EnvironmentNP_s s)
    (EnvironmentN0_value s) (EnvironmentN1_value s) (MaxPositionN_value s)
    (simulatedTemperature s) (simulatedHumidity s) (simulatedPosition s)
    (currentTemperature s) (currentHumidity s) (currentPosition s)
    (isAbsolute s) (isMoving s) (currentResponse s) (tty_written s)
    (tty_write_results s) (tty_read_results s).

Definition set_FocusRelPosNP_s (v : IPState) (s : DreamFocuser) : DreamFocuser :=
  mkDreamFocuser
    (connected s) (simulation s) (FocusAbsPosNP_s s) (FocusAbsPosN_value s) v
    (StatusSP_s s) (StatusS0_s s) (StatusS1_s s) (EnvironmentNP_s s)
    (EnvironmentN0_value s) (EnvironmentN1_value s) (MaxPositionN_value s)
    (simulatedTemperature s) (simulatedHumidity s) (simulatedPosition s)
    (currentTemperature s) (currentHumidity s) (currentPosition s)
    (isAbsolute s) (isMoving s) (currentResponse s) (tty_written s)
    (tty_write_results s) (tty_read_results s).

Definition set_StatusSP_s (v : IPState) (s : DreamFocuser) : DreamFocuser :=
  mkDreamFocuser
    (connected s) (simulation s) (FocusAbsPosNP_s s) (FocusAbsPosN_value s)
    (FocusRelPosNP_s s) v (StatusS0_s s) (StatusS1_s s) (EnvironmentNP_s s)
    (EnvironmentN0_value s) (EnvironmentN1_value s) (MaxPositionN_value s)
    (simulatedTemperature s) (simulatedHumidity s) (simulatedPosition s)
    (currentTemperature s) (currentHumidity s) (currentPosition s)
    (isAbsolute s) (isMoving s) (currentResponse s) (tty_written s)
    (tty_write_results s) (tty_read_results s).

Definition set_StatusS0_s (v : ISState) (s : DreamFocuser) : DreamFocuser :=
  mkDreamFocuser
    (connected s) (simulation s) (FocusAbsPosNP_s s) (FocusAbsPosN_value s)
    (FocusRelPosNP_s s) (StatusSP_s s) v (StatusS1_s s) (EnvironmentNP_s s)
    (EnvironmentN0_value s) (EnvironmentN1_value s) (MaxPositionN_value s)
    (simulatedTemperature s) (simulatedHumidity s) (simulatedPosition s)
    (currentTemperature s) (currentHumidity s) (currentPosition s)
    (isAbsolute s) (isMoving s) (currentResponse s) (tty_written s)
    (tty_write_results s) (tty_read_results s).

Definition set_StatusS1_s (v : ISState) (s : DreamFocuser) : DreamFocuser :=
  mkDreamFocuser
    (connected s) (simulation s) (FocusAbsPosNP_s s) (FocusAbsPosN_value s)
    (FocusRelPosNP_s s) (StatusSP_s s) (StatusS0_s s) v (EnvironmentNP_s s)
    (EnvironmentN0_value s) (EnvironmentN1_value s) (MaxPositionN_value s)
    (simulatedTemperature s) (simulatedHumidity s) (simulatedPosition s)
    (currentTemperature s) (currentHumidity s) (currentPosition s)
    (isAbsolute s) (isMoving s) (currentResponse s) (tty_written s)
    (tty_write_results s) (tty_read_results s).

Definition set_EnvironmentNP_s (v : IPState) (s : DreamFocuser) : DreamFocuser :=
  mkDreamFocuser
    (connected s) (simulation s) (FocusAbsPosNP_s s) (FocusAbsPosN_value s)
    (FocusRelPosNP_s s) (StatusSP_s s) (StatusS0_s s) (StatusS1_s s) v
    (EnvironmentN0_value s) (EnvironmentN1_value s) (MaxPositionN_value s)
    (simulatedTemperature s) (simulatedHumidity s) (simulatedPosition s)
    (currentTemperature s) (currentHumidity s) (currentPosition s)
    (isAbsolute s) (isMoving s) (currentResponse s) (tty_written s)
    (tty_write_results s) (tty_read_results s).

Definition set_EnvironmentN0_value (v : Q) (s : DreamFocuser) : DreamFocuser :=
  mkDreamFocuser
    (connected s) (simulation s) (FocusAbsPosNP_s s) (FocusAbsPosN_value s)
    (FocusRelPosNP_s s) (StatusSP_s s) (StatusS0_s s) (StatusS1_s s)
    (EnvironmentNP_s s) v (EnvironmentN1_value s) (MaxPositionN_value s)
    (simulatedTemperature s) (simulatedHumidity s) (simulatedPosition s)
    (currentTemperature s) (currentHumidity s) (currentPosition s)
    (isAbsolute s) (isMoving s) (currentResponse s) (tty_written s)
    (tty_write_results s) (tty_read_results s).

Definition set_EnvironmentN1_value (v : Q) (s : DreamFocuser) : DreamFocuser :=
  mkDreamFocuser
    (connected s) (simulation s) (FocusAbsPosNP_s s) (FocusAbsPosN_value s)
    (FocusRelPosNP_s s) (StatusSP_s s) (StatusS0_s s) (StatusS1_s s)
    (EnvironmentNP_s s) (EnvironmentN0_value s) v (MaxPositionN_value s)
    (simulatedTemperature s) (simulatedHumidity s) (simulatedPosition s)
    (currentTemperature s) (currentHumidity s) (currentPosition s)
    (isAbsolute s) (isMoving s) (currentResponse s) (tty_written s)
    (tty_write_results s) (tty_read_results s).

Definition set_currentTemperature (v : Q) (s : DreamFocuser) : DreamFocuser :=
  mkDreamFocuser
    (connected s) (simulation s) (FocusAbsPosNP_s s) (FocusAbsPosN_value s)
    (FocusRelPosNP_s s) (StatusSP_s s) (StatusS0_s s) (StatusS1_s s)
    (EnvironmentNP_s s) (EnvironmentN0_value s) (EnvironmentN1_value s)
    (MaxPositionN_value s) (simulatedTemperature s) (simulatedHumidity s)
    (simulatedPosition s) v (currentHumidity s) (currentPosition s)
    (isAbsolute s) (isMoving s) (currentResponse s) (tty_written s)
    (tty_write_results s) (tty_read_results s).

Definition set_currentHumidity (v : Q) (s : DreamFocuser) : DreamFocuser :=
  mkDreamFocuser
    (connected s) (simulation s) (FocusAbsPosNP_s s) (FocusAbsPosN_value s)
    (FocusRelPosNP_s s) (StatusSP_s s) (StatusS0_s s) (StatusS1_s s)
    (EnvironmentNP_s s) (EnvironmentN0_value s) (EnvironmentN1_value s)
    (MaxPositionN_value s) (simulatedTemperature s) (simulatedHumidity s)
    (simulatedPosition s) (currentTemperature s) v (currentPosition s)
    (isAbsolute s) (isMoving s) (currentResponse s) (tty_written s)
    (tty_write_results s) (tty_read_results s).

Definition set_currentPosition (v : Z) (s : DreamFocuser) : DreamFocuser :=
  mkDreamFocuser
    (connected s) (simulation s) (FocusAbsPosNP_s s) (FocusAbsPosN_value s)
    (FocusRelPosNP_s s) (StatusSP_s s) (StatusS0_s s) (StatusS1_s s)
    (EnvironmentNP_s s) (EnvironmentN0_value s) (EnvironmentN1_value s)
    (MaxPositionN_value s) (simulatedTemperature s) (simulatedHumidity s)
    (simulatedPosition s) (currentTemperature s) (currentHumidity s) v
    (isAbsolute s) (isMoving s) (currentResponse s) (tty_written s)
    (tty_write_results s) (tty_read_results s).

Definition set_isAbsolute (v : bool) (s : DreamFocuser) : DreamFocuser :=
  mkDreamFocuser
    (connected s) (simulation s) (FocusAbsPosNP_s s) (FocusAbsPosN_value s)
    (FocusRelPosNP_s s) (StatusSP_s s) (StatusS0_s s) (StatusS1_s s)
    (EnvironmentNP_s s) (EnvironmentN0_value s) (EnvironmentN1_value s)
    (MaxPositionN_value s) (simulatedTemperature s) (simulatedHumidity s)
    (simulatedPosition s) (currentTemperature s) (currentHumidity s)
    (currentPosition s) v (isMoving s) (currentResponse s) (tty_written s)
    (tty_write_results s) (tty_read_results s).

Definition set_isMoving (v : bool) (s : DreamFocuser) : DreamFocuser :=
  mkDreamFocuser
    (connected s) (simulation s) (FocusAbsPosNP_s s) (FocusAbsPosN_value s)
    (FocusRelPosNP_s s) (StatusSP_s s) (StatusS0_s s) (StatusS1_s s)
    (EnvironmentNP_s s) (EnvironmentN0_value s) (EnvironmentN1_value s)
    (MaxPositionN_value s) (simulatedTemperature s) (simulatedHumidity s)
    (simulatedPosition s) (currentTemperature s) (currentHumidity s)
    (currentPosition s) (isAbsolute s) v (currentResponse s) (tty_written s)
    (tty_write_results s) (tty_read_results s).

Definition set_currentResponse (v : DreamFocuserCommand) (s : DreamFocuser) : DreamFocuser :=
  mkDreamFocuser
    (connected s) (simulation s) (FocusAbsPosNP_s s) (FocusAbsPosN_value s)
    (FocusRelPosNP_s s) (StatusSP_s s) (StatusS0_s s) (StatusS1_s s)
    (EnvironmentNP_s s) (EnvironmentN0_value s) (EnvironmentN1_value s)
    (MaxPositionN_value s) (simulatedTemperature s) (simulatedHumidity s)
    (simulatedPosition s) (currentTemperature s) (currentHumidity s)
    (currentPosition s) (isAbsolute s) (isMoving s) v (tty_written s)
    (tty_write_results s) (tty_read_results s).

Definition set_tty_written (v : list (list Z)) (s : DreamFocuser) : DreamFocuser :=
  mkDreamFocuser
    (connected s) (simulation s) (FocusAbsPosNP_s s) (FocusAbsPosN_value s)
    (FocusRelPosNP_s s) (StatusSP_s s) (StatusS0_s s) (StatusS1_s s)
    (EnvironmentNP_s s) (EnvironmentN0_value s) (EnvironmentN1_value s)
    (MaxPositionN_value s) (simulatedTemperature s) (simulatedHumidity s)
    (simulatedPosition s) (currentTemperature s) (currentHumidity s)
    (currentPosition s) (isAbsolute s) (isMoving s) (currentResponse s) v
    (tty_write_results s) (tty_read_results s).

Definition set_tty_write_results (v : list Z) (s : DreamFocuser) : DreamFocuser :=
  mkDreamFocuser
    (connected s) (simulation s) (FocusAbsPosNP_s s) (FocusAbsPosN_value s)
    (FocusRelPosNP_s s) (StatusSP_s s) (StatusS0_s s) (StatusS1_s s)
    (EnvironmentNP_s s) (EnvironmentN0_value s) (EnvironmentN1_value s)
    (MaxPositionN_value s) (simulatedTemperature s) (simulatedHumidity s)
    (simulatedPosition s) (currentTemperature s) (currentHumidity s)
    (currentPosition s) (isAbsolute s) (isMoving s) (currentResponse s)
    (tty_written s) v (tty_read_results s).

Definition set_tty_read_results (v : list TtyRead) (s : DreamFocuser) : DreamFocuser :=
  mkDreamFocuser
    (connected s) (simulation s) (FocusAbsPosNP_s s) (FocusAbsPosN_value s)
    (FocusRelPosNP_s s) (StatusSP_s s) (StatusS0_s s) (StatusS1_s s)
    (EnvironmentNP_s s) (EnvironmentN0_value s) (EnvironmentN1_value s)
    (MaxPositionN_value s) (simulatedTemperature s) (simulatedHumidity s)
    (simulatedPosition s) (currentTemperature s) (currentHumidity s)
    (currentPosition s) (isAbsolute s) (isMoving s) (currentResponse s)
    (tty_written s) (tty_write_results s) v.

(** ** The serial helpers of indicom, over the scripted line

    [tty_write] hands the frame to the line and returns the next scripted
    return code; [tty_read] returns the next scripted outcome.  A line whose
    script is exhausted is dead: writes fail and reads time out empty. *)

Definition tty_write (frame : list Z) (s : DreamFocuser) : Z * DreamFocuser :=
  let s1 := set_tty_written (tty_written s ++ [frame]) s in
  match tty_write_results s with
  | [] => (TTY_WRITE_ERROR, s1)
  | r :: rest => (r, set_tty_write_results rest s1)
  end.

Definition next_read (s : DreamFocuser) : TtyRead :=
  match tty_read_results s with
  | [] => mkTtyRead TTY_TIME_OUT []
  | r :: _ => r
  end.

(** [tty_read(fd, (char * )&currentResponse, sizeof(currentResponse), 5,
    &nbytes_read)]: at most eight bytes are stored, from the start of
    [currentResponse]; the result is the return code and [nbytes_read]. *)
Definition tty_read (s : DreamFocuser) : (Z * Z) * DreamFocuser :=
  let r := next_read s in
  let got := map to_uint8 (firstn 8 (data r)) in
  let buf := overlay got (frame_bytes (currentResponse s)) in
  let s1 := set_currentResponse (command_of_bytes buf) s in
  ((err_code r, Z.of_nat (length got)),
   set_tty_read_results (tl (tty_read_results s)) s1).

Section Driver.

(** Whether plain [char] is signed is the compiler's choice; it decides the
    value a [char] member has once promoted to [int]. *)
Variable char_is_signed : bool.

Definition char_to_int (byte : Z) : Z :=
  if char_is_signed && (128 <=? byte) then byte - 256 else byte.

(** [calculate_checksum]: [z = (c.M + c.k + c.a + c.b + c.c + c.d + c.n) & 0xff]. *)
Definition calculate_checksum (f : DreamFocuserCommand) : Z :=
  to_uint8
    (Z.land (char_to_int (Cmd.M f) + char_to_int (Cmd.k f) + Cmd.a f + Cmd.b f
             + Cmd.c f + Cmd.d f + Cmd.n f) 255).

(** [x[i]] for [unsigned char *x = (unsigned char * )&l]: byte [i] of the
    object representation of the [uint32_t] argument.  The hosts the driver is
    built for (x86, ARM Linux) store the least significant byte first. *)
Definition x (l : Z) (i : Z) : Z := Z.land (Z.shiftr (to_uint32 l) (8 * i)) 255.

(** The [switch] of [send_command] and the three assignments after it: the
    frame for opcode [k] and argument [l], or nothing for an unknown opcode. *)
Definition command_frame (k l : Z) : option DreamFocuserCommand :=
  let finish a b c d :=
    let c0 := Cmd.mk (chr "M") k a b c d 0 0 in
    Cmd.mk (chr "M") k a b c d 0 (calculate_checksum c0) in
  if (k =? chr "M") || (k =? chr "Z") then
    Some (finish (x l 3) (x l 2) (x l 1) (x l 0))
  else if (k =? chr "H") || (k =? chr "P") || (k =? chr "I") || (k =? chr "T")
          || (k =? chr "W") || (k =? chr "G") || (k =? chr "V") then
    Some (finish 0 0 0 0)
  else if k =? chr "R" then
    Some (finish 0 0 0 (x l 0))
  else None.

Definition send_command (k l : Z) (s : DreamFocuser) : bool * DreamFocuser :=
  match command_frame k l with
  | None => (false, s)
  | Some c =>
      if simulation s then
        let r := currentResponse s in
        (true,
         set_currentResponse
           (Cmd.mk (Cmd.M r) k (Cmd.a r) (Cmd.b r) (Cmd.c r) (Cmd.d r) 0
                   (Cmd.z c)) s)
      else
        (* tcflush(fd, TCIOFLUSH) discards pending bytes of the real line; the
           scripted line has none *)
        let '(err, s1) := tty_write (frame_bytes c) s in
        if negb (err =? TTY_OK) then (false, s1) else (true, s1)
  end.

Definition read_response (s : DreamFocuser) : bool * DreamFocuser :=
  if simulation s then (true, s)
  else
    let '((err, nbytes_read), s1) := tty_read s in
    if negb (err =? TTY_OK) then (false, s1)
    else if negb (nbytes_read =? 8) then (false, s1)
    else
      let z := calculate_checksum (currentResponse s1) in
      if negb (z =? Cmd.z (currentResponse s1)) then (false, s1)
      else if char_to_int (Cmd.k (currentResponse s1)) =? chr "!" then (false, s1)
      else if char_to_int (Cmd.k (currentResponse s1)) =? chr "?" then (false, s1)
      else (true, s1).

Definition dispatch_command (k l : Z) (s : DreamFocuser) : bool * DreamFocuser :=
  let '(sent, s1) := send_command k l s in
  if sent then
    let '(got, s2) := read_response s1 in
    if got then
      if char_to_int (Cmd.k (currentResponse s2)) =? char_to_int k
      then (true, s2) else (false, s2)
    else (false, s2)
  else (false, s1).

(** ** Device operations *)

Definition getTemperature (s : DreamFocuser) : bool * DreamFocuser :=
  if simulation s then
    let s1 := set_currentTemperature (simulatedTemperature s) s in
    (true, set_currentHumidity (simulatedHumidity s1) s1)
  else
    let '(ok, s1) := dispatch_command (chr "T") 0 s in
    if ok then
      let r := currentResponse s1 in
      let s2 :=
        set_currentTemperature
          (float_value
             (float_of_double
                (double_add
                   (double_div
                      (double_of_int
                         (to_int16 (Z.lor (Z.shiftl (Cmd.c r) 8) (Cmd.d r))))
                      (double_of_int 10))
                   double_273_15))) s1 in
      (true,
       set_currentHumidity
         (float_value
            (float_of_double
               (double_div
                  (double_of_int
                     (to_int16 (Z.lor (Z.shiftl (Cmd.a r) 8) (Cmd.b r))))
                  (double_of_int 10)))) s2)
    else (false, s1).

Definition getStatus (s : DreamFocuser) : bool * DreamFocuser :=
  if negb (simulation s) then
    let '(moving, s1) := dispatch_command (chr "I") 0 s in
    if moving then
      let s2 := set_isMoving (Cmd.d (currentResponse s1) =? 1) s1 in
      let '(absolute, s3) := dispatch_command (chr "W") 0 s2 in
      if absolute then
        (true, set_isAbsolute (Cmd.d (currentResponse s3) =? 1) s3)
      else (false, s3)
    else (false, s1)
  else (true, s).

Definition getPosition (s : DreamFocuser) : bool * DreamFocuser :=
  if simulation s then (true, set_currentPosition (simulatedPosition s) s)
  else
    let '(ok, s1) := dispatch_command (chr "P") 0 s in
    if ok then
      (true,
       set_currentPosition (to_int32 (response_word (currentResponse s1))) s1)
    else (false, s1).

(** [position] is an [int32_t]; it becomes the [uint32_t] argument of
    [dispatch_command], and the [int] built from the response is compared
    with it. *)
Definition setPosition (position : Z) (s : DreamFocuser) : bool * DreamFocuser :=
  let '(ok, s1) := dispatch_command (chr "M") (to_uint32 position) s in
  if ok then
    if to_int32 (response_word (currentResponse s1)) =? position
    then (true, s1) else (false, s1)
  else (false, s1).

(** [position] is a [uint32_t]: the [int] built from the response is
    converted to unsigned for the comparison. *)
Definition setSync (position : Z) (s : DreamFocuser) : bool * DreamFocuser :=
  let '(ok, s1) := dispatch_command (chr "Z") position s in
  if ok then
    if to_uint32 (to_int32 (response_word (currentResponse s1))) =? position
    then (true, s1) else (false, s1)
  else (false, s1).

Definition setPark (s : DreamFocuser) : bool * DreamFocuser :=
  dispatch_command (chr "G") 0 s.

Definition AbortFocuser (s : DreamFocuser) : bool * DreamFocuser :=
  dispatch_command (chr "H") 0 s.

(** [ticks] is a [uint32_t]; the call [setPosition(ticks)] converts it to
    the [int32_t] parameter. *)
Definition MoveAbsFocuser (ticks : Z) (s : DreamFocuser)
  : IPState * DreamFocuser :=
  let '(ok, s1) := setPosition (to_int32 ticks) s in
  if ok then (IPS_OK, set_FocusAbsPosNP_s IPS_OK s1) else (IPS_ALERT, s1).

(** [int32_t finalTicks = currentPosition
      + ((int32_t)ticks * (dir == FOCUS_INWARD ? -1 : 1))], the signed
    arithmetic wrapping around as the two's-complement hosts compute it. *)
Definition finalTicks (dir : FocusDirection) (ticks : Z) (s : DreamFocuser) : Z :=
  to_int32
    (currentPosition s
     + to_int32 (to_int32 ticks
                 * match dir with FOCUS_INWARD => -1 | FOCUS_OUTWARD => 1 end)).

Definition MoveRelFocuser (dir : FocusDirection) (ticks : Z) (s : DreamFocuser)
  : IPState * DreamFocuser :=
  let '(ok, s1) := setPosition (finalTicks dir ticks s) s in
  if ok then (IPS_OK, set_FocusRelPosNP_s IPS_OK s1) else (IPS_ALERT, s1).

(** ** The polling routine [TimerHit]

    The body is given block by block, in source order. *)

(** After [getStatus()] succeeded: [StatusSP.s = IPS_OK], then the [isMoving]
    and [isAbsolute] branches. *)
Definition TimerHit_status (s : DreamFocuser) : DreamFocuser :=
  let s1 := set_StatusSP_s IPS_OK s in
  let s2 :=
    if isMoving s1 then
      set_StatusS1_s ISS_ON (set_FocusAbsPosNP_s IPS_BUSY s1)
    else
      let s' :=
        if negb (IPState_eqb (FocusAbsPosNP_s s1) IPS_IDLE)
        then set_FocusAbsPosNP_s IPS_OK s1 else s1 in
      set_StatusS1_s ISS_OFF s' in
  if isAbsolute s2 then set_StatusS0_s ISS_ON s2 else set_StatusS0_s ISS_OFF s2.

(** The [if ( getTemperature() )] statement. *)
Definition TimerHit_environment (s : DreamFocuser) : DreamFocuser :=
  let '(ok, s1) := getTemperature s in
  if ok then
    let changed :=
      negb (Qeq_bool (EnvironmentN0_value s1) (currentTemperature s1))
      || negb (Qeq_bool (EnvironmentN1_value s1) (currentHumidity s1)) in
    let s2 := set_EnvironmentNP_s (if changed then IPS_BUSY else IPS_OK) s1 in
    let s3 := set_EnvironmentN0_value (currentTemperature s2) s2 in
    set_EnvironmentN1_value (currentHumidity s3) s3
  else set_EnvironmentNP_s IPS_ALERT s1.

(** The [if ( FocusAbsPosNP.s != IPS_IDLE )] statement; [oldPosition] is the
    [uint32_t] taken at the start of the tick, and the comparison with the
    [int32_t] member is made on unsigned values. *)
Definition TimerHit_position (oldPosition : Z) (s : DreamFocuser) : DreamFocuser :=
  if negb (IPState_eqb (FocusAbsPosNP_s s) IPS_IDLE) then
    let '(ok, s1) := getPosition s in
    if ok then
      if negb (oldPosition =? to_uint32 (currentPosition s1)) then
        let s2 := set_FocusAbsPosNP_s IPS_BUSY s1 in
        let s3 := set_StatusS1_s ISS_ON s2 in
        set_FocusAbsPosN_value (currentPosition s3) s3
      else
        let s2 := set_StatusS1_s ISS_OFF s1 in
        set_FocusAbsPosNP_s IPS_OK s2
    else set_FocusAbsPosNP_s IPS_ALERT s1
  else s.

Definition TimerHit (s : DreamFocuser) : DreamFocuser :=
  if negb (connected s) then s
  else
    let oldPosition := to_uint32 (currentPosition s) in
    let '(ok, s1) := getStatus s in
    if ok then
      TimerHit_position oldPosition (TimerHit_environment (TimerHit_status s1))
    else set_StatusSP_s IPS_ALERT s1.

End Driver.

(** ** The vocabulary of the statements *)

Definition is_byte (v : Z) : Prop := 0 <= v < 256.

Definition is_int32 (v : Z) : Prop := - 2 ^ 31 <= v < 2 ^ 31.

(** The opcodes of the protocol table. *)
Definition known_opcodes : list Z :=
  map chr ["M"; "H"; "P"; "I"; "T"; "R"; "W"; "Z"; "V"; "G"]%char.

Definition byte_sum (l : list Z) : Z := fold_right Z.add 0 l.

(** A 16-bit pattern read as a two's-complement number. *)
Definition signed16 (raw : Z) : Z := if raw <? 2 ^ 15 then raw else raw - 2 ^ 16.

(** The signed offset of a relative move. *)
Definition offset (dir : FocusDirection) (n : Z) : Z :=
  match dir with FOCUS_INWARD => - n | FOCUS_OUTWARD => n end.

(** The contract of indicom's [tty_read]: it returns [TTY_OK] exactly when
    all the bytes asked for, here eight, were delivered in time. *)
Definition tty_read_contract (r : TtyRead) : Prop :=
  err_code r = TTY_OK <-> (8 <= length (data r))%nat.

(** Every member but [currentResponse] and the serial line. *)
Definition members (s : DreamFocuser) :=
  (connected s, simulation s, FocusAbsPosNP_s s, FocusAbsPosN_value s,
   FocusRelPosNP_s s, StatusSP_s s, StatusS0_s s, StatusS1_s s,
   EnvironmentNP_s s, EnvironmentN0_value s, EnvironmentN1_value s,
   MaxPositionN_value s, simulatedTemperature s, simulatedHumidity s,
   simulatedPosition s, currentTemperature s, currentHumidity s,
   currentPosition s, isAbsolute s, isMoving s).

(** The cached device state. *)
Definition cache (s : DreamFocuser) :=
  (currentPosition s, isMoving s, isAbsolute s, currentTemperature s,
   currentHumidity s).

(** What no operation of the driver changes. *)
Definition config (s : DreamFocuser) :=
  (connected s, simulation s, simulatedPosition s).

(** ** Drivers and lines to run the operations on

    The constructor clears [isAbsolute] and [isMoving]; [initProperties]
    sets the maximum position to 300000 and the simulated device to 20.0
    degrees, 1.0 percent and position 2000; [Connect] copies the simulated
    position into the cache when simulating.  The constructor leaves
    [currentResponse] unset: [resp] is what the memory holds.  [writes] and
    [reads] script the serial line. *)
Definition connected_driver (sim : bool) (resp : DreamFocuserCommand)
    (writes : list Z) (reads : list TtyRead) : DreamFocuser :=
  mkDreamFocuser true sim IPS_IDLE 0 IPS_IDLE IPS_IDLE ISS_OFF ISS_OFF
    IPS_IDLE 0 0 300000 20 1 2000 0 0 (if sim then 2000 else 0) false false
    resp [] writes reads.

Definition blank_response : DreamFocuserCommand :=
  Cmd.mk (chr "M") 0 0 0 0 0 0 0.

(** The eight bytes a device sends for opcode [k] and payload [a b c d]. *)
Definition reply (k a b c d : Z) : list Z :=
  [chr "M"; k; a; b; c; d; 0; (chr "M" + k + a + b + c + d) mod 256].

(** A driver on a line that accepts every write and answers the coming
    exchanges with the given frames, in order. *)
Definition on_line (frames : list (list Z)) : DreamFocuser :=
  connected_driver false blank_response
    (map (fun _ => TTY_OK) frames) (map (mkTtyRead TTY_OK) frames).

(** One exchange answered with position 128000. *)
Definition position_reply : DreamFocuser :=
  on_line [[0x4D; 0x50; 0x00; 0x01; 0xF4; 0x00; 0x00; 0x92]].

(** The exchanges of one tick of a moving focuser now at position 100. *)
Definition moving_tick : DreamFocuser :=
  on_line [reply (chr "I") 0 0 0 1; reply (chr "W") 0 0 0 1;
           reply (chr "T") 0 0 0 0; reply (chr "P") 0 0 0 100].

Ltac case_ifs :=
  repeat match goal with
         | |- context [if ?b then _ else _] => destruct b
         end.

(** ** Connecting and disconnecting

    [tty_connect] and [tty_disconnect] are indicom's: the first is given by
    its return code [port], the second has no effect on the driver.  The
    framework sets its connection flag itself once [Connect] has returned
    true, and clears it after [Disconnect]; [SetTimer] only schedules the
    next [TimerHit]. *)

Definition Connect (char_is_signed : bool) (port : Z) (s : DreamFocuser)
  : bool * DreamFocuser :=
  if connected s then (true, s)
  else if simulation s then
    (true, set_currentPosition (simulatedPosition s) s)
  else if negb (port =? TTY_OK) then (false, s)
  else
    let '(ok, s1) := getStatus char_is_signed s in
    if negb ok then (false, s1) else (true, s1).

Definition Disconnect (char_is_signed : bool) (s : DreamFocuser)
  : bool * DreamFocuser :=
  let '(_, s1) := AbortFocuser char_is_signed s in
  (true, s1).

(** ** More vocabulary *)

(** The serial line: what was written and what is still to come. *)
Definition line (s : DreamFocuser) :=
  (tty_written s, tty_write_results s, tty_read_results s).

(** A complete frame of bytes whose last byte is the checksum of the others. *)
Definition checked_frame (l : list Z) : Prop :=
  length l = 8%nat /\ Forall is_byte l
  /\ nth 7 l 0 = byte_sum (firstn 7 l) mod 256.

(** [l] with the byte at index [i] replaced by [v]. *)
Fixpoint set_nth (i : nat) (v : Z) (l : list Z) : list Z :=
  match l, i with
  | [], _ => []
  | _ :: t, O => v :: t
  | h :: t, S j => h :: set_nth j v t
  end.

(** The request frame of opcode [k] and argument [l], as bytes; empty for an
    opcode outside the table. *)
Definition request (char_is_signed : bool) (k l : Z) : list Z :=
  match command_frame char_is_signed k l with
  | Some f => frame_bytes f
  | None => []
  end.

(** The line accepts the next write and delivers the eight bytes [bytes] to
    the next read. *)
Definition next_exchange (s : DreamFocuser) (bytes : list Z) : Prop :=
  (exists rest, tty_write_results s = TTY_OK :: rest)
  /\ (exists rest, tty_read_results s = mkTtyRead TTY_OK bytes :: rest).

(** The line accepts the coming writes and answers the coming reads with
    the frames [frames], in order. *)
Definition next_exchanges (s : DreamFocuser) (frames : list (list Z)) : Prop :=
  (exists rest, tty_write_results s = map (fun _ => TTY_OK) frames ++ rest)
  /\ (exists rest,
        tty_read_results s = map (mkTtyRead TTY_OK) frames ++ rest).

(** The opcodes that are sent without an argument. *)
Definition query_opcodes : list Z :=
  map chr ["H"; "P"; "I"; "T"; "W"; "G"; "V"]%char.

Ltac member_fields H :=
  unfold members in H;
  cbn [set_isMoving set_isAbsolute set_currentPosition set_currentTemperature
       set_currentHumidity set_StatusSP_s set_StatusS0_s set_StatusS1_s
       set_FocusAbsPosNP_s set_FocusAbsPosN_value set_EnvironmentNP_s
       set_EnvironmentN0_value set_EnvironmentN1_value
       connected simulation FocusAbsPosNP_s FocusAbsPosN_value
       FocusRelPosNP_s StatusSP_s StatusS0_s StatusS1_s EnvironmentNP_s
       EnvironmentN0_value EnvironmentN1_value MaxPositionN_value
       simulatedTemperature simulatedHumidity simulatedPosition
       currentTemperature currentHumidity currentPosition isAbsolute
       isMoving] in H;
  injection H; clear H; intros.

Ltac members_eq :=
  unfold members;
  cbn [set_isMoving set_isAbsolute set_currentPosition set_currentTemperature
       set_currentHumidity set_StatusSP_s set_StatusS0_s set_StatusS1_s
       set_FocusAbsPosNP_s set_FocusAbsPosN_value set_EnvironmentNP_s
       set_EnvironmentN0_value set_EnvironmentN1_value
       connected simulation FocusAbsPosNP_s FocusAbsPosN_value
       FocusRelPosNP_s StatusSP_s StatusS0_s StatusS1_s EnvironmentNP_s
       EnvironmentN0_value EnvironmentN1_value MaxPositionN_value
       simulatedTemperature simulatedHumidity simulatedPosition
       currentTemperature currentHumidity currentPosition isAbsolute
       isMoving];
  congruence.

(** * Properties *)

(** ** Integer conversions *)

Lemma to_uint8_range v : 0 <= to_uint8 v < 256.
Proof. unfold to_uint8. apply Z.mod_pos_bound. lia. Qed.

Lemma to_uint32_range v : 0 <= to_uint32 v < 2 ^ 32.
Proof. unfold to_uint32. apply Z.mod_pos_bound. lia. Qed.

Lemma to_uint32_small v : 0 <= v < 2 ^ 32 -> to_uint32 v = v.
Proof. intros H. unfold to_uint32. now apply Z.mod_small. Qed.

Lemma to_int32_range v : - 2 ^ 31 <= to_int32 v < 2 ^ 31.
Proof.
  unfold to_int32.
  pose proof (Z.mod_pos_bound (v + 2 ^ 31) (2 ^ 32) ltac:(lia)). lia.
Qed.

Lemma to_int32_small v : - 2 ^ 31 <= v < 2 ^ 31 -> to_int32 v = v.
Proof. intros H. unfold to_int32. rewrite Z.mod_small; lia. Qed.

(** The signed and the unsigned reading of a 32-bit pattern agree modulo
    [2^32]. *)
Lemma to_uint32_to_int32 v : to_uint32 (to_int32 v) = to_uint32 v.
Proof.
  unfold to_uint32, to_int32.
  rewrite (Z.mod_eq (v + 2 ^ 31) (2 ^ 32)) by lia.
  replace (v + 2 ^ 31 - 2 ^ 32 * ((v + 2 ^ 31) / 2 ^ 32) - 2 ^ 31)
    with (v + (- ((v + 2 ^ 31) / 2 ^ 32)) * 2 ^ 32) by ring.
  apply Z.mod_add. lia.
Qed.

Lemma to_int32_to_uint32 v : to_int32 (to_uint32 v) = to_int32 v.
Proof.
  unfold to_uint32, to_int32.
  rewrite (Z.mod_eq v (2 ^ 32)) by lia.
  replace (v - 2 ^ 32 * (v / 2 ^ 32) + 2 ^ 31)
    with (v + 2 ^ 31 + (- (v / 2 ^ 32)) * 2 ^ 32) by ring.
  now rewrite Z.mod_add by lia.
Qed.

(** What the conversion of a [uint32_t] to [int32_t] yields. *)
Lemma to_int32_of_uint32 t :
  0 <= t < 2 ^ 32 -> to_int32 t = if t <? 2 ^ 31 then t else t - 2 ^ 32.
Proof.
  intros H. unfold to_int32. destruct (Z.ltb_spec t (2 ^ 31)).
  - rewrite Z.mod_small; lia.
  - replace (t + 2 ^ 31) with (t - 2 ^ 31 + 1 * 2 ^ 32) by ring.
    rewrite Z.mod_add by lia. rewrite Z.mod_small; lia.
Qed.

(** ** The checksum *)

Lemma char_to_int_mod cs v : char_to_int cs v mod 256 = v mod 256.
Proof.
  unfold char_to_int. destruct (cs && (128 <=? v)); [|reflexivity].
  replace (v - 256) with (v + (-1) * 256) by ring. apply Z.mod_add. lia.
Qed.

(** Whatever the signedness of [char], the checksum is the sum of the seven
    bytes as unsigned values, modulo 256. *)
Lemma calculate_checksum_sum cs f :
  calculate_checksum cs f =
  (Cmd.M f + Cmd.k f + Cmd.a f + Cmd.b f + Cmd.c f + Cmd.d f + Cmd.n f) mod 256.
Proof.
  unfold calculate_checksum, to_uint8.
  change 255 with (Z.ones 8). rewrite Z.land_ones by lia.
  change (2 ^ 8) with 256. rewrite Z.mod_mod by lia.
  rewrite <- !Z.add_assoc.
  rewrite (Z.add_mod (char_to_int cs (Cmd.M f))) by lia.
  rewrite (Z.add_mod (char_to_int cs (Cmd.k f))) by lia.
  rewrite !char_to_int_mod.
  rewrite <- (Z.add_mod (Cmd.k f)) by lia.
  now rewrite <- Z.add_mod by lia.
Qed.

Lemma calculate_checksum_range cs f : 0 <= calculate_checksum cs f < 256.
Proof. apply to_uint8_range. Qed.

(** ** The bytes of the argument *)

Lemma x_range l i : 0 <= x l i < 256.
Proof.
  unfold x. change 255 with (Z.ones 8). rewrite Z.land_ones by lia.
  apply Z.mod_pos_bound. lia.
Qed.

Lemma x_testbit l i j :
  0 <= i -> 0 <= j ->
  Z.testbit (x l i) j = Z.testbit (to_uint32 l) (j + 8 * i) && (j <? 8).
Proof.
  intros Hi Hj. unfold x. rewrite Z.land_spec, Z.shiftr_spec by lia.
  change 255 with (Z.ones 8). now rewrite Z.testbit_ones_nonneg by lia.
Qed.

Lemma to_uint32_testbit_high l j : 32 <= j -> Z.testbit (to_uint32 l) j = false.
Proof.
  intros Hj. unfold to_uint32. apply Z.mod_pow2_bits_high. lia.
Qed.

(** [x[3]], [x[2]], [x[1]], [x[0]] put back together most significant first
    give the argument: the payload is laid out big-endian. *)
Lemma word_of_x l :
  Z.lor (Z.lor (Z.lor (Z.shiftl (x l 3) 24) (Z.shiftl (x l 2) 16))
               (Z.shiftl (x l 1) 8)) (x l 0) = to_uint32 l.
Proof.
  apply Z.bits_inj'. intros j Hj.
  rewrite !Z.lor_spec.
  destruct (Z.ltb_spec j 8) as [H8|H8].
  { rewrite !Z.shiftl_spec_low by lia. rewrite x_testbit by lia.
    cbn [orb]. replace (j + 8 * 0) with j by lia.
    destruct (Z.ltb_spec j 8); [|lia]. now rewrite andb_true_r. }
  destruct (Z.ltb_spec j 16) as [H16|H16].
  { rewrite (Z.shiftl_spec_low _ 24), (Z.shiftl_spec_low _ 16) by lia.
    rewrite Z.shiftl_spec by lia. rewrite !x_testbit by lia.
    replace (j - 8 + 8 * 1) with j by lia.
    destruct (Z.ltb_spec (j - 8) 8); [|lia].
    destruct (Z.ltb_spec j 8); [lia|].
    now rewrite andb_true_r, andb_false_r, orb_false_r. }
  destruct (Z.ltb_spec j 24) as [H24|H24].
  { rewrite (Z.shiftl_spec_low _ 24) by lia.
    rewrite !Z.shiftl_spec by lia. rewrite !x_testbit by lia.
    replace (j - 16 + 8 * 2) with j by lia.
    destruct (Z.ltb_spec (j - 16) 8); [|lia].
    destruct (Z.ltb_spec (j - 8) 8); [lia|].
    destruct (Z.ltb_spec j 8); [lia|].
    now rewrite andb_true_r, !andb_false_r, !orb_false_r. }
  rewrite !Z.shiftl_spec by lia. rewrite !x_testbit by lia.
  replace (j - 24 + 8 * 3) with j by lia.
  destruct (Z.ltb_spec (j - 16) 8); [lia|].
  destruct (Z.ltb_spec (j - 8) 8); [lia|].
  destruct (Z.ltb_spec j 8); [lia|].
  rewrite !andb_false_r, !orb_false_r.
  destruct (Z.ltb_spec (j - 24) 8).
  - now rewrite andb_true_r.
  - rewrite andb_false_r. symmetry. apply to_uint32_testbit_high. lia.
Qed.

(** ** The encoder *)

Lemma command_frame_known cs k l :
  In k known_opcodes -> exists f, command_frame cs k l = Some f.
Proof.
  intros H. unfold command_frame.
  destruct ((k =? chr "M") || (k =? chr "Z")) eqn:E1; [eauto|].
  destruct ((k =? chr "H") || (k =? chr "P") || (k =? chr "I")
            || (k =? chr "T") || (k =? chr "W") || (k =? chr "G")
            || (k =? chr "V")) eqn:E2; [eauto|].
  destruct (k =? chr "R") eqn:E3; [eauto|].
  exfalso. repeat rewrite orb_false_iff in *.
  repeat match goal with
         | E : _ /\ _ |- _ => destruct E
         | E : (_ =? _) = false |- _ => apply Z.eqb_neq in E
         end.
  unfold known_opcodes in H. simpl in H. intuition congruence.
Qed.

(** The fields of a frame the encoder built. *)
Lemma command_frame_fields cs k l f :
  command_frame cs k l = Some f ->
  Cmd.M f = chr "M" /\ Cmd.k f = k /\ Cmd.n f = 0
  /\ Cmd.z f = calculate_checksum cs f
  /\ is_byte (Cmd.a f) /\ is_byte (Cmd.b f) /\ is_byte (Cmd.c f)
  /\ is_byte (Cmd.d f).
Proof.
  unfold command_frame, is_byte. intros H.
  pose proof (x_range l 0). pose proof (x_range l 1).
  pose proof (x_range l 2). pose proof (x_range l 3).
  destruct ((k =? chr "M") || (k =? chr "Z"));
    [|destruct ((k =? chr "H") || (k =? chr "P") || (k =? chr "I")
                || (k =? chr "T") || (k =? chr "W") || (k =? chr "G")
                || (k =? chr "V")); [|destruct (k =? chr "R")]];
    inversion H; subst; cbn [Cmd.M Cmd.k Cmd.a Cmd.b Cmd.c Cmd.d Cmd.n Cmd.z];
    repeat split; try reflexivity; lia.
Qed.

(** Outside simulation [send_command] hands exactly the encoded frame to
    [tty_write], whatever the write returns. *)
Lemma send_command_written cs k l f s :
  command_frame cs k l = Some f -> simulation s = false ->
  tty_written (snd (send_command cs k l s)) = tty_written s ++ [frame_bytes f].
Proof.
  intros Hf Hs. unfold send_command, tty_write. rewrite Hf, Hs.
  destruct (tty_write_results s) as [|r rest]; cbn [negb];
    [|destruct (negb (r =? TTY_OK))]; reflexivity.
Qed.

(** An opcode outside the table is refused before anything is written. *)
Lemma send_command_unknown cs k l s :
  command_frame cs k l = None -> send_command cs k l s = (false, s).
Proof. intros H. unfold send_command. now rewrite H. Qed.

(** C1: every request frame the encoder produces for an opcode of the table
    is well-formed: byte 0 is 'M' (0x4D), byte 6 is 0, and byte 7 is the low 8
    bits of the unsigned sum of bytes 0 to 6, for every argument; outside
    simulation that frame is what [send_command] hands to the line. *)
Theorem send_command_frame_well_formed cs k l :
  In k known_opcodes ->
  exists f,
    command_frame cs k l = Some f
    /\ Forall is_byte (frame_bytes f)
    /\ nth 0 (frame_bytes f) 0 = 0x4D
    /\ nth 6 (frame_bytes f) 0 = 0
    /\ nth 7 (frame_bytes f) 0 = byte_sum (firstn 7 (frame_bytes f)) mod 256
    /\ forall s, simulation s = false ->
         tty_written (snd (send_command cs k l s))
         = tty_written s ++ [frame_bytes f].
Proof.
  intros Hk. destruct (command_frame_known cs k l Hk) as [f Hf].
  destruct (command_frame_fields _ _ _ _ Hf)
    as (HM & Hkf & Hn & Hz & Ha & Hb & Hc & Hd).
  exists f. split; [exact Hf|].
  assert (Hkb : is_byte k).
  { vm_compute in Hk. unfold is_byte. intuition (subst; lia). }
  split.
  { unfold frame_bytes. rewrite HM, Hkf, Hn, Hz.
    assert (is_byte (chr "M")) by (unfold is_byte; change (chr "M") with 77; lia).
    assert (is_byte 0) by (unfold is_byte; lia).
    pose proof (calculate_checksum_range cs f).
    repeat (apply Forall_cons; [assumption|]). apply Forall_nil. }
  split; [exact HM|]. split; [exact Hn|]. split.
  { cbn [frame_bytes nth firstn byte_sum fold_right].
    rewrite Hz, calculate_checksum_sum. f_equal. ring. }
  intros s Hs. now apply send_command_written.
Qed.

Lemma send_command_frame_well_formed_witness :
  exists f,
    command_frame false (chr "P") 0 = Some f
    /\ Forall is_byte (frame_bytes f)
    /\ nth 0 (frame_bytes f) 0 = 0x4D
    /\ nth 6 (frame_bytes f) 0 = 0
    /\ nth 7 (frame_bytes f) 0 = byte_sum (firstn 7 (frame_bytes f)) mod 256
    /\ forall s, simulation s = false ->
         tty_written (snd (send_command false (chr "P") 0 s))
         = tty_written s ++ [frame_bytes f].
Proof.
  apply (send_command_frame_well_formed false (chr "P") 0).
  unfold known_opcodes. simpl. tauto.
Defined.

(** The 'M' and 'Z' frames carry the argument, most significant byte first. *)
Lemma command_frame_payload cs k l :
  k = chr "M" \/ k = chr "Z" ->
  exists f,
    command_frame cs k l = Some f
    /\ Cmd.k f = k
    /\ Cmd.a f = x l 3 /\ Cmd.b f = x l 2 /\ Cmd.c f = x l 1 /\ Cmd.d f = x l 0
    /\ response_word f = to_uint32 l.
Proof.
  intros Hk.
  assert (Hf : exists f, command_frame cs k l = Some f
               /\ Cmd.k f = k /\ Cmd.a f = x l 3 /\ Cmd.b f = x l 2
               /\ Cmd.c f = x l 1 /\ Cmd.d f = x l 0).
  { unfold command_frame.
    destruct Hk as [-> | ->]; cbn [Z.eqb chr]; eexists;
      (split; [reflexivity|]); cbn [Cmd.k Cmd.a Cmd.b Cmd.c Cmd.d]; auto. }
  destruct Hf as (f & Hf & Hk' & Ha & Hb & Hc & Hd).
  exists f. do 6 (split; [assumption|]).
  unfold response_word. rewrite Ha, Hb, Hc, Hd. apply word_of_x.
Qed.

(** C2: for every 32-bit payload [p] given to an 'M' or 'Z' command, the
    payload bytes of the frame satisfy [(a<<24)|(b<<16)|(c<<8)|d = p]: the
    payload is big-endian, [a] the most and [d] the least significant byte. *)
Theorem send_command_payload_big_endian cs k p :
  k = chr "M" \/ k = chr "Z" ->
  0 <= p < 2 ^ 32 ->
  exists f,
    command_frame cs k p = Some f
    /\ response_word f = p
    /\ Cmd.d f = p mod 256
    /\ Cmd.a f = p / 2 ^ 24
    /\ forall s, simulation s = false ->
         tty_written (snd (send_command cs k p s))
         = tty_written s ++ [frame_bytes f].
Proof.
  intros Hk Hp.
  destruct (command_frame_payload cs k p Hk)
    as (f & Hf & _ & Ha & Hb & Hc & Hd & Hword).
  exists f. split; [exact Hf|]. split.
  { rewrite Hword. now apply to_uint32_small. }
  split.
  { rewrite Hd. unfold x. rewrite to_uint32_small by exact Hp.
    change 255 with (Z.ones 8). rewrite Z.land_ones by lia.
    now rewrite Z.shiftr_0_r. }
  split.
  { rewrite Ha. unfold x. rewrite to_uint32_small by exact Hp.
    change 255 with (Z.ones 8). rewrite Z.land_ones by lia.
    rewrite Z.shiftr_div_pow2 by lia. change (8 * 3) with 24.
    apply Z.mod_small. split.
    - apply Z.div_pos; lia.
    - apply Z.div_lt_upper_bound; lia. }
  intros s Hs. now apply send_command_written.
Qed.

Lemma send_command_payload_big_endian_witness :
  exists f,
    command_frame false (chr "M") 128000 = Some f
    /\ response_word f = 128000
    /\ Cmd.d f = 128000 mod 256
    /\ Cmd.a f = 128000 / 2 ^ 24
    /\ forall s, simulation s = false ->
         tty_written (snd (send_command false (chr "M") 128000 s))
         = tty_written s ++ [frame_bytes f].
Proof.
  apply (send_command_payload_big_endian false (chr "M") 128000).
  - left. reflexivity.
  - lia.
Defined.

(** ** The decoder *)

Lemma frame_bytes_command_of_bytes l :
  length l = 8%nat -> frame_bytes (command_of_bytes l) = l.
Proof.
  intros H. do 8 (destruct l as [|? l]; [discriminate|]).
  destruct l; [reflexivity|discriminate].
Qed.

Lemma overlay_full new old :
  length new = 8%nat -> length old = 8%nat -> overlay new old = new.
Proof.
  intros Hn Ho. unfold overlay. rewrite Hn.
  do 8 (destruct old as [|? old]; [discriminate|]).
  destruct old; [|discriminate]. apply app_nil_r.
Qed.

Lemma length_received l :
  (8 <= length l)%nat -> length (map to_uint8 (firstn 8 l)) = 8%nat.
Proof. intros H. rewrite length_map, length_firstn. lia. Qed.

Lemma length_received_short l :
  (length l < 8)%nat -> length (map to_uint8 (firstn 8 l)) = length l.
Proof. intros H. rewrite length_map, length_firstn. lia. Qed.

(** A [char] compared with a character constant below 128. *)
Lemma char_to_int_eqb cs v ch :
  is_byte v -> 0 <= ch < 128 -> (char_to_int cs v =? ch) = (v =? ch).
Proof.
  unfold is_byte, char_to_int. intros Hv Hc.
  destruct (cs && (128 <=? v)) eqn:E; [|reflexivity].
  apply andb_true_iff in E. destruct E as [_ E]. apply Z.leb_le in E.
  destruct (Z.eqb_spec (v - 256) ch), (Z.eqb_spec v ch); try reflexivity; lia.
Qed.

Lemma char_to_int_inj cs v w :
  is_byte v -> is_byte w -> (char_to_int cs v =? char_to_int cs w) = (v =? w).
Proof.
  unfold is_byte, char_to_int. intros Hv Hw.
  destruct cs; cbn [andb]; [|reflexivity].
  destruct (Z.leb_spec 128 v), (Z.leb_spec 128 w);
    destruct (Z.eqb_spec v w);
    try match goal with |- (?p =? ?q) = _ => destruct (Z.eqb_spec p q) end;
    try reflexivity; lia.
Qed.

Lemma received_k_byte l :
  (8 <= length l)%nat ->
  is_byte (Cmd.k (command_of_bytes (map to_uint8 (firstn 8 l)))).
Proof.
  intros H. do 2 (destruct l as [|? l]; [simpl in H; lia|]).
  cbn [firstn map command_of_bytes nth Cmd.k]. apply to_uint8_range.
Qed.

(** Outside simulation the decoder leaves the driver as [tty_read] left it,
    and succeeds when each of its five checks passes. *)
Lemma read_response_real cs s :
  simulation s = false ->
  let s1 := snd (tty_read s) in
  let f := currentResponse s1 in
  read_response cs s =
  ((fst (fst (tty_read s)) =? TTY_OK)
   && (snd (fst (tty_read s)) =? 8)
   && (calculate_checksum cs f =? Cmd.z f)
   && negb (char_to_int cs (Cmd.k f) =? chr "!")
   && negb (char_to_int cs (Cmd.k f) =? chr "?"), s1).
Proof.
  intros Hs. unfold read_response. rewrite Hs.
  destruct (tty_read s) as [[err nbytes_read] s1]. cbn [fst snd].
  destruct (err =? TTY_OK); [|reflexivity].
  destruct (nbytes_read =? 8); [|reflexivity].
  destruct (calculate_checksum cs (currentResponse s1)
            =? Cmd.z (currentResponse s1)); [|reflexivity].
  destruct (char_to_int cs (Cmd.k (currentResponse s1)) =? chr "!");
    [reflexivity|].
  destruct (char_to_int cs (Cmd.k (currentResponse s1)) =? chr "?");
    reflexivity.
Qed.

(** Storing a byte in an [unsigned char] keeps it. *)
Lemma to_uint8_bytes l : Forall is_byte l -> map to_uint8 l = l.
Proof.
  induction 1 as [|v l Hv _ IH]; [reflexivity|].
  cbn [map]. rewrite IH. f_equal. apply Z.mod_small. exact Hv.
Qed.

(** C3: outside simulation, [read_response] fails exactly when fewer than 8
    bytes were delivered, or the checksum recomputed over the delivered bytes
    differs from the delivered [z], or the delivered opcode byte is '!', or
    it is '?'; every other complete frame is accepted.  Whenever 8 bytes were
    delivered, accepted or not, [currentResponse] is exactly those bytes. *)
Theorem read_response_fails_iff cs s :
  simulation s = false ->
  tty_read_contract (next_read s) ->
  let delivered := data (next_read s) in
  let received := map to_uint8 (firstn 8 delivered) in
  let ok := fst (read_response cs s) in
  let f := currentResponse (snd (read_response cs s)) in
  (ok = false <->
     (length delivered < 8)%nat
     \/ byte_sum (firstn 7 received) mod 256 <> nth 7 received 0
     \/ nth 1 received 0 = chr "!"
     \/ nth 1 received 0 = chr "?")
  /\ ((8 <= length delivered)%nat -> frame_bytes f = received)
  /\ (Forall is_byte delivered -> received = firstn 8 delivered).
Proof.
  intros Hs Hc delivered received ok f. subst ok f.
  rewrite (read_response_real cs s Hs). cbn [fst snd].
  unfold tty_read_contract in Hc. fold delivered in Hc.
  unfold tty_read. fold delivered. fold received. cbn [fst snd].
  set (buf := overlay received (frame_bytes (currentResponse s))).
  cbn [currentResponse set_tty_read_results set_currentResponse].
  assert (Hbytes : Forall is_byte delivered -> received = firstn 8 delivered).
  { intros Hd. subst received. apply to_uint8_bytes.
    rewrite <- (firstn_skipn 8 delivered) in Hd.
    now apply Forall_app in Hd. }
  destruct (Z.eqb_spec (err_code (next_read s)) TTY_OK) as [Herr|Herr];
    cbn [andb].
  2:{ assert (length delivered < 8)%nat
        by (destruct (Nat.lt_ge_cases (length delivered) 8); tauto).
      split; [split; [tauto|reflexivity]|]. split; [lia|exact Hbytes]. }
  assert (H8 : (8 <= length delivered)%nat) by tauto.
  assert (Hgot : length received = 8%nat) by (now apply length_received).
  rewrite Hgot. cbn [Z.of_nat Pos.of_succ_nat Pos.succ Z.eqb Pos.eqb andb].
  assert (Hbuf : buf = received) by (now apply overlay_full).
  rewrite Hbuf.
  assert (Hk : is_byte (Cmd.k (command_of_bytes received)))
    by (now apply received_k_byte).
  rewrite calculate_checksum_sum.
  rewrite !(char_to_int_eqb cs _ _ Hk) by (vm_compute; split; congruence).
  assert (Hframe : frame_bytes (command_of_bytes received) = received)
    by (now apply frame_bytes_command_of_bytes).
  assert (Hsum : byte_sum (firstn 7 received)
                 = Cmd.M (command_of_bytes received)
                   + Cmd.k (command_of_bytes received)
                   + Cmd.a (command_of_bytes received)
                   + Cmd.b (command_of_bytes received)
                   + Cmd.c (command_of_bytes received)
                   + Cmd.d (command_of_bytes received)
                   + Cmd.n (command_of_bytes received)).
  { rewrite <- Hframe at 1.
    cbn [frame_bytes firstn byte_sum fold_right]. ring. }
  rewrite Hsum.
  change (nth 7 received 0) with (Cmd.z (command_of_bytes received)).
  change (nth 1 received 0) with (Cmd.k (command_of_bytes received)).
  set (sum := Cmd.M (command_of_bytes received)
              + Cmd.k (command_of_bytes received)
              + Cmd.a (command_of_bytes received)
              + Cmd.b (command_of_bytes received)
              + Cmd.c (command_of_bytes received)
              + Cmd.d (command_of_bytes received)
              + Cmd.n (command_of_bytes received)).
  split; [|split; [intros _; exact Hframe|exact Hbytes]].
  destruct (Z.eqb_spec (sum mod 256) (Cmd.z (command_of_bytes received)));
    cbn [andb negb].
  2:{ split; [tauto|reflexivity]. }
  destruct (Z.eqb_spec (Cmd.k (command_of_bytes received)) (chr "!"));
    cbn [andb negb].
  { split; [tauto|reflexivity]. }
  destruct (Z.eqb_spec (Cmd.k (command_of_bytes received)) (chr "?"));
    cbn [andb negb].
  { split; [tauto|reflexivity]. }
  split; [discriminate|]. intros [H|[H|[H|H]]]; [lia|contradiction..].
Qed.

Lemma read_response_fails_iff_witness :
  let s := snd (send_command false (chr "P") 0 position_reply) in
  let delivered := data (next_read s) in
  let received := map to_uint8 (firstn 8 delivered) in
  let ok := fst (read_response false s) in
  let f := currentResponse (snd (read_response false s)) in
  (ok = false <->
     (length delivered < 8)%nat
     \/ byte_sum (firstn 7 received) mod 256 <> nth 7 received 0
     \/ nth 1 received 0 = chr "!"
     \/ nth 1 received 0 = chr "?")
  /\ ((8 <= length delivered)%nat -> frame_bytes f = received)
  /\ (Forall is_byte delivered -> received = firstn 8 delivered).
Proof.
  apply (read_response_fails_iff false
           (snd (send_command false (chr "P") 0 position_reply))).
  - reflexivity.
  - unfold tty_read_contract. simpl. split; intros _; [lia|reflexivity].
Defined.

(** A complete frame with a good checksum and the opcode 'P' is accepted,
    and one whose last byte is off by one is not. *)
Example read_response_accepts_and_rejects :
  let good := [0x4D; 0x50; 0x00; 0x01; 0xF4; 0x00; 0x00; 0x92] in
  let bad := [0x4D; 0x50; 0x00; 0x01; 0xF4; 0x00; 0x00; 0x93] in
  let line frame := connected_driver false blank_response []
                      [mkTtyRead TTY_OK frame] in
  read_response false (line good)
  = (true,
     set_tty_read_results []
       (set_currentResponse (command_of_bytes good) (line good)))
  /\ fst (read_response false (line bad)) = false.
Proof. vm_compute. split; reflexivity. Qed.

(** ** What the dispatcher leaves alone

    The codec and the dispatcher touch [currentResponse] and the serial line
    only: every other member keeps its value. *)

Lemma members_cache s s' : members s' = members s -> cache s' = cache s.
Proof. unfold members, cache. intros H. now inversion H. Qed.

Lemma members_simulation s s' :
  members s' = members s -> simulation s' = simulation s.
Proof. unfold members. intros H. now inversion H. Qed.

Lemma tty_write_members frame s : members (snd (tty_write frame s)) = members s.
Proof. unfold tty_write. destruct (tty_write_results s); reflexivity. Qed.

Lemma tty_read_members s : members (snd (tty_read s)) = members s.
Proof. reflexivity. Qed.

Lemma tty_read_written s : tty_written (snd (tty_read s)) = tty_written s.
Proof. reflexivity. Qed.

Lemma send_command_members cs k l s :
  members (snd (send_command cs k l s)) = members s.
Proof.
  unfold send_command. destruct (command_frame cs k l) as [f|]; [|reflexivity].
  destruct (simulation s); [reflexivity|].
  pose proof (tty_write_members (frame_bytes f) s) as H.
  destruct (tty_write (frame_bytes f) s) as [err s1]. cbn [snd] in H.
  now destruct (negb (err =? TTY_OK)).
Qed.

Lemma read_response_members cs s :
  members (snd (read_response cs s)) = members s.
Proof.
  destruct (simulation s) eqn:Hs.
  - unfold read_response. now rewrite Hs.
  - rewrite (read_response_real cs s Hs). apply tty_read_members.
Qed.

Lemma read_response_written cs s :
  tty_written (snd (read_response cs s)) = tty_written s.
Proof.
  destruct (simulation s) eqn:Hs.
  - unfold read_response. now rewrite Hs.
  - rewrite (read_response_real cs s Hs). apply tty_read_written.
Qed.

Lemma dispatch_command_members cs k l s :
  members (snd (dispatch_command cs k l s)) = members s.
Proof.
  unfold dispatch_command.
  pose proof (send_command_members cs k l s) as H1.
  destruct (send_command cs k l s) as [sent s1]. cbn [snd] in H1.
  destruct sent; [|exact H1].
  pose proof (read_response_members cs s1) as H2.
  destruct (read_response cs s1) as [got s2]. cbn [snd] in H2.
  rewrite <- H1, <- H2.
  destruct got; [|reflexivity].
  now destruct (char_to_int cs (Cmd.k (currentResponse s2)) =? char_to_int cs k).
Qed.

(** Outside simulation one exchange hands exactly one frame to the line: the
    encoded request.  The response is not written anywhere. *)
Lemma dispatch_command_written cs k l f s :
  command_frame cs k l = Some f -> simulation s = false ->
  tty_written (snd (dispatch_command cs k l s))
  = tty_written s ++ [frame_bytes f].
Proof.
  intros Hf Hs. unfold dispatch_command.
  pose proof (send_command_written cs k l f s Hf Hs) as H1.
  destruct (send_command cs k l s) as [sent s1]. cbn [snd] in H1.
  destruct sent; [|exact H1].
  pose proof (read_response_written cs s1) as H2.
  destruct (read_response cs s1) as [got s2]. cbn [snd] in H2.
  rewrite <- H1, <- H2.
  destruct got; [|reflexivity].
  now destruct (char_to_int cs (Cmd.k (currentResponse s2)) =? char_to_int cs k).
Qed.

(** In simulation nothing reaches the line. *)
Lemma dispatch_command_simulated cs k l s :
  simulation s = true ->
  tty_written (snd (dispatch_command cs k l s)) = tty_written s.
Proof.
  intros Hs. unfold dispatch_command, send_command.
  destruct (command_frame cs k l) as [f|]; [|reflexivity].
  rewrite Hs. unfold read_response.
  cbn [simulation set_currentResponse currentResponse Cmd.k]. rewrite Hs.
  cbn [simulation set_currentResponse currentResponse Cmd.k].
  now rewrite Z.eqb_refl.
Qed.

(** A complete read leaves eight bytes in [currentResponse]. *)
Lemma tty_read_full s :
  snd (fst (tty_read s)) = 8 ->
  Forall is_byte (frame_bytes (currentResponse (snd (tty_read s)))).
Proof.
  unfold tty_read. cbn [fst snd currentResponse set_tty_read_results
                        set_currentResponse].
  set (got := map to_uint8 (firstn 8 (data (next_read s)))).
  intros Hlen. assert (Hgot : length got = 8%nat) by lia.
  rewrite overlay_full by (exact Hgot || reflexivity).
  rewrite frame_bytes_command_of_bytes by exact Hgot.
  subst got. apply Forall_map, Forall_forall. intros v _. apply to_uint8_range.
Qed.

Lemma read_response_bytes cs s :
  simulation s = false -> fst (read_response cs s) = true ->
  Forall is_byte (frame_bytes (currentResponse (snd (read_response cs s)))).
Proof.
  intros Hs. rewrite (read_response_real cs s Hs). cbn [fst snd]. intros H.
  apply tty_read_full.
  repeat (apply andb_true_iff in H; destruct H as [H ?]).
  now apply Z.eqb_eq.
Qed.

(** After a successful exchange with the device the response holds bytes,
    and its opcode is the one that was sent. *)
Lemma dispatch_command_response cs k l s :
  simulation s = false -> is_byte k ->
  fst (dispatch_command cs k l s) = true ->
  let r := currentResponse (snd (dispatch_command cs k l s)) in
  Forall is_byte (frame_bytes r) /\ Cmd.k r = k.
Proof.
  intros Hs Hk. unfold dispatch_command.
  pose proof (send_command_members cs k l s) as H1.
  destruct (send_command cs k l s) as [sent s1]. cbn [snd] in H1.
  destruct sent; [|discriminate].
  assert (Hs1 : simulation s1 = false)
    by (now rewrite (members_simulation _ _ H1)).
  pose proof (read_response_bytes cs s1 Hs1) as H2.
  destruct (read_response cs s1) as [got s2]. cbn [fst snd] in H2.
  destruct got; [|discriminate].
  specialize (H2 eq_refl).
  assert (Hrk : is_byte (Cmd.k (currentResponse s2))).
  { unfold frame_bytes in H2. inversion H2 as [|? ? _ H3]. now inversion H3. }
  rewrite (char_to_int_inj cs _ _ Hrk Hk).
  destruct (Z.eqb_spec (Cmd.k (currentResponse s2)) k); [|discriminate].
  cbn [fst snd]. auto.
Qed.

Lemma frame_bytes_fields f :
  Forall is_byte (frame_bytes f) ->
  is_byte (Cmd.a f) /\ is_byte (Cmd.b f) /\ is_byte (Cmd.c f)
  /\ is_byte (Cmd.d f).
Proof.
  unfold frame_bytes. intros H.
  repeat match goal with
         | H : Forall _ (_ :: _) |- _ => inversion H; clear H; subst
         end.
  auto.
Qed.

(** ** The environment reading *)

Lemma lor_shiftl_8 hi lo :
  is_byte hi -> is_byte lo -> Z.lor (Z.shiftl hi 8) lo = 256 * hi + lo.
Proof.
  unfold is_byte. intros Hhi Hlo.
  assert (Hdisj : Z.land (Z.shiftl hi 8) lo = 0).
  { apply Z.bits_inj'. intros j Hj. rewrite Z.land_spec, Z.bits_0.
    destruct (Z.ltb_spec j 8).
    - rewrite Z.shiftl_spec_low by lia. reflexivity.
    - rewrite <- (Z.mod_small lo (2 ^ 8)) by lia.
      rewrite Z.mod_pow2_bits_high by lia. apply andb_false_r. }
  rewrite <- Z.lxor_lor by exact Hdisj.
  rewrite <- Z.add_nocarry_lxor by exact Hdisj.
  rewrite Z.shiftl_mul_pow2 by lia. lia.
Qed.

Lemma to_int16_word hi lo :
  is_byte hi -> is_byte lo ->
  to_int16 (Z.lor (Z.shiftl hi 8) lo) = signed16 (256 * hi + lo).
Proof.
  intros Hhi Hlo. rewrite lor_shiftl_8 by assumption.
  unfold is_byte in *. unfold to_int16, signed16.
  destruct (Z.ltb_spec (256 * hi + lo) (2 ^ 15)).
  - rewrite Z.mod_small; lia.
  - replace (256 * hi + lo + 2 ^ 15)
      with (256 * hi + lo - 2 ^ 15 + 1 * 2 ^ 16) by ring.
    rewrite Z.mod_add by lia. rewrite Z.mod_small; lia.
Qed.

(** What the line delivers to the next read, as it lands in the buffer. *)
Lemma send_command_reads cs k l s :
  tty_read_results (snd (send_command cs k l s)) = tty_read_results s.
Proof.
  unfold send_command, tty_write.
  destruct (command_frame cs k l) as [f|]; [|reflexivity].
  destruct (simulation s); [reflexivity|].
  destruct (tty_write_results s) as [|r rest]; cbn [negb];
    [|destruct (negb (r =? TTY_OK))]; reflexivity.
Qed.

(** After a successful exchange with the device, [currentResponse] is the
    eight bytes the line delivered to this exchange. *)
Lemma dispatch_command_received cs k l s :
  simulation s = false ->
  fst (dispatch_command cs k l s) = true ->
  let received := map to_uint8 (firstn 8 (data (next_read s))) in
  length received = 8%nat
  /\ currentResponse (snd (dispatch_command cs k l s))
     = command_of_bytes received.
Proof.
  intros Hs. cbv zeta. unfold dispatch_command.
  pose proof (send_command_members cs k l s) as Hmem.
  pose proof (send_command_reads cs k l s) as Hreads.
  destruct (send_command cs k l s) as [sent s1]. cbn [snd] in Hmem, Hreads.
  destruct sent; [|discriminate].
  assert (Hs1 : simulation s1 = false)
    by (now rewrite (members_simulation _ _ Hmem)).
  assert (Hnext : next_read s1 = next_read s)
    by (unfold next_read; now rewrite Hreads).
  rewrite (read_response_real cs s1 Hs1). cbn [fst snd].
  unfold tty_read. rewrite Hnext.
  cbn [fst snd currentResponse set_tty_read_results set_currentResponse].
  set (received := map to_uint8 (firstn 8 (data (next_read s)))).
  destruct (err_code (next_read s) =? TTY_OK); [|discriminate].
  destruct (Z.eqb_spec (Z.of_nat (length received)) 8) as [Hlen|];
    [|discriminate].
  assert (Hlen' : length received = 8%nat) by lia.
  rewrite overlay_full by (exact Hlen' || reflexivity).
  cbn [andb].
  destruct (_ && _ && _); [|discriminate].
  destruct (_ =? _); [|discriminate].
  intros _. cbn [snd currentResponse set_tty_read_results set_currentResponse].
  auto.
Qed.

(** C6 (as the code has it): after a successful 'T' exchange that delivered
    the bytes [M k a b c d n z], the cached humidity is the signed 16-bit
    value of [(a<<8)|b] divided by 10 and the cached temperature is the
    signed 16-bit value of [(c<<8)|d] divided by 10 plus 273.15, each computed
    in [double] and narrowed to [float]: both raw fields go through the same
    [(short int)] cast. *)
Theorem getTemperature_decodes_signed cs s :
  simulation s = false ->
  fst (getTemperature cs s) = true ->
  let received := map to_uint8 (firstn 8 (data (next_read s))) in
  let raw_humidity := signed16 (256 * nth 2 received 0 + nth 3 received 0) in
  let raw_temperature :=
    signed16 (256 * nth 4 received 0 + nth 5 received 0) in
  let s' := snd (getTemperature cs s) in
  frame_bytes (currentResponse s') = received
  /\ currentHumidity s'
     = float_value
         (float_of_double
            (double_div (double_of_int raw_humidity) (double_of_int 10)))
  /\ currentTemperature s'
     = float_value
         (float_of_double
            (double_add
               (double_div (double_of_int raw_temperature) (double_of_int 10))
               double_273_15)).
Proof.
  intros Hs. cbv zeta. unfold getTemperature. rewrite Hs.
  assert (Hk : is_byte (chr "T")) by (vm_compute; split; congruence).
  pose proof (dispatch_command_response cs (chr "T") 0 s Hs Hk) as H.
  pose proof (dispatch_command_received cs (chr "T") 0 s Hs) as Hrec.
  destruct (dispatch_command cs (chr "T") 0 s) as [ok s1].
  cbn [fst snd] in H, Hrec. destruct ok; [|discriminate].
  intros _. cbn [fst snd]. destruct (H eq_refl) as [Hb _].
  destruct (Hrec eq_refl) as [Hlen Hresp].
  destruct (frame_bytes_fields _ Hb) as (Ha & Hb' & Hc & Hd).
  cbn [currentResponse currentHumidity currentTemperature
       set_currentHumidity set_currentTemperature].
  rewrite !to_int16_word by assumption.
  rewrite Hresp.
  cbn [command_of_bytes Cmd.a Cmd.b Cmd.c Cmd.d].
  split; [now apply frame_bytes_command_of_bytes|]. split; reflexivity.
Qed.

Lemma getTemperature_decodes_signed_witness :
  let s := on_line [reply (chr "T") 0x03 0x52 0xFF 0xEC] in
  let received := map to_uint8 (firstn 8 (data (next_read s))) in
  let raw_humidity := signed16 (256 * nth 2 received 0 + nth 3 received 0) in
  let raw_temperature :=
    signed16 (256 * nth 4 received 0 + nth 5 received 0) in
  let s' := snd (getTemperature false s) in
  frame_bytes (currentResponse s') = received
  /\ currentHumidity s'
     = float_value
         (float_of_double
            (double_div (double_of_int raw_humidity) (double_of_int 10)))
  /\ currentTemperature s'
     = float_value
         (float_of_double
            (double_add
               (double_div (double_of_int raw_temperature) (double_of_int 10))
               double_273_15)).
Proof.
  apply (getTemperature_decodes_signed false
           (on_line [reply (chr "T") 0x03 0x52 0xFF 0xEC])).
  - reflexivity.
  - vm_compute. reflexivity.
Defined.

(** Raw humidity 850 and raw temperature -20: the cache holds 85.0, which a
    [float] holds exactly, and the [float] nearest to 271.15, which is
    8885043 / 32768. *)
Example getTemperature_scenario :
  let s' := snd (getTemperature false
                   (on_line [reply (chr "T") 0x03 0x52 0xFF 0xEC])) in
  (currentHumidity s' == 85 /\ currentTemperature s' == 8885043 # 32768)%Q.
Proof. vm_compute. split; reflexivity. Qed.

(** C6, the claim as stated fails: for the raw humidity field [0xFFFF] the
    unsigned reading is 65535, that is 6553.5 percent, which a [float] holds
    exactly; the driver reads -1 and caches the [float] nearest to -0.1, a
    negative number. *)
Lemma getTemperature_humidity_unsigned_counterexample :
  let s := on_line [reply (chr "T") 0xFF 0xFF 0x00 0x00] in
  let s' := snd (getTemperature false s) in
  let r := currentResponse s' in
  fst (getTemperature false s) = true
  /\ Cmd.a r = 0xFF /\ Cmd.b r = 0xFF
  /\ (currentHumidity s' == - (13421773 # 134217728))%Q
  /\ (currentHumidity s' < 0)%Q
  /\ (float_value
        (float_of_double
           (double_div
              (double_of_int (Z.lor (Z.shiftl (Cmd.a r) 8) (Cmd.b r)))
              (double_of_int 10))) == 65535 # 10)%Q
  /\ ~ (currentHumidity s'
        == float_value
             (float_of_double
                (double_div
                   (double_of_int (Z.lor (Z.shiftl (Cmd.a r) 8) (Cmd.b r)))
                   (double_of_int 10))))%Q.
Proof.
  vm_compute. do 6 (split; [reflexivity|]). discriminate.
Qed.

(** ** Failed reads and the cache *)

Lemma getPosition_failed cs s :
  fst (getPosition cs s) = false ->
  members (snd (getPosition cs s)) = members s.
Proof.
  unfold getPosition. destruct (simulation s); [discriminate|].
  pose proof (dispatch_command_members cs (chr "P") 0 s) as H.
  destruct (dispatch_command cs (chr "P") 0 s) as [ok s1].
  destruct ok; [discriminate|]. intros _. exact H.
Qed.

Lemma getTemperature_failed cs s :
  fst (getTemperature cs s) = false ->
  members (snd (getTemperature cs s)) = members s.
Proof.
  unfold getTemperature. destruct (simulation s); [discriminate|].
  pose proof (dispatch_command_members cs (chr "T") 0 s) as H.
  destruct (dispatch_command cs (chr "T") 0 s) as [ok s1].
  destruct ok; [discriminate|]. intros _. exact H.
Qed.

(** C8 (as the code has it): a failed [getPosition] or [getTemperature]
    leaves every cached field as it was.  A failed [getStatus] leaves the
    position, [isAbsolute], the temperature and the humidity as they were;
    [isMoving] is as it was when the 'I' exchange failed, and holds the value
    just read when 'I' succeeded and 'W' failed. *)
Theorem failed_read_keeps_cache cs s :
  (fst (getPosition cs s) = false -> cache (snd (getPosition cs s)) = cache s)
  /\ (fst (getTemperature cs s) = false ->
      cache (snd (getTemperature cs s)) = cache s)
  /\ (fst (getStatus cs s) = false ->
      let s' := snd (getStatus cs s) in
      let moving := dispatch_command cs (chr "I") 0 s in
      currentPosition s' = currentPosition s
      /\ isAbsolute s' = isAbsolute s
      /\ currentTemperature s' = currentTemperature s
      /\ currentHumidity s' = currentHumidity s
      /\ isMoving s' = if fst moving
                       then Cmd.d (currentResponse (snd moving)) =? 1
                       else isMoving s).
Proof.
  split; [|split].
  - intros H. now apply members_cache, getPosition_failed.
  - intros H. now apply members_cache, getTemperature_failed.
  - unfold getStatus. destruct (simulation s); [discriminate|]. cbn [negb].
    pose proof (dispatch_command_members cs (chr "I") 0 s) as H1.
    destruct (dispatch_command cs (chr "I") 0 s) as [moving s1].
    cbn [fst snd] in *. destruct moving.
    + pose proof (dispatch_command_members cs (chr "W") 0
                    (set_isMoving (Cmd.d (currentResponse s1) =? 1) s1)) as H2.
      destruct (dispatch_command cs (chr "W") 0
                  (set_isMoving (Cmd.d (currentResponse s1) =? 1) s1))
        as [absolute s3].
      cbn [snd] in H2. destruct absolute; [discriminate|]. intros _.
      cbn [snd]. unfold members in H1, H2.
      cbn [set_isMoving connected simulation FocusAbsPosNP_s FocusAbsPosN_value
           FocusRelPosNP_s StatusSP_s StatusS0_s StatusS1_s EnvironmentNP_s
           EnvironmentN0_value EnvironmentN1_value MaxPositionN_value
           simulatedTemperature simulatedHumidity simulatedPosition
           currentTemperature currentHumidity currentPosition isAbsolute
           isMoving] in H2.
      inversion H1. inversion H2. repeat split; congruence.
    + intros _. unfold members in H1. inversion H1. repeat split; congruence.
Qed.

Lemma failed_read_keeps_cache_witness :
  let s := connected_driver false blank_response [TTY_OK]
             [mkTtyRead TTY_TIME_OUT [0x4D; 0x50; 0x00]] in
  fst (getPosition false s) = false
  /\ cache (snd (getPosition false s)) = cache s.
Proof.
  split; [reflexivity|].
  apply (failed_read_keeps_cache false
           (connected_driver false blank_response [TTY_OK]
              [mkTtyRead TTY_TIME_OUT [0x4D; 0x50; 0x00]])).
  reflexivity.
Defined.

(** C8, the claim as stated fails for the status read: 'I' answers "moving",
    the read of the 'W' response times out, [getStatus] returns false and
    [isMoving] has changed from false to true. *)
Lemma getStatus_failure_changes_isMoving_counterexample :
  let s := connected_driver false blank_response [TTY_OK; TTY_OK]
             [mkTtyRead TTY_OK (reply (chr "I") 0 0 0 1);
              mkTtyRead TTY_TIME_OUT []] in
  fst (getStatus false s) = false
  /\ isMoving s = false
  /\ isMoving (snd (getStatus false s)) = true
  /\ cache (snd (getStatus false s)) <> cache s.
Proof.
  repeat split. vm_compute. discriminate.
Qed.

(** ** The polling tick *)

Lemma members_config s s' : members s' = members s -> config s' = config s.
Proof. unfold members, config. intros H. now inversion H. Qed.

Lemma getStatus_config cs s : config (snd (getStatus cs s)) = config s.
Proof.
  unfold getStatus. destruct (simulation s); [reflexivity|]. cbn [negb].
  pose proof (members_config _ _ (dispatch_command_members cs (chr "I") 0 s))
    as H1.
  destruct (dispatch_command cs (chr "I") 0 s) as [moving s1]. cbn [snd] in H1.
  destruct moving; [|exact H1].
  pose proof (members_config _ _
                (dispatch_command_members cs (chr "W") 0
                   (set_isMoving (Cmd.d (currentResponse s1) =? 1) s1))) as H2.
  destruct (dispatch_command cs (chr "W") 0
              (set_isMoving (Cmd.d (currentResponse s1) =? 1) s1))
    as [absolute s3].
  cbn [snd] in H2. rewrite <- H1.
  destruct absolute; cbn [snd]; exact H2.
Qed.

Lemma TimerHit_status_config s : config (TimerHit_status s) = config s.
Proof.
  destruct s. unfold TimerHit_status. cbn. case_ifs; reflexivity.
Qed.

Lemma getTemperature_config cs s : config (snd (getTemperature cs s)) = config s.
Proof.
  unfold getTemperature. destruct (simulation s); [reflexivity|].
  pose proof (members_config _ _ (dispatch_command_members cs (chr "T") 0 s))
    as H1.
  destruct (dispatch_command cs (chr "T") 0 s) as [ok s1]. cbn [snd] in H1.
  destruct ok; exact H1.
Qed.

Lemma TimerHit_environment_config cs s :
  config (TimerHit_environment cs s) = config s.
Proof.
  unfold TimerHit_environment.
  pose proof (getTemperature_config cs s) as H.
  destruct (getTemperature cs s) as [ok s1]. cbn [snd] in H.
  destruct ok; [|exact H].
  destruct (negb (Qeq_bool (EnvironmentN0_value s1) (currentTemperature s1))
            || negb (Qeq_bool (EnvironmentN1_value s1) (currentHumidity s1)));
    exact H.
Qed.

Lemma request_P cs :
  option_map frame_bytes (command_frame cs (chr "P") 0)
  = Some [0x4D; 0x50; 0; 0; 0; 0; 0; 0x9D].
Proof. destruct cs; reflexivity. Qed.

(** Outside simulation [getPosition] sends the 'P' request, and nothing else. *)
Lemma getPosition_written cs s :
  simulation s = false ->
  tty_written (snd (getPosition cs s))
  = tty_written s ++ [[0x4D; 0x50; 0; 0; 0; 0; 0; 0x9D]].
Proof.
  intros Hs. unfold getPosition. rewrite Hs.
  pose proof (request_P cs) as Hf.
  destruct (command_frame cs (chr "P") 0) as [f|] eqn:E; [|discriminate].
  cbn [option_map] in Hf.
  assert (Hfb : frame_bytes f = [0x4D; 0x50; 0; 0; 0; 0; 0; 0x9D]) by congruence.
  pose proof (dispatch_command_written cs (chr "P") 0 f s E Hs) as Hw.
  destruct (dispatch_command cs (chr "P") 0 s) as [ok s1]. cbn [snd] in Hw.
  rewrite Hfb in Hw. now destruct ok.
Qed.

(** A successful [getPosition] caches a value of the [int32_t] range. *)
Lemma getPosition_int32 cs s :
  is_int32 (simulatedPosition s) -> fst (getPosition cs s) = true ->
  is_int32 (currentPosition (snd (getPosition cs s))).
Proof.
  intros Hsim. unfold getPosition. destruct (simulation s); [intros _; exact Hsim|].
  destruct (dispatch_command cs (chr "P") 0 s) as [ok s1].
  destruct ok; [|discriminate]. intros _. apply to_int32_range.
Qed.

Lemma to_uint32_eqb v w :
  is_int32 v -> is_int32 w -> (to_uint32 v =? to_uint32 w) = (v =? w).
Proof.
  unfold is_int32. intros Hv Hw.
  destruct (Z.eqb_spec v w) as [->|Hne]; [apply Z.eqb_refl|].
  apply Z.eqb_neq. intros H. apply Hne.
  rewrite <- (to_int32_small v), <- (to_int32_small w) by assumption.
  rewrite <- (to_int32_to_uint32 v), <- (to_int32_to_uint32 w). now rewrite H.
Qed.


(** The status the tick reaches the position block with is not IDLE when it
    was not IDLE at the start of the tick, and when the focuser is moving. *)
Lemma TimerHit_environment_status cs s :
  FocusAbsPosNP_s (TimerHit_environment cs s) = FocusAbsPosNP_s s.
Proof.
  unfold TimerHit_environment, getTemperature.
  destruct (simulation s); [now destruct (_ || _)|].
  pose proof (dispatch_command_members cs (chr "T") 0 s) as H.
  destruct (dispatch_command cs (chr "T") 0 s) as [ok s1]. cbn [snd] in H.
  unfold members in H. inversion H.
  destruct ok; [|reflexivity]. now destruct (_ || _).
Qed.

Lemma TimerHit_status_not_idle s :
  FocusAbsPosNP_s s <> IPS_IDLE \/ isMoving s = true ->
  FocusAbsPosNP_s (TimerHit_status s) <> IPS_IDLE.
Proof.
  destruct s as [? ? status ? ? ? ? ? ? ? ? ? ? ? ? ? ? ? absolute moving ? ? ? ?].
  unfold TimerHit_status. cbn.
  destruct moving, absolute, status; cbn; intuition congruence.
Qed.

Lemma getStatus_status cs s :
  FocusAbsPosNP_s (snd (getStatus cs s)) = FocusAbsPosNP_s s.
Proof.
  unfold getStatus. destruct (simulation s); [reflexivity|]. cbn [negb].
  pose proof (dispatch_command_members cs (chr "I") 0 s) as H1.
  destruct (dispatch_command cs (chr "I") 0 s) as [moving s1]. cbn [snd] in H1.
  assert (E1 : FocusAbsPosNP_s s1 = FocusAbsPosNP_s s)
    by (unfold members in H1; now inversion H1).
  destruct moving; [|exact E1].
  pose proof (dispatch_command_members cs (chr "W") 0
                (set_isMoving (Cmd.d (currentResponse s1) =? 1) s1)) as H2.
  destruct (dispatch_command cs (chr "W") 0
              (set_isMoving (Cmd.d (currentResponse s1) =? 1) s1))
    as [absolute s3].
  cbn [snd] in H2.
  assert (E2 : FocusAbsPosNP_s s3 = FocusAbsPosNP_s s1)
    by (unfold members in H2; now inversion H2).
  rewrite <- E1, <- E2. now destruct absolute.
Qed.

(** A tick that starts with a status other than IDLE reaches the position
    block with a status other than IDLE. *)
Lemma TimerHit_reaches_position_block cs s :
  FocusAbsPosNP_s s <> IPS_IDLE ->
  FocusAbsPosNP_s
    (TimerHit_environment cs (TimerHit_status (snd (getStatus cs s))))
  <> IPS_IDLE.
Proof.
  intros H. rewrite TimerHit_environment_status.
  apply TimerHit_status_not_idle. left. now rewrite getStatus_status.
Qed.



(** Three ticks while the focuser moves from 0 to 200: 'I' answers 1, 1, 0
    and 'P' answers 100, 200, 200.  The status goes BUSY, BUSY, OK. *)
Example TimerHit_three_ticks :
  let tick d p := [reply (chr "I") 0 0 0 d; reply (chr "W") 0 0 0 1;
                   reply (chr "T") 0 0 0 0; reply (chr "P") 0 0 0 p] in
  let s1 := TimerHit false (on_line (tick 1 100 ++ tick 1 200 ++ tick 0 200)) in
  let s2 := TimerHit false s1 in
  let s3 := TimerHit false s2 in
  map FocusAbsPosNP_s [s1; s2; s3] = [IPS_BUSY; IPS_BUSY; IPS_OK]
  /\ map currentPosition [s1; s2; s3] = [100; 200; 200].
Proof. vm_compute. split; reflexivity. Qed.

(** A tick that starts IDLE with the focuser at rest asks for no position. *)
Example TimerHit_idle_tick :
  let s := on_line [reply (chr "I") 0 0 0 0; reply (chr "W") 0 0 0 1;
                    reply (chr "T") 0 0 0 0] in
  FocusAbsPosNP_s (TimerHit false s) = IPS_IDLE
  /\ length (tty_written (TimerHit false s)) = 3%nat.
Proof. vm_compute. split; reflexivity. Qed.

(** ** Moves *)

Lemma to_int32_add_r v w : to_int32 (v + to_int32 w) = to_int32 (v + w).
Proof.
  unfold to_int32.
  rewrite (Z.mod_eq (w + 2 ^ 31) (2 ^ 32)) by lia.
  replace (v + (w + 2 ^ 31 - 2 ^ 32 * ((w + 2 ^ 31) / 2 ^ 32) - 2 ^ 31) + 2 ^ 31)
    with (v + w + 2 ^ 31 + (- ((w + 2 ^ 31) / 2 ^ 32)) * 2 ^ 32) by ring.
  now rewrite Z.mod_add by lia.
Qed.

Lemma to_int32_mul_l v w : to_int32 (to_int32 v * w) = to_int32 (v * w).
Proof.
  unfold to_int32.
  rewrite (Z.mod_eq (v + 2 ^ 31) (2 ^ 32)) by lia.
  replace ((v + 2 ^ 31 - 2 ^ 32 * ((v + 2 ^ 31) / 2 ^ 32) - 2 ^ 31) * w + 2 ^ 31)
    with (v * w + 2 ^ 31 + (- ((v + 2 ^ 31) / 2 ^ 32) * w) * 2 ^ 32) by ring.
  now rewrite Z.mod_add by lia.
Qed.

Lemma finalTicks_target dir n s :
  finalTicks dir n s = to_int32 (currentPosition s + offset dir n).
Proof.
  unfold finalTicks, offset.
  rewrite to_int32_add_r, <- (to_int32_add_r _ (_ * _)), to_int32_mul_l.
  rewrite to_int32_add_r. f_equal. destruct dir; ring.
Qed.

Lemma setPosition_members cs p s :
  members (snd (setPosition cs p s)) = members s.
Proof.
  unfold setPosition.
  pose proof (dispatch_command_members cs (chr "M") (to_uint32 p) s) as H.
  destruct (dispatch_command cs (chr "M") (to_uint32 p) s) as [ok s1].
  cbn [snd] in H. destruct ok; [|exact H].
  now destruct (to_int32 (response_word (currentResponse s1)) =? p).
Qed.

(** Outside simulation [setPosition] sends one frame, the 'M' request whose
    payload is the target as a 32-bit pattern. *)
Lemma setPosition_written cs p s :
  simulation s = false ->
  exists f,
    command_frame cs (chr "M") (to_uint32 p) = Some f
    /\ Cmd.k f = chr "M"
    /\ response_word f = to_uint32 p
    /\ tty_written (snd (setPosition cs p s)) = tty_written s ++ [frame_bytes f].
Proof.
  intros Hs.
  destruct (command_frame_payload cs (chr "M") (to_uint32 p) (or_introl eq_refl))
    as (f & Hf & Hk & _ & _ & _ & _ & Hw).
  exists f. split; [exact Hf|]. split; [exact Hk|]. split.
  { rewrite Hw. unfold to_uint32. apply Z.mod_mod. lia. }
  unfold setPosition.
  pose proof (dispatch_command_written cs (chr "M") (to_uint32 p) f s Hf Hs) as H.
  destruct (dispatch_command cs (chr "M") (to_uint32 p) s) as [ok s1].
  cbn [snd] in H. destruct ok; [|exact H].
  now destruct (to_int32 (response_word (currentResponse s1)) =? p).
Qed.

(** C5: for either direction and every tick count [n], [MoveRelFocuser] is
    [setPosition] at the cached position plus [-n] (inward) or [+n] (outward),
    computed in 32 bits; outside simulation it sends exactly one frame, the
    'M' request whose payload is that target; the cached position is not
    read again before the move and keeps its value. *)
Theorem MoveRelFocuser_issues_move cs dir n s :
  let target := currentPosition s + offset dir n in
  MoveRelFocuser cs dir n s
  = (let '(ok, s1) := setPosition cs (to_int32 target) s in
     if ok then (IPS_OK, set_FocusRelPosNP_s IPS_OK s1) else (IPS_ALERT, s1))
  /\ currentPosition (snd (MoveRelFocuser cs dir n s)) = currentPosition s
  /\ (simulation s = false ->
      exists f,
        command_frame cs (chr "M") (to_uint32 target) = Some f
        /\ Cmd.k f = chr "M"
        /\ response_word f = to_uint32 target
        /\ (is_int32 target -> to_int32 (response_word f) = target)
        /\ tty_written (snd (MoveRelFocuser cs dir n s))
           = tty_written s ++ [frame_bytes f]).
Proof.
  cbv zeta. unfold MoveRelFocuser. rewrite finalTicks_target.
  set (target := currentPosition s + offset dir n).
  split; [reflexivity|].
  pose proof (setPosition_members cs (to_int32 target) s) as Hm.
  pose proof (setPosition_written cs (to_int32 target) s) as Hw.
  destruct (setPosition cs (to_int32 target) s) as [ok s1]. cbn [snd] in *.
  split.
  { unfold members in Hm. inversion Hm. now destruct ok. }
  intros Hs. destruct (Hw Hs) as (f & Hf & Hk & Hword & Hwritten).
  rewrite to_uint32_to_int32 in Hf, Hword.
  exists f. split; [exact Hf|]. split; [exact Hk|]. split; [exact Hword|].
  split.
  { intros Hrange. rewrite Hword, to_int32_to_uint32.
    now apply to_int32_small. }
  now destruct ok.
Qed.

Lemma MoveRelFocuser_issues_move_witness :
  let s := on_line [reply (chr "P") 0 0 0x03 0xE8; reply (chr "M") 0 0 0x03 0x48] in
  let s := snd (getPosition false s) in
  exists f,
    command_frame false (chr "M") (to_uint32 (1000 + offset FOCUS_INWARD 160))
    = Some f
    /\ Cmd.k f = chr "M"
    /\ response_word f = to_uint32 (1000 + offset FOCUS_INWARD 160)
    /\ (is_int32 (1000 + offset FOCUS_INWARD 160) ->
        to_int32 (response_word f) = 1000 + offset FOCUS_INWARD 160)
    /\ tty_written (snd (MoveRelFocuser false FOCUS_INWARD 160 s))
       = tty_written s ++ [frame_bytes f].
Proof.
  apply (MoveRelFocuser_issues_move false FOCUS_INWARD 160
           (snd (getPosition false
                   (on_line [reply (chr "P") 0 0 0x03 0xE8;
                             reply (chr "M") 0 0 0x03 0x48])))).
  reflexivity.
Defined.

(** A relative move of 160 ticks inward from position 1000 asks for 840. *)
Example MoveRelFocuser_inward :
  let s := snd (getPosition false
                  (on_line [reply (chr "P") 0 0 0x03 0xE8;
                            reply (chr "M") 0 0 0x03 0x48])) in
  currentPosition s = 1000
  /\ fst (MoveRelFocuser false FOCUS_INWARD 160 s) = IPS_OK
  /\ tty_written (snd (MoveRelFocuser false FOCUS_INWARD 160 s))
     = [[0x4D; 0x50; 0; 0; 0; 0; 0; 0x9D]; [0x4D; 0x4D; 0; 0; 0x03; 0x48; 0; 0xE5]].
Proof. vm_compute. repeat split; reflexivity. Qed.

(** C7 (as the code has it): [MoveAbsFocuser] compares its target with no
    bound.  Outside simulation, whatever the maximum position the driver
    holds, it sends the 'M' request carrying the target, for every target. *)
Theorem MoveAbsFocuser_dispatches_every_target cs t s :
  simulation s = false ->
  0 <= t < 2 ^ 32 ->
  exists f,
    command_frame cs (chr "M") t = Some f
    /\ Cmd.k f = chr "M"
    /\ response_word f = t
    /\ tty_written (snd (MoveAbsFocuser cs t s))
       = tty_written s ++ [frame_bytes f].
Proof.
  intros Hs Ht. unfold MoveAbsFocuser.
  destruct (setPosition_written cs (to_int32 t) s Hs)
    as (f & Hf & Hk & Hword & Hwritten).
  rewrite to_uint32_to_int32, to_uint32_small in Hf, Hword by exact Ht.
  exists f. split; [exact Hf|]. split; [exact Hk|]. split; [exact Hword|].
  destruct (setPosition cs (to_int32 t) s) as [ok s1]. cbn [snd] in *.
  now destruct ok.
Qed.

Lemma MoveAbsFocuser_dispatches_every_target_witness :
  let s := on_line [reply (chr "M") 0x00 0x06 0x1A 0x80] in
  exists f,
    command_frame false (chr "M") 400000 = Some f
    /\ Cmd.k f = chr "M"
    /\ response_word f = 400000
    /\ tty_written (snd (MoveAbsFocuser false 400000 s))
       = tty_written s ++ [frame_bytes f].
Proof.
  apply (MoveAbsFocuser_dispatches_every_target false 400000
           (on_line [reply (chr "M") 0x00 0x06 0x1A 0x80])).
  - reflexivity.
  - lia.
Defined.

(** C7, the claim as stated fails: with the maximum position at 300000, the
    target 400000 is not rejected; the 'M' frame for 400000 goes out and,
    the device echoing it, the move is reported OK. *)
Lemma MoveAbsFocuser_out_of_bounds_counterexample :
  let s := on_line [reply (chr "M") 0x00 0x06 0x1A 0x80] in
  MaxPositionN_value s = 300000
  /\ Z.abs 400000 > MaxPositionN_value s
  /\ tty_written s = []
  /\ tty_written (snd (MoveAbsFocuser false 400000 s))
     = [[0x4D; 0x4D; 0x00; 0x06; 0x1A; 0x80; 0x00; 0x3A]]
  /\ fst (MoveAbsFocuser false 400000 s) = IPS_OK.
Proof. vm_compute. repeat split; reflexivity. Qed.

(** C10: [MoveAbsFocuser] hands its [uint32_t] target to the [int32_t]
    parameter of [setPosition] as the same 32-bit pattern: a target below
    [2^31] is commanded as it is, a target from [2^31] on as the negative
    value [t - 2^32]; no target is turned away, the 'M' frame goes out for
    each. *)
Theorem MoveAbsFocuser_reinterprets_ticks cs t s :
  0 <= t < 2 ^ 32 ->
  let target := if t <? 2 ^ 31 then t else t - 2 ^ 32 in
  MoveAbsFocuser cs t s
  = (let '(ok, s1) := setPosition cs target s in
     if ok then (IPS_OK, set_FocusAbsPosNP_s IPS_OK s1) else (IPS_ALERT, s1))
  /\ is_int32 target
  /\ (simulation s = false ->
      exists f,
        command_frame cs (chr "M") t = Some f
        /\ to_int32 (response_word f) = target
        /\ tty_written (snd (MoveAbsFocuser cs t s))
           = tty_written s ++ [frame_bytes f]).
Proof.
  intros Ht. cbv zeta. unfold MoveAbsFocuser.
  rewrite <- (to_int32_of_uint32 t Ht).
  split; [reflexivity|]. split; [apply to_int32_range|].
  intros Hs.
  destruct (setPosition_written cs (to_int32 t) s Hs)
    as (f & Hf & Hk & Hword & Hwritten).
  rewrite to_uint32_to_int32 in Hf, Hword.
  rewrite to_uint32_small in Hf by exact Ht.
  exists f. split; [exact Hf|]. split.
  { now rewrite Hword, to_int32_to_uint32. }
  destruct (setPosition cs (to_int32 t) s) as [ok s1]. cbn [snd] in *.
  now destruct ok.
Qed.

Lemma MoveAbsFocuser_reinterprets_ticks_witness :
  let s := on_line [reply (chr "M") 0xFF 0xFF 0xFF 0xE0] in
  let t := 2 ^ 32 - 32 in
  let target := if t <? 2 ^ 31 then t else t - 2 ^ 32 in
  MoveAbsFocuser false t s
  = (let '(ok, s1) := setPosition false target s in
     if ok then (IPS_OK, set_FocusAbsPosNP_s IPS_OK s1) else (IPS_ALERT, s1))
  /\ is_int32 target
  /\ (simulation s = false ->
      exists f,
        command_frame false (chr "M") t = Some f
        /\ to_int32 (response_word f) = target
        /\ tty_written (snd (MoveAbsFocuser false t s))
           = tty_written s ++ [frame_bytes f]).
Proof.
  apply (MoveAbsFocuser_reinterprets_ticks false (2 ^ 32 - 32)
           (on_line [reply (chr "M") 0xFF 0xFF 0xFF 0xE0])).
  lia.
Defined.

(** The absolute move to -32 arrives as the tick count [0xFFFFFFE0]. *)
Example MoveAbsFocuser_negative_target :
  let s := on_line [reply (chr "M") 0xFF 0xFF 0xFF 0xE0] in
  fst (MoveAbsFocuser false (2 ^ 32 - 32) s) = IPS_OK
  /\ tty_written (snd (MoveAbsFocuser false (2 ^ 32 - 32) s))
     = [[0x4D; 0x4D; 0xFF; 0xFF; 0xFF; 0xE0; 0x00; 0x77]].
Proof. vm_compute. split; reflexivity. Qed.

(** ** Simulation *)

Lemma setSync_members cs p s : members (snd (setSync cs p s)) = members s.
Proof.
  unfold setSync.
  pose proof (dispatch_command_members cs (chr "Z") p s) as H.
  destruct (dispatch_command cs (chr "Z") p s) as [ok s1].
  cbn [snd] in H. destruct ok; [|exact H].
  now destruct (to_uint32 (to_int32 (response_word (currentResponse s1))) =? p).
Qed.

Lemma setSync_simulated_written cs p s :
  simulation s = true -> tty_written (snd (setSync cs p s)) = tty_written s.
Proof.
  intros Hs. unfold setSync.
  pose proof (dispatch_command_simulated cs (chr "Z") p s Hs) as H.
  destruct (dispatch_command cs (chr "Z") p s) as [ok s1].
  cbn [snd] in H. destruct ok; [|exact H].
  now destruct (to_uint32 (to_int32 (response_word (currentResponse s1))) =? p).
Qed.

(** C9 (as the code has it): in simulation, for every [x], [setSync x]
    followed by [getPosition] leaves the simulated position in the cache,
    whatever [x] is: [getPosition] succeeds, [setSync] does not touch the
    simulated position, and nothing reaches the line. *)
Theorem simulated_sync_then_getPosition cs x s :
  simulation s = true ->
  let synced := snd (setSync cs x s) in
  fst (getPosition cs synced) = true
  /\ currentPosition (snd (getPosition cs synced)) = simulatedPosition s
  /\ simulatedPosition (snd (getPosition cs synced)) = simulatedPosition s
  /\ tty_written (snd (getPosition cs synced)) = tty_written s.
Proof.
  intros Hs. cbv zeta.
  pose proof (setSync_members cs x s) as Hm.
  pose proof (setSync_simulated_written cs x s Hs) as Hw.
  destruct (setSync cs x s) as [ok s1]. cbn [snd] in *.
  unfold members in Hm. inversion Hm as [[Hc Hsim H3 H4 H5 H6 H7 H8 H9 H10 H11
                                          H12 H13 H14 Hpos]].
  unfold getPosition. rewrite Hsim, Hs. cbn [fst snd].
  cbn [currentPosition simulatedPosition tty_written set_currentPosition].
  repeat split; assumption.
Qed.

Lemma simulated_sync_then_getPosition_witness :
  let s := connected_driver true blank_response [] [] in
  let synced := snd (setSync false 5 s) in
  fst (getPosition false synced) = true
  /\ currentPosition (snd (getPosition false synced)) = simulatedPosition s
  /\ simulatedPosition (snd (getPosition false synced)) = simulatedPosition s
  /\ tty_written (snd (getPosition false synced)) = tty_written s.
Proof.
  apply (simulated_sync_then_getPosition false 5
           (connected_driver true blank_response [] [])).
  reflexivity.
Defined.

(** C9, the claim as stated fails: in simulation, after [setSync 5] and
    [getPosition] the cached position is the simulated 2000, not 5; and with
    the response bytes the simulation never fills at zero, [setSync 5]
    itself reports failure. *)
Lemma simulated_sync_counterexample :
  let s := connected_driver true blank_response [] [] in
  let synced := setSync false 5 s in
  simulation s = true
  /\ currentPosition (snd (getPosition false (snd synced))) = 2000
  /\ currentPosition (snd (getPosition false (snd synced))) <> 5
  /\ fst synced = false.
Proof. vm_compute. repeat split; try reflexivity. discriminate. Qed.

(** * Further properties of the driver *)

(** ** One exchange on a line that answers *)

Lemma map_to_uint8_bytes l : Forall is_byte l -> map to_uint8 l = l.
Proof.
  induction 1 as [|v l Hv _ IH]; [reflexivity|].
  cbn [map]. rewrite IH. f_equal. apply Z.mod_small. exact Hv.
Qed.

Lemma checked_frame_received l :
  checked_frame l -> map to_uint8 (firstn 8 l) = l.
Proof.
  intros (Hlen & Hb & _).
  rewrite firstn_all2 by lia. now apply map_to_uint8_bytes.
Qed.

Lemma command_frame_Some_known cs k l f :
  command_frame cs k l = Some f -> In k known_opcodes.
Proof.
  unfold command_frame, known_opcodes. intros H.
  repeat match type of H with
         | (if ?b then _ else _) = _ => destruct b eqn:?
         end; [| | |discriminate];
    repeat match goal with
           | E : (_ || _) = true |- _ => apply orb_true_iff in E; destruct E
           | E : (_ =? _) = true |- _ => apply Z.eqb_eq in E; subst k
           end; cbn [map In]; tauto.
Qed.

Lemma known_opcode_plain k :
  In k known_opcodes -> is_byte k /\ k <> chr "!" /\ k <> chr "?".
Proof.
  intros H. vm_compute in H. unfold is_byte.
  change (chr "!") with 33. change (chr "?") with 63.
  intuition (subst; lia).
Qed.

Lemma send_command_accepted cs k l f s rest :
  simulation s = false ->
  command_frame cs k l = Some f ->
  tty_write_results s = TTY_OK :: rest ->
  send_command cs k l s
  = (true,
     set_tty_write_results rest
       (set_tty_written (tty_written s ++ [frame_bytes f]) s)).
Proof.
  intros Hs Hf Hw. unfold send_command, tty_write. now rewrite Hf, Hs, Hw.
Qed.

(** The whole of one exchange, when the write is accepted and a checked
    frame comes back: the dispatcher succeeds exactly when that frame carries
    the opcode that was sent; the frame is in [currentResponse]; one request
    went out and one scripted write and read were used. *)
Lemma dispatch_command_exchange cs k l f s bytes :
  simulation s = false ->
  command_frame cs k l = Some f ->
  next_exchange s bytes ->
  checked_frame bytes ->
  let r := dispatch_command cs k l s in
  fst r = (nth 1 bytes 0 =? k)
  /\ currentResponse (snd r) = command_of_bytes bytes
  /\ members (snd r) = members s
  /\ line (snd r)
     = (tty_written s ++ [frame_bytes f], tl (tty_write_results s),
        tl (tty_read_results s)).
Proof.
  intros Hs Hf [[wrest Hw] [rrest Hr]] Hchk. cbv zeta.
  destruct (known_opcode_plain k (command_frame_Some_known _ _ _ _ Hf))
    as (Hkb & Hk1 & Hk2).
  unfold dispatch_command.
  rewrite (send_command_accepted cs k l f s wrest Hs Hf Hw).
  set (s1 := set_tty_write_results wrest
               (set_tty_written (tty_written s ++ [frame_bytes f]) s)).
  assert (Hs1 : simulation s1 = false) by exact Hs.
  rewrite (read_response_real cs s1 Hs1).
  assert (Hread : tty_read s1
                  = ((TTY_OK, 8),
                     set_tty_read_results rrest
                       (set_currentResponse (command_of_bytes bytes) s1))).
  { unfold tty_read, next_read.
    change (tty_read_results s1) with (tty_read_results s). rewrite Hr.
    cbn [data err_code tl]. rewrite (checked_frame_received _ Hchk).
    destruct Hchk as (Hlen & _ & _).
    rewrite overlay_full by (exact Hlen || reflexivity).
    now rewrite Hlen. }
  rewrite Hread. cbn [fst snd].
  set (s2 := set_tty_read_results rrest
               (set_currentResponse (command_of_bytes bytes) s1)).
  change (currentResponse s2) with (command_of_bytes bytes).
  rewrite calculate_checksum_sum.
  destruct Hchk as (Hlen & Hbytes & Hz).
  do 8 (destruct bytes as [|? bytes]; [discriminate|]).
  destruct bytes; [|discriminate].
  cbn [command_of_bytes nth Cmd.M Cmd.k Cmd.a Cmd.b Cmd.c Cmd.d Cmd.n Cmd.z]
    in *.
  cbn [firstn byte_sum fold_right] in Hz.
  assert (Hzb : is_byte z0 /\ is_byte z5).
  { repeat match goal with
           | H : Forall _ (_ :: _) |- _ => inversion H; clear H; subst
           end. auto. }
  destruct Hzb as [Hb0 Hb5].
  replace (z + z0 + z1 + z2 + z3 + z4 + z5)
    with (z + (z0 + (z1 + (z2 + (z3 + (z4 + (z5 + 0))))))) by ring.
  rewrite <- Hz. rewrite !Z.eqb_refl.
  rewrite !(char_to_int_eqb cs z0) by (assumption || (vm_compute; split; congruence)).
  rewrite (char_to_int_inj cs z0 k Hb0 Hkb).
  cbn [andb].
  rewrite Hw, Hr. cbn [tl].
  destruct (Z.eqb_spec z0 k) as [->|Hne].
  - destruct (Z.eqb_spec k (chr "!")); [contradiction|].
    destruct (Z.eqb_spec k (chr "?")); [contradiction|].
    cbn [negb andb fst snd]. do 3 (split; [reflexivity|]). reflexivity.
  - destruct (z0 =? chr "!"), (z0 =? chr "?"); cbn [negb andb fst snd];
      (do 3 (split; [reflexivity|])); reflexivity.
Qed.

Lemma command_frame_checked cs k l f :
  command_frame cs k l = Some f -> checked_frame (frame_bytes f).
Proof.
  intros Hf.
  destruct (command_frame_fields _ _ _ _ Hf)
    as (HM & Hk & Hn & Hz & Ha & Hb & Hc & Hd).
  destruct (known_opcode_plain k (command_frame_Some_known _ _ _ _ Hf))
    as (Hkb & _ & _).
  split; [reflexivity|]. split.
  - unfold frame_bytes. rewrite HM, Hk, Hn, Hz.
    assert (is_byte (chr "M")) by (unfold is_byte; change (chr "M") with 77; lia).
    assert (is_byte 0) by (unfold is_byte; lia).
    pose proof (calculate_checksum_range cs f).
    repeat (apply Forall_cons; [assumption|]). apply Forall_nil.
  - cbn [frame_bytes nth firstn byte_sum fold_right].
    rewrite Hz, calculate_checksum_sum. f_equal. ring.
Qed.

Lemma request_frame cs k l f :
  command_frame cs k l = Some f -> request cs k l = frame_bytes f.
Proof. intros H. unfold request. now rewrite H. Qed.

(** X1: the checksum does not depend on whether the compiler makes plain
    [char] signed: [calculate_checksum] gives the same byte either way, for
    every frame, also one whose [M] or [k] byte is 128 or more. *)
Theorem calculate_checksum_char_signedness f :
  calculate_checksum true f = calculate_checksum false f.
Proof. now rewrite !calculate_checksum_sum. Qed.

Lemma set_nth_length i v l : length (set_nth i v l) = length l.
Proof.
  revert i. induction l as [|h t IH]; intros [|i]; cbn [set_nth length];
    try reflexivity. now rewrite IH.
Qed.

Lemma set_nth_bytes i v l :
  is_byte v -> Forall is_byte l -> Forall is_byte (set_nth i v l).
Proof.
  intros Hv Hl. revert i. induction Hl as [|h t Hh Ht IH]; intros [|i];
    cbn [set_nth]; auto.
Qed.

(** X2: the checksum catches every change of a single byte.  When the bytes
    that arrive are a checked frame with one byte, at any of the eight
    positions, replaced by a different byte, [read_response] fails. *)
Theorem read_response_rejects_single_byte_change cs s l i v :
  simulation s = false ->
  checked_frame l ->
  (i < 8)%nat ->
  is_byte v ->
  v <> nth i l 0 ->
  data (next_read s) = set_nth i v l ->
  fst (read_response cs s) = false.
Proof.
  intros Hs (Hlen & Hb & Hz) Hi Hv Hne Hd.
  rewrite (read_response_real cs s Hs). cbn [fst].
  assert (Hgot : map to_uint8 (firstn 8 (data (next_read s))) = set_nth i v l).
  { rewrite Hd, firstn_all2 by (rewrite set_nth_length; lia).
    apply map_to_uint8_bytes. now apply set_nth_bytes. }
  unfold tty_read. cbn [fst snd currentResponse set_tty_read_results
                        set_currentResponse].
  rewrite Hgot.
  rewrite overlay_full by (rewrite ?set_nth_length; assumption || reflexivity).
  rewrite calculate_checksum_sum.
  assert (Hbad :
    ((Cmd.M (command_of_bytes (set_nth i v l))
      + Cmd.k (command_of_bytes (set_nth i v l))
      + Cmd.a (command_of_bytes (set_nth i v l))
      + Cmd.b (command_of_bytes (set_nth i v l))
      + Cmd.c (command_of_bytes (set_nth i v l))
      + Cmd.d (command_of_bytes (set_nth i v l))
      + Cmd.n (command_of_bytes (set_nth i v l))) mod 256
     =? Cmd.z (command_of_bytes (set_nth i v l))) = false).
  { apply Z.eqb_neq.
    do 8 (destruct l as [|? l]; [discriminate|]).
    destruct l; [|discriminate].
    repeat match goal with
           | H : Forall _ (_ :: _) |- _ => inversion H; clear H; subst
           end.
    cbn [nth firstn byte_sum fold_right] in Hz.
    unfold is_byte in *.
    do 8 (destruct i as [|i];
          [cbn [set_nth command_of_bytes nth Cmd.M Cmd.k Cmd.a Cmd.b Cmd.c
                Cmd.d Cmd.n Cmd.z] in *;
           Z.div_mod_to_equations; lia|]).
    lia. }
  rewrite Hbad. now rewrite !andb_false_r.
Qed.

Lemma read_response_rejects_single_byte_change_witness :
  fst (read_response false
         (connected_driver false blank_response []
            [mkTtyRead TTY_OK
               (set_nth 4 0xF5 [0x4D; 0x50; 0x00; 0x01; 0xF4; 0x00; 0x00; 0x92])]))
  = false.
Proof.
  apply (read_response_rejects_single_byte_change false _
           [0x4D; 0x50; 0x00; 0x01; 0xF4; 0x00; 0x00; 0x92] 4 0xF5).
  - reflexivity.
  - split; [reflexivity|]. split; [|reflexivity].
    repeat (apply Forall_cons; [unfold is_byte; lia|]). apply Forall_nil.
  - lia.
  - unfold is_byte. lia.
  - simpl. lia.
  - reflexivity.
Defined.

(** X3: an opcode outside the table is refused before anything happens: in
    either mode [dispatch_command] returns false and leaves the driver and
    the line exactly as they were. *)
Theorem dispatch_command_unknown_opcode cs k l s :
  ~ In k known_opcodes ->
  dispatch_command cs k l s = (false, s).
Proof.
  intros Hk. unfold dispatch_command.
  destruct (command_frame cs k l) as [f|] eqn:Hf.
  - exfalso. apply Hk. eapply command_frame_Some_known. exact Hf.
  - now rewrite (send_command_unknown cs k l s Hf).
Qed.

Lemma dispatch_command_unknown_opcode_witness :
  dispatch_command false (chr "X") 7 position_reply = (false, position_reply).
Proof.
  apply (dispatch_command_unknown_opcode false (chr "X") 7 position_reply).
  vm_compute. intuition discriminate.
Defined.

Lemma x_0_low l : x l 0 = l mod 256.
Proof.
  unfold x, to_uint32. change (8 * 0) with 0. rewrite Z.shiftr_0_r.
  change 255 with (Z.ones 8). rewrite Z.land_ones by lia.
  change (2 ^ 32) with 4294967296. change (2 ^ 8) with 256.
  rewrite (Z.mod_eq l 4294967296) by lia.
  replace (l - 4294967296 * (l / 4294967296))
    with (l + (- (l / 4294967296) * 16777216) * 256) by ring.
  apply Z.mod_add. lia.
Qed.

Lemma request_query cs k l :
  In k query_opcodes ->
  request cs k l = [0x4D; k; 0; 0; 0; 0; 0; (0x4D + k) mod 256].
Proof.
  intros Hk. unfold query_opcodes in Hk. cbn [map In] in Hk.
  repeat destruct Hk as [<-|Hk]; try contradiction; destruct cs; reflexivity.
Qed.

(** X4: the argument of a query never reaches the wire.  For 'H', 'P', 'I',
    'T', 'W', 'G' and 'V' the request is the same frame with payload
    [0 0 0 0] whatever argument is passed; for 'R' only the low byte of the
    argument is sent, in [d]. *)
Theorem command_frame_drops_argument cs k l :
  In k (map chr ["H"; "P"; "I"; "T"; "W"; "G"; "V"]%char) ->
  request cs k l = [0x4D; k; 0; 0; 0; 0; 0; (0x4D + k) mod 256]
  /\ request cs (chr "R") l
     = [0x4D; 0x52; 0; 0; 0; l mod 256; 0; (0x4D + 0x52 + l mod 256) mod 256].
Proof.
  intros Hk. split.
  - now apply request_query.
  - unfold request, command_frame.
    change ((chr "R" =? chr "M") || (chr "R" =? chr "Z")) with false.
    change ((chr "R" =? chr "H") || (chr "R" =? chr "P") || (chr "R" =? chr "I")
            || (chr "R" =? chr "T") || (chr "R" =? chr "W")
            || (chr "R" =? chr "G") || (chr "R" =? chr "V")) with false.
    change (chr "R" =? chr "R") with true. cbv iota beta.
    cbn [frame_bytes Cmd.M Cmd.k Cmd.a Cmd.b Cmd.c Cmd.d Cmd.n Cmd.z].
    rewrite calculate_checksum_sum.
    cbn [Cmd.M Cmd.k Cmd.a Cmd.b Cmd.c Cmd.d Cmd.n].
    rewrite x_0_low. change (chr "M") with 77. change (chr "R") with 82.
    replace (77 + 82 + 0 + 0 + 0 + l mod 256 + 0)
      with (77 + 82 + l mod 256) by ring.
    reflexivity.
Qed.

Lemma command_frame_drops_argument_witness :
  request false (chr "P") 123456 = [0x4D; 0x50; 0; 0; 0; 0; 0; (0x4D + 0x50) mod 256]
  /\ request false (chr "R") 123456
     = [0x4D; 0x52; 0; 0; 0; 123456 mod 256; 0;
        (0x4D + 0x52 + 123456 mod 256) mod 256].
Proof.
  apply (command_frame_drops_argument false (chr "P") 123456).
  cbn [map In]. tauto.
Defined.

(** X5: the decoder accepts what the encoder builds.  Outside simulation,
    when the line takes the write and sends the request back byte for byte,
    [dispatch_command] succeeds for every opcode of the table and every
    argument, and [currentResponse] holds that frame. *)
Theorem dispatch_command_echo cs k l s :
  simulation s = false ->
  In k known_opcodes ->
  next_exchange s (request cs k l) ->
  fst (dispatch_command cs k l s) = true
  /\ frame_bytes (currentResponse (snd (dispatch_command cs k l s)))
     = request cs k l.
Proof.
  intros Hs Hk Hline.
  destruct (command_frame_known cs k l Hk) as [f Hf].
  rewrite (request_frame _ _ _ _ Hf) in *.
  pose proof (command_frame_checked _ _ _ _ Hf) as Hchk.
  destruct (dispatch_command_exchange cs k l f s _ Hs Hf Hline Hchk)
    as (Hok & Hresp & _ & _).
  destruct (command_frame_fields _ _ _ _ Hf) as (_ & Hkf & _).
  split.
  - rewrite Hok. cbn [frame_bytes nth]. rewrite Hkf. apply Z.eqb_refl.
  - rewrite Hresp. now apply frame_bytes_command_of_bytes.
Qed.

Lemma dispatch_command_echo_witness :
  let s := on_line [request false (chr "Z") 128000] in
  fst (dispatch_command false (chr "Z") 128000 s) = true
  /\ frame_bytes (currentResponse (snd (dispatch_command false (chr "Z") 128000 s)))
     = request false (chr "Z") 128000.
Proof.
  apply (dispatch_command_echo false (chr "Z") 128000
           (on_line [request false (chr "Z") 128000])).
  - reflexivity.
  - vm_compute. tauto.
  - split; eexists; reflexivity.
Defined.

(** X6: on a complete response with a good checksum the dispatcher looks at
    the opcode byte and at nothing else: it succeeds exactly when byte 1 of
    the response is the opcode that was sent.  The first byte need not be
    'M', byte 6 need not be 0, and the payload is free. *)
Theorem dispatch_command_checks_opcode_only cs k l s bytes :
  simulation s = false ->
  In k known_opcodes ->
  next_exchange s bytes ->
  checked_frame bytes ->
  fst (dispatch_command cs k l s) = (nth 1 bytes 0 =? k).
Proof.
  intros Hs Hk Hline Hchk.
  destruct (command_frame_known cs k l Hk) as [f Hf].
  now destruct (dispatch_command_exchange cs k l f s _ Hs Hf Hline Hchk).
Qed.

Lemma dispatch_command_checks_opcode_only_witness :
  fst (dispatch_command false (chr "G") 0
         (on_line [[0x00; 0x47; 0x01; 0x02; 0x03; 0x04; 0x05; 0x56]]))
  = (nth 1 [0x00; 0x47; 0x01; 0x02; 0x03; 0x04; 0x05; 0x56] 0 =? chr "G").
Proof.
  apply (dispatch_command_checks_opcode_only false (chr "G") 0
           (on_line [[0x00; 0x47; 0x01; 0x02; 0x03; 0x04; 0x05; 0x56]])).
  - reflexivity.
  - vm_compute. tauto.
  - split; eexists; reflexivity.
  - split; [reflexivity|]. split; [|reflexivity].
    repeat (apply Forall_cons; [unfold is_byte; lia|]). apply Forall_nil.
Defined.

(** X7: when [tty_write] does not return [TTY_OK] (a dead line included),
    [dispatch_command] fails without reading: the request was handed to the
    line, no scripted read is used up and [currentResponse] keeps the
    previous response. *)
Theorem dispatch_command_write_failure cs k l s :
  simulation s = false ->
  In k known_opcodes ->
  hd TTY_WRITE_ERROR (tty_write_results s) <> TTY_OK ->
  let r := dispatch_command cs k l s in
  fst r = false
  /\ tty_written (snd r) = tty_written s ++ [request cs k l]
  /\ tty_read_results (snd r) = tty_read_results s
  /\ currentResponse (snd r) = currentResponse s
  /\ members (snd r) = members s.
Proof.
  intros Hs Hk Hw. cbv zeta.
  destruct (command_frame_known cs k l Hk) as [f Hf].
  rewrite (request_frame _ _ _ _ Hf).
  unfold dispatch_command, send_command, tty_write. rewrite Hf, Hs.
  destruct (tty_write_results s) as [|e rest]; cbn [hd] in Hw.
  - cbn. auto.
  - destruct (Z.eqb_spec e TTY_OK); [contradiction|]. cbn. auto.
Qed.

Lemma dispatch_command_write_failure_witness :
  let s := connected_driver false blank_response [TTY_TIME_OUT]
             [mkTtyRead TTY_OK (reply (chr "P") 0 0 0 7)] in
  let r := dispatch_command false (chr "P") 0 s in
  fst r = false
  /\ tty_written (snd r) = tty_written s ++ [request false (chr "P") 0]
  /\ tty_read_results (snd r) = tty_read_results s
  /\ currentResponse (snd r) = currentResponse s
  /\ members (snd r) = members s.
Proof.
  apply (dispatch_command_write_failure false (chr "P") 0
           (connected_driver false blank_response [TTY_TIME_OUT]
              [mkTtyRead TTY_OK (reply (chr "P") 0 0 0 7)])).
  - reflexivity.
  - vm_compute. tauto.
  - vm_compute. discriminate.
Defined.

(** ** Simulated exchanges *)

(** In simulation an exchange succeeds for every opcode of the table and
    writes three fields of [currentResponse]: the payload bytes keep what
    they held. *)
Lemma dispatch_command_simulation cs k l f s :
  simulation s = true ->
  command_frame cs k l = Some f ->
  dispatch_command cs k l s
  = (true,
     set_currentResponse
       (Cmd.mk (Cmd.M (currentResponse s)) k (Cmd.a (currentResponse s))
          (Cmd.b (currentResponse s)) (Cmd.c (currentResponse s))
          (Cmd.d (currentResponse s)) 0 (Cmd.z f)) s).
Proof.
  intros Hs Hf. unfold dispatch_command, send_command. rewrite Hf, Hs.
  unfold read_response.
  cbn [simulation set_currentResponse currentResponse Cmd.k]. rewrite Hs.
  cbn [simulation set_currentResponse currentResponse Cmd.k].
  now rewrite Z.eqb_refl.
Qed.

Lemma dispatch_command_line_simulated cs k l s :
  simulation s = true -> line (snd (dispatch_command cs k l s)) = line s.
Proof.
  intros Hs. destruct (command_frame cs k l) as [f|] eqn:Hf.
  - now rewrite (dispatch_command_simulation cs k l f s Hs Hf).
  - unfold dispatch_command. now rewrite (send_command_unknown cs k l s Hf).
Qed.

(** X8: after any successful exchange, real or simulated, the opcode in
    [currentResponse] is the opcode that was sent. *)
Theorem dispatch_command_success_opcode cs k l s :
  fst (dispatch_command cs k l s) = true ->
  Cmd.k (currentResponse (snd (dispatch_command cs k l s))) = k.
Proof.
  intros Hok.
  destruct (command_frame cs k l) as [f|] eqn:Hf.
  2:{ unfold dispatch_command in Hok.
      rewrite (send_command_unknown cs k l s Hf) in Hok. discriminate. }
  destruct (simulation s) eqn:Hs.
  - now rewrite (dispatch_command_simulation cs k l f s Hs Hf).
  - destruct (known_opcode_plain k (command_frame_Some_known _ _ _ _ Hf))
      as (Hkb & _ & _).
    now destruct (dispatch_command_response cs k l s Hs Hkb Hok).
Qed.

Lemma dispatch_command_success_opcode_witness :
  Cmd.k (currentResponse (snd (dispatch_command false (chr "P") 0 position_reply)))
  = chr "P".
Proof.
  apply (dispatch_command_success_opcode false (chr "P") 0 position_reply).
  reflexivity.
Defined.

(** ** Commands *)

Lemma setPark_members cs s : members (snd (setPark cs s)) = members s.
Proof. apply dispatch_command_members. Qed.

Lemma AbortFocuser_members cs s : members (snd (AbortFocuser cs s)) = members s.
Proof. apply dispatch_command_members. Qed.

Lemma MoveAbsFocuser_cache cs t s :
  cache (snd (MoveAbsFocuser cs t s)) = cache s.
Proof.
  unfold MoveAbsFocuser.
  pose proof (members_cache _ _ (setPosition_members cs (to_int32 t) s)) as H.
  destruct (setPosition cs (to_int32 t) s) as [ok s1]. cbn [snd] in H.
  now destruct ok.
Qed.

Lemma MoveRelFocuser_cache cs dir n s :
  cache (snd (MoveRelFocuser cs dir n s)) = cache s.
Proof.
  unfold MoveRelFocuser.
  pose proof (members_cache _ _
                (setPosition_members cs (finalTicks dir n s) s)) as H.
  destruct (setPosition cs (finalTicks dir n s) s) as [ok s1]. cbn [snd] in H.
  now destruct ok.
Qed.

Lemma Disconnect_members cs s : members (snd (Disconnect cs s)) = members s.
Proof.
  unfold Disconnect. pose proof (AbortFocuser_members cs s) as H.
  now destruct (AbortFocuser cs s).
Qed.

(** X9: no command predicts the device state.  Whatever they return and in
    either mode, [setPosition], [setSync], [setPark], [AbortFocuser],
    [MoveAbsFocuser], [MoveRelFocuser] and [Disconnect] leave the cached
    position, [isMoving], [isAbsolute], temperature and humidity as they
    were: the cache changes through the read operations only. *)
Theorem commands_keep_cache cs s :
  (forall p, cache (snd (setPosition cs p s)) = cache s)
  /\ (forall p, cache (snd (setSync cs p s)) = cache s)
  /\ cache (snd (setPark cs s)) = cache s
  /\ cache (snd (AbortFocuser cs s)) = cache s
  /\ (forall t, cache (snd (MoveAbsFocuser cs t s)) = cache s)
  /\ (forall dir n, cache (snd (MoveRelFocuser cs dir n s)) = cache s)
  /\ cache (snd (Disconnect cs s)) = cache s.
Proof.
  split; [intros p; apply members_cache, setPosition_members|].
  split; [intros p; apply members_cache, setSync_members|].
  split; [apply members_cache, setPark_members|].
  split; [apply members_cache, AbortFocuser_members|].
  split; [intros t; apply MoveAbsFocuser_cache|].
  split; [intros dir n; apply MoveRelFocuser_cache|].
  apply members_cache, Disconnect_members.
Qed.

(** ** Payloads as numbers *)

Lemma lor_shiftl_low hi lo m :
  0 <= m -> 0 <= lo < 2 ^ m -> Z.lor (Z.shiftl hi m) lo = hi * 2 ^ m + lo.
Proof.
  intros Hm Hlo.
  assert (Hdisj : Z.land (Z.shiftl hi m) lo = 0).
  { apply Z.bits_inj'. intros j Hj. rewrite Z.land_spec, Z.bits_0.
    destruct (Z.ltb_spec j m).
    - rewrite Z.shiftl_spec_low by lia. reflexivity.
    - rewrite <- (Z.mod_small lo (2 ^ m)) by lia.
      rewrite Z.mod_pow2_bits_high by lia. apply andb_false_r. }
  rewrite <- Z.lxor_lor by exact Hdisj.
  rewrite <- Z.add_nocarry_lxor by exact Hdisj.
  now rewrite Z.shiftl_mul_pow2 by lia.
Qed.

(** The payload of a response of bytes, as the number it spells most
    significant byte first. *)
Lemma response_word_sum f :
  is_byte (Cmd.a f) -> is_byte (Cmd.b f) -> is_byte (Cmd.c f) ->
  is_byte (Cmd.d f) ->
  response_word f
  = 2 ^ 24 * Cmd.a f + 2 ^ 16 * Cmd.b f + 2 ^ 8 * Cmd.c f + Cmd.d f.
Proof.
  unfold is_byte, response_word. intros Ha Hb Hc Hd.
  replace (Z.shiftl (Cmd.a f) 24)
    with (Z.shiftl (Z.shiftl (Z.shiftl (Cmd.a f) 8) 8) 8)
    by (rewrite !Z.shiftl_shiftl by lia; reflexivity).
  replace (Z.shiftl (Cmd.b f) 16) with (Z.shiftl (Z.shiftl (Cmd.b f) 8) 8)
    by (rewrite !Z.shiftl_shiftl by lia; reflexivity).
  rewrite <- !Z.shiftl_lor.
  rewrite (lor_shiftl_low (Cmd.a f) (Cmd.b f) 8) by lia.
  rewrite (lor_shiftl_low _ (Cmd.c f) 8) by lia.
  rewrite (lor_shiftl_low _ (Cmd.d f) 8) by lia.
  change (2 ^ 8) with 256. change (2 ^ 16) with 65536.
  change (2 ^ 24) with 16777216. ring.
Qed.

Lemma reply_checked k a b c d :
  is_byte k -> is_byte a -> is_byte b -> is_byte c -> is_byte d ->
  checked_frame (reply k a b c d).
Proof.
  intros Hk Ha Hb Hc Hd. split; [reflexivity|]. split.
  - unfold reply.
    assert (is_byte (chr "M")) by (unfold is_byte; change (chr "M") with 77; lia).
    assert (is_byte 0) by (unfold is_byte; lia).
    assert (is_byte ((chr "M" + k + a + b + c + d) mod 256))
      by (apply Z.mod_pos_bound; lia).
    repeat (apply Forall_cons; [assumption|]). apply Forall_nil.
  - unfold reply. cbn [nth firstn byte_sum fold_right]. f_equal. ring.
Qed.

(** A 32-bit pattern read as a two's-complement number. *)
Lemma to_int32_pattern v :
  0 <= v < 2 ^ 32 -> to_int32 v = if v <? 2 ^ 31 then v else v - 2 ^ 32.
Proof. apply to_int32_of_uint32. Qed.

Lemma command_of_bytes_reply k a b c d :
  command_of_bytes (reply k a b c d)
  = Cmd.mk (chr "M") k a b c d 0 ((chr "M" + k + a + b + c + d) mod 256).
Proof. reflexivity. Qed.

Lemma is_byte_chr_P : is_byte (chr "P").
Proof. vm_compute. split; congruence. Qed.

Lemma known_P : In (chr "P") known_opcodes.
Proof. vm_compute. tauto. Qed.

Lemma known_M : In (chr "M") known_opcodes.
Proof. vm_compute. tauto. Qed.

Lemma known_Z : In (chr "Z") known_opcodes.
Proof. vm_compute. tauto. Qed.

(** X10: [getPosition] reads the payload as a signed 32-bit number, most
    significant byte first.  Outside simulation, when the device answers 'P'
    with payload bytes [a b c d], the call succeeds and the cached position
    is [2^24 a + 2^16 b + 2^8 c + d], less [2^32] when that is [2^31] or more;
    the rest of the cache is untouched. *)
Theorem getPosition_decodes_signed_big_endian cs s a b c d :
  simulation s = false ->
  is_byte a -> is_byte b -> is_byte c -> is_byte d ->
  next_exchange s (reply (chr "P") a b c d) ->
  let v := 2 ^ 24 * a + 2 ^ 16 * b + 2 ^ 8 * c + d in
  let s' := snd (getPosition cs s) in
  fst (getPosition cs s) = true
  /\ currentPosition s' = (if v <? 2 ^ 31 then v else v - 2 ^ 32)
  /\ isMoving s' = isMoving s /\ isAbsolute s' = isAbsolute s
  /\ currentTemperature s' = currentTemperature s
  /\ currentHumidity s' = currentHumidity s.
Proof.
  intros Hs Ha Hb Hc Hd Hline. cbv zeta.
  destruct (command_frame_known cs (chr "P") 0 known_P) as [f Hf].
  pose proof (reply_checked (chr "P") a b c d is_byte_chr_P Ha Hb Hc Hd)
    as Hchk.
  destruct (dispatch_command_exchange cs (chr "P") 0 f s _ Hs Hf Hline Hchk)
    as (Hok & Hresp & Hmem & _).
  unfold getPosition. rewrite Hs.
  destruct (dispatch_command cs (chr "P") 0 s) as [ok s1].
  cbn [fst snd] in *. cbn [reply nth] in Hok. rewrite Z.eqb_refl in Hok.
  subst ok. cbn [fst snd currentPosition set_currentPosition isMoving
                 isAbsolute currentTemperature currentHumidity].
  split; [reflexivity|]. split.
  - rewrite Hresp, command_of_bytes_reply.
    rewrite response_word_sum by assumption.
    cbn [Cmd.a Cmd.b Cmd.c Cmd.d].
    apply to_int32_pattern. unfold is_byte in *.
    change (2 ^ 24) with 16777216. change (2 ^ 16) with 65536.
    change (2 ^ 8) with 256. change (2 ^ 32) with 4294967296. lia.
  - unfold members in Hmem. inversion Hmem. auto.
Qed.

Lemma getPosition_decodes_signed_big_endian_witness :
  let s := on_line [reply (chr "P") 0xFF 0xFF 0xFF 0xE0] in
  let v := 2 ^ 24 * 0xFF + 2 ^ 16 * 0xFF + 2 ^ 8 * 0xFF + 0xE0 in
  let s' := snd (getPosition false s) in
  fst (getPosition false s) = true
  /\ currentPosition s' = (if v <? 2 ^ 31 then v else v - 2 ^ 32)
  /\ isMoving s' = isMoving s /\ isAbsolute s' = isAbsolute s
  /\ currentTemperature s' = currentTemperature s
  /\ currentHumidity s' = currentHumidity s.
Proof.
  apply (getPosition_decodes_signed_big_endian false
           (on_line [reply (chr "P") 0xFF 0xFF 0xFF 0xE0]) 0xFF 0xFF 0xFF 0xE0);
    try (unfold is_byte; lia).
  - reflexivity.
  - split; eexists; reflexivity.
Defined.

Lemma request_payload cs k l :
  k = chr "M" \/ k = chr "Z" ->
  request cs k l = reply k (x l 3) (x l 2) (x l 1) (x l 0).
Proof.
  intros Hk.
  destruct (command_frame_payload cs k l Hk)
    as (f & Hf & Hkf & Ha & Hb & Hc & Hd & _).
  destruct (command_frame_fields _ _ _ _ Hf) as (HM & _ & Hn & Hz & _).
  rewrite (request_frame _ _ _ _ Hf). unfold frame_bytes, reply.
  rewrite Hz, calculate_checksum_sum, HM, Hkf, Ha, Hb, Hc, Hd, Hn.
  now rewrite Z.add_0_r.
Qed.

(** X11: positions survive the trip to the device and back.  For every
    position [p] of the [int32_t] range, negative ones included, the 'M'
    request and the 'Z' request for [p] carry the same four payload bytes,
    and [getPosition] reads those bytes back as [p] when the device reports
    them in a 'P' response. *)
Theorem getPosition_reads_back_sent_position cs p s :
  simulation s = false ->
  is_int32 p ->
  let l := to_uint32 p in
  next_exchange s (reply (chr "P") (x l 3) (x l 2) (x l 1) (x l 0)) ->
  request cs (chr "M") l = reply (chr "M") (x l 3) (x l 2) (x l 1) (x l 0)
  /\ request cs (chr "Z") l = reply (chr "Z") (x l 3) (x l 2) (x l 1) (x l 0)
  /\ fst (getPosition cs s) = true
  /\ currentPosition (snd (getPosition cs s)) = p.
Proof.
  intros Hs Hp. cbv zeta. intros Hline.
  split; [apply request_payload; now left|].
  split; [apply request_payload; now right|].
  destruct (command_frame_known cs (chr "P") 0 known_P) as [f Hf].
  pose proof (reply_checked (chr "P") _ _ _ _ is_byte_chr_P
                (x_range (to_uint32 p) 3) (x_range (to_uint32 p) 2)
                (x_range (to_uint32 p) 1) (x_range (to_uint32 p) 0)) as Hchk.
  destruct (dispatch_command_exchange cs (chr "P") 0 f s _ Hs Hf Hline Hchk)
    as (Hok & Hresp & _ & _).
  unfold getPosition. rewrite Hs.
  destruct (dispatch_command cs (chr "P") 0 s) as [ok s1].
  cbn [fst snd] in *. cbn [reply nth] in Hok. rewrite Z.eqb_refl in Hok.
  subst ok. cbn [fst snd currentPosition set_currentPosition].
  split; [reflexivity|].
  rewrite Hresp, command_of_bytes_reply. unfold response_word.
  cbn [Cmd.a Cmd.b Cmd.c Cmd.d]. rewrite word_of_x.
  rewrite !to_int32_to_uint32. now apply to_int32_small.
Qed.

Lemma getPosition_reads_back_sent_position_witness :
  let l := to_uint32 (-32) in
  let s := on_line [reply (chr "P") (x l 3) (x l 2) (x l 1) (x l 0)] in
  request false (chr "M") l = reply (chr "M") (x l 3) (x l 2) (x l 1) (x l 0)
  /\ request false (chr "Z") l = reply (chr "Z") (x l 3) (x l 2) (x l 1) (x l 0)
  /\ fst (getPosition false s) = true
  /\ currentPosition (snd (getPosition false s)) = -32.
Proof.
  apply (getPosition_reads_back_sent_position false (-32)
           (on_line [reply (chr "P") (x (to_uint32 (-32)) 3)
                       (x (to_uint32 (-32)) 2) (x (to_uint32 (-32)) 1)
                       (x (to_uint32 (-32)) 0)])).
  - reflexivity.
  - unfold is_int32. lia.
  - split; eexists; reflexivity.
Defined.

Lemma to_int32_eqb_uint32 v w :
  0 <= v < 2 ^ 32 -> 0 <= w < 2 ^ 32 -> (to_int32 v =? to_int32 w) = (v =? w).
Proof.
  intros Hv Hw. destruct (Z.eqb_spec v w) as [->|Hne]; [apply Z.eqb_refl|].
  apply Z.eqb_neq. intros H. apply Hne.
  rewrite <- (to_uint32_small v), <- (to_uint32_small w) by assumption.
  rewrite <- (to_uint32_to_int32 v), <- (to_uint32_to_int32 w). now rewrite H.
Qed.

Lemma payload_range a b c d :
  is_byte a -> is_byte b -> is_byte c -> is_byte d ->
  0 <= 2 ^ 24 * a + 2 ^ 16 * b + 2 ^ 8 * c + d < 2 ^ 32.
Proof.
  unfold is_byte. change (2 ^ 24) with 16777216. change (2 ^ 16) with 65536.
  change (2 ^ 8) with 256. change (2 ^ 32) with 4294967296. lia.
Qed.

Lemma is_byte_chr_M : is_byte (chr "M").
Proof. vm_compute. split; congruence. Qed.

Lemma is_byte_chr_Z : is_byte (chr "Z").
Proof. vm_compute. split; congruence. Qed.

(** X12: an absolute move is reported OK only on an exact echo.  Outside
    simulation, when the device answers 'M' with a checked frame of payload
    [a b c d], [MoveAbsFocuser t] returns [IPS_OK] and sets the
    absolute-position status to OK exactly when that payload spells [t];
    otherwise it returns [IPS_ALERT] and leaves the status as it was. *)
Theorem MoveAbsFocuser_checks_echo cs t s a b c d :
  simulation s = false ->
  0 <= t < 2 ^ 32 ->
  is_byte a -> is_byte b -> is_byte c -> is_byte d ->
  next_exchange s (reply (chr "M") a b c d) ->
  let echoed := 2 ^ 24 * a + 2 ^ 16 * b + 2 ^ 8 * c + d in
  fst (MoveAbsFocuser cs t s) = (if echoed =? t then IPS_OK else IPS_ALERT)
  /\ FocusAbsPosNP_s (snd (MoveAbsFocuser cs t s))
     = (if echoed =? t then IPS_OK else FocusAbsPosNP_s s).
Proof.
  intros Hs Ht Ha Hb Hc Hd Hline. cbv zeta.
  destruct (command_frame_known cs (chr "M") (to_uint32 (to_int32 t)) known_M)
    as [f Hf].
  pose proof (reply_checked (chr "M") a b c d is_byte_chr_M Ha Hb Hc Hd)
    as Hchk.
  destruct (dispatch_command_exchange cs (chr "M") _ f s _ Hs Hf Hline Hchk)
    as (Hok & Hresp & Hmem & _).
  unfold MoveAbsFocuser, setPosition.
  destruct (dispatch_command cs (chr "M") (to_uint32 (to_int32 t)) s)
    as [ok s1].
  cbn [fst snd] in *. cbn [reply nth] in Hok. rewrite Z.eqb_refl in Hok.
  subst ok. rewrite Hresp, command_of_bytes_reply.
  rewrite response_word_sum by assumption. cbn [Cmd.a Cmd.b Cmd.c Cmd.d].
  rewrite (to_int32_eqb_uint32 _ t (payload_range a b c d Ha Hb Hc Hd) Ht).
  assert (Hst : FocusAbsPosNP_s s1 = FocusAbsPosNP_s s)
    by (unfold members in Hmem; now inversion Hmem).
  destruct (2 ^ 24 * a + 2 ^ 16 * b + 2 ^ 8 * c + d =? t);
    cbn [fst snd FocusAbsPosNP_s set_FocusAbsPosNP_s]; auto.
Qed.

Lemma MoveAbsFocuser_checks_echo_witness :
  let s := on_line [reply (chr "M") 0 0 0x03 0xE8] in
  let echoed := 2 ^ 24 * 0 + 2 ^ 16 * 0 + 2 ^ 8 * 0x03 + 0xE8 in
  fst (MoveAbsFocuser false 2000 s) = (if echoed =? 2000 then IPS_OK else IPS_ALERT)
  /\ FocusAbsPosNP_s (snd (MoveAbsFocuser false 2000 s))
     = (if echoed =? 2000 then IPS_OK else FocusAbsPosNP_s s).
Proof.
  apply (MoveAbsFocuser_checks_echo false 2000
           (on_line [reply (chr "M") 0 0 0x03 0xE8]) 0 0 0x03 0xE8);
    try (unfold is_byte; lia).
  - reflexivity.
  - split; eexists; reflexivity.
Defined.

(** X13: [setSync] succeeds only on an exact echo.  Outside simulation, when
    the device answers 'Z' with a checked frame of payload [a b c d],
    [setSync q] returns true exactly when that payload spells [q]. *)
Theorem setSync_checks_echo cs q s a b c d :
  simulation s = false ->
  0 <= q < 2 ^ 32 ->
  is_byte a -> is_byte b -> is_byte c -> is_byte d ->
  next_exchange s (reply (chr "Z") a b c d) ->
  fst (setSync cs q s) = (2 ^ 24 * a + 2 ^ 16 * b + 2 ^ 8 * c + d =? q).
Proof.
  intros Hs Hq Ha Hb Hc Hd Hline.
  destruct (command_frame_known cs (chr "Z") q known_Z) as [f Hf].
  pose proof (reply_checked (chr "Z") a b c d is_byte_chr_Z Ha Hb Hc Hd)
    as Hchk.
  destruct (dispatch_command_exchange cs (chr "Z") _ f s _ Hs Hf Hline Hchk)
    as (Hok & Hresp & _ & _).
  unfold setSync.
  destruct (dispatch_command cs (chr "Z") q s) as [ok s1].
  cbn [fst snd] in *. cbn [reply nth] in Hok. rewrite Z.eqb_refl in Hok.
  subst ok. rewrite Hresp, command_of_bytes_reply.
  rewrite response_word_sum by assumption. cbn [Cmd.a Cmd.b Cmd.c Cmd.d].
  rewrite to_uint32_to_int32.
  rewrite to_uint32_small by (now apply payload_range).
  now destruct (2 ^ 24 * a + 2 ^ 16 * b + 2 ^ 8 * c + d =? q).
Qed.

Lemma setSync_checks_echo_witness :
  fst (setSync false 2000 (on_line [reply (chr "Z") 0 0 0x03 0xE9]))
  = (2 ^ 24 * 0 + 2 ^ 16 * 0 + 2 ^ 8 * 0x03 + 0xE9 =? 2000).
Proof.
  apply (setSync_checks_echo false 2000
           (on_line [reply (chr "Z") 0 0 0x03 0xE9]) 0 0 0x03 0xE9);
    try (unfold is_byte; lia).
  - reflexivity.
  - split; eexists; reflexivity.
Defined.

(** ** The status read *)

Lemma known_query k : In k query_opcodes -> In k known_opcodes.
Proof. unfold query_opcodes, known_opcodes. cbn [map In]. tauto. Qed.

(** Outside simulation a query hands its request to the line, whether or
    not it is answered. *)
Lemma dispatch_query_written cs k s :
  In k query_opcodes -> simulation s = false ->
  tty_written (snd (dispatch_command cs k 0 s))
  = tty_written s ++ [[0x4D; k; 0; 0; 0; 0; 0; (0x4D + k) mod 256]].
Proof.
  intros Hk Hs.
  destruct (command_frame_known cs k 0 (known_query k Hk)) as [f Hf].
  rewrite (dispatch_command_written cs k 0 f s Hf Hs).
  now rewrite <- (request_frame _ _ _ _ Hf), (request_query cs k 0 Hk).
Qed.

Lemma query_I : In (chr "I") query_opcodes.
Proof. vm_compute. tauto. Qed.

Lemma query_W : In (chr "W") query_opcodes.
Proof. vm_compute. tauto. Qed.

Lemma query_T : In (chr "T") query_opcodes.
Proof. vm_compute. tauto. Qed.

Lemma query_H : In (chr "H") query_opcodes.
Proof. vm_compute. tauto. Qed.

Lemma getStatus_written cs s :
  simulation s = false ->
  tty_written (snd (getStatus cs s))
  = tty_written s
    ++ (if fst (dispatch_command cs (chr "I") 0 s)
        then [[0x4D; 0x49; 0; 0; 0; 0; 0; 0x96]; [0x4D; 0x57; 0; 0; 0; 0; 0; 0xA4]]
        else [[0x4D; 0x49; 0; 0; 0; 0; 0; 0x96]]).
Proof.
  intros Hs. unfold getStatus. rewrite Hs. cbn [negb].
  pose proof (dispatch_query_written cs (chr "I") s query_I Hs) as H1.
  pose proof (members_simulation _ _
                (dispatch_command_members cs (chr "I") 0 s)) as Hs1.
  destruct (dispatch_command cs (chr "I") 0 s) as [moving s1].
  cbn [fst snd] in *. rewrite Hs in Hs1.
  destruct moving; [|exact H1].
  pose proof (dispatch_query_written cs (chr "W")
                (set_isMoving (Cmd.d (currentResponse s1) =? 1) s1)
                query_W Hs1) as H2.
  destruct (dispatch_command cs (chr "W") 0
              (set_isMoving (Cmd.d (currentResponse s1) =? 1) s1))
    as [absolute s3].
  cbn [snd] in H2.
  change (tty_written (set_isMoving (Cmd.d (currentResponse s1) =? 1) s1))
    with (tty_written s1) in H2.
  rewrite H1 in H2. rewrite <- app_assoc in H2.
  now destruct absolute.
Qed.

(** X14: [getStatus] asks 'I' first and 'W' only after 'I' was answered.
    Outside simulation it sends the 'I' request; when that exchange fails
    nothing more is sent, and when it succeeds the 'W' request follows. *)
Theorem getStatus_requests cs s :
  simulation s = false ->
  tty_written (snd (getStatus cs s))
  = tty_written s
    ++ (if fst (dispatch_command cs (chr "I") 0 s)
        then [[0x4D; 0x49; 0; 0; 0; 0; 0; 0x96]; [0x4D; 0x57; 0; 0; 0; 0; 0; 0xA4]]
        else [[0x4D; 0x49; 0; 0; 0; 0; 0; 0x96]]).
Proof. exact (getStatus_written cs s). Qed.

Lemma getStatus_requests_witness :
  let s := connected_driver false blank_response [TTY_OK]
             [mkTtyRead TTY_TIME_OUT []] in
  tty_written (snd (getStatus false s))
  = tty_written s
    ++ (if fst (dispatch_command false (chr "I") 0 s)
        then [[0x4D; 0x49; 0; 0; 0; 0; 0; 0x96]; [0x4D; 0x57; 0; 0; 0; 0; 0; 0xA4]]
        else [[0x4D; 0x49; 0; 0; 0; 0; 0; 0x96]]).
Proof.
  apply (getStatus_requests false
           (connected_driver false blank_response [TTY_OK]
              [mkTtyRead TTY_TIME_OUT []])).
  reflexivity.
Defined.

Lemma next_exchanges_head s frame frames :
  next_exchanges s (frame :: frames) -> next_exchange s frame.
Proof.
  intros [[wrest Hw] [rrest Hr]]. cbn [map app] in Hw, Hr.
  split; eexists; eassumption.
Qed.

(** Once the first exchange is done the line has the other frames next. *)
Lemma next_exchanges_tail cs k l s frame frames :
  simulation s = false ->
  In k known_opcodes ->
  checked_frame frame ->
  next_exchanges s (frame :: frames) ->
  let s' := snd (dispatch_command cs k l s) in
  tty_write_results s' = tl (tty_write_results s)
  /\ tty_read_results s' = tl (tty_read_results s)
  /\ next_exchanges s' frames.
Proof.
  intros Hs Hk Hchk Hline. cbv zeta.
  destruct (command_frame_known cs k l Hk) as [f Hf].
  destruct (dispatch_command_exchange cs k l f s frame Hs Hf
              (next_exchanges_head _ _ _ Hline) Hchk) as (_ & _ & _ & Hl).
  unfold line in Hl. injection Hl as _ Hw Hr.
  destruct Hline as [[wrest Hw'] [rrest Hr']]. cbn [map app] in Hw', Hr'.
  split; [exact Hw|]. split; [exact Hr|].
  unfold next_exchanges. rewrite Hw, Hr, Hw', Hr'. cbn [tl].
  split; eexists; reflexivity.
Qed.

Lemma is_byte_chr_I : is_byte (chr "I").
Proof. vm_compute. split; congruence. Qed.

Lemma is_byte_chr_W : is_byte (chr "W").
Proof. vm_compute. split; congruence. Qed.

(** X15: the flags are the last payload byte compared with 1.  Outside
    simulation, when the device answers 'I' with payload [a1 b1 c1 d1] and
    then 'W' with payload [a2 b2 c2 d2], [getStatus] succeeds with
    [isMoving] true exactly when [d1] is 1 and [isAbsolute] true exactly when
    [d2] is 1; the other payload bytes play no part, and no other cached
    field changes. *)
Theorem getStatus_reads_flags cs s a1 b1 c1 d1 a2 b2 c2 d2 :
  simulation s = false ->
  Forall is_byte [a1; b1; c1; d1; a2; b2; c2; d2] ->
  next_exchanges s [reply (chr "I") a1 b1 c1 d1; reply (chr "W") a2 b2 c2 d2] ->
  let s' := snd (getStatus cs s) in
  fst (getStatus cs s) = true
  /\ isMoving s' = (d1 =? 1)
  /\ isAbsolute s' = (d2 =? 1)
  /\ currentPosition s' = currentPosition s
  /\ currentTemperature s' = currentTemperature s
  /\ currentHumidity s' = currentHumidity s.
Proof.
  intros Hs Hb Hline. cbv zeta.
  repeat match goal with
         | H : Forall _ (_ :: _) |- _ => inversion H; clear H; subst
         end.
  assert (Hc1 : checked_frame (reply (chr "I") a1 b1 c1 d1))
    by (apply reply_checked; assumption || apply is_byte_chr_I).
  assert (Hc2 : checked_frame (reply (chr "W") a2 b2 c2 d2))
    by (apply reply_checked; assumption || apply is_byte_chr_W).
  destruct (command_frame_known cs (chr "I") 0 (known_query _ query_I))
    as [fI HfI].
  destruct (command_frame_known cs (chr "W") 0 (known_query _ query_W))
    as [fW HfW].
  destruct (dispatch_command_exchange cs (chr "I") 0 fI s _ Hs HfI
              (next_exchanges_head _ _ _ Hline) Hc1)
    as (Hok1 & Hresp1 & Hmem1 & _).
  destruct (next_exchanges_tail cs (chr "I") 0 s _ _ Hs
              (known_query _ query_I) Hc1 Hline) as (_ & _ & Hline2).
  unfold getStatus. rewrite Hs. cbn [negb].
  destruct (dispatch_command cs (chr "I") 0 s) as [moving s1].
  cbn [fst snd] in *. cbn [reply nth] in Hok1. rewrite Z.eqb_refl in Hok1.
  subst moving. rewrite Hresp1, command_of_bytes_reply. cbn [Cmd.d].
  set (s2 := set_isMoving (d1 =? 1) s1).
  assert (Hs2 : simulation s2 = false).
  { change (simulation s2) with (simulation s1).
    now rewrite (members_simulation _ _ Hmem1). }
  assert (Hline2' : next_exchanges s2 [reply (chr "W") a2 b2 c2 d2])
    by exact Hline2.
  destruct (dispatch_command_exchange cs (chr "W") 0 fW s2 _ Hs2 HfW
              (next_exchanges_head _ _ _ Hline2') Hc2)
    as (Hok2 & Hresp2 & Hmem2 & _).
  destruct (dispatch_command cs (chr "W") 0 s2) as [absolute s3].
  cbn [fst snd] in *. cbn [reply nth] in Hok2. rewrite Z.eqb_refl in Hok2.
  subst absolute. rewrite Hresp2, command_of_bytes_reply.
  cbn [fst snd Cmd.d isMoving isAbsolute currentPosition currentTemperature
       currentHumidity set_isAbsolute].
  unfold members in Hmem1, Hmem2. subst s2.
  cbn [set_isMoving connected simulation FocusAbsPosNP_s FocusAbsPosN_value
       FocusRelPosNP_s StatusSP_s StatusS0_s StatusS1_s EnvironmentNP_s
       EnvironmentN0_value EnvironmentN1_value MaxPositionN_value
       simulatedTemperature simulatedHumidity simulatedPosition
       currentTemperature currentHumidity currentPosition isAbsolute
       isMoving] in Hmem2.
  inversion Hmem1. inversion Hmem2.
  do 5 (split; [congruence|]). congruence.
Qed.

Lemma getStatus_reads_flags_witness :
  let s := on_line [reply (chr "I") 9 9 9 2; reply (chr "W") 0 0 0 1] in
  let s' := snd (getStatus false s) in
  fst (getStatus false s) = true
  /\ isMoving s' = (2 =? 1)
  /\ isAbsolute s' = (1 =? 1)
  /\ currentPosition s' = currentPosition s
  /\ currentTemperature s' = currentTemperature s
  /\ currentHumidity s' = currentHumidity s.
Proof.
  apply (getStatus_reads_flags false
           (on_line [reply (chr "I") 9 9 9 2; reply (chr "W") 0 0 0 1])
           9 9 9 2 0 0 0 1).
  - reflexivity.
  - repeat (apply Forall_cons; [unfold is_byte; lia|]). apply Forall_nil.
  - split; exists []; reflexivity.
Defined.

(** ** Simulation *)

Lemma getStatus_simulation cs s :
  simulation s = true -> getStatus cs s = (true, s).
Proof. intros Hs. unfold getStatus. now rewrite Hs. Qed.

Lemma getPosition_simulation cs s :
  simulation s = true ->
  getPosition cs s = (true, set_currentPosition (simulatedPosition s) s).
Proof. intros Hs. unfold getPosition. now rewrite Hs. Qed.

Lemma getTemperature_simulation cs s :
  simulation s = true ->
  getTemperature cs s
  = (true,
     set_currentHumidity (simulatedHumidity s)
       (set_currentTemperature (simulatedTemperature s) s)).
Proof. intros Hs. unfold getTemperature. now rewrite Hs. Qed.

Lemma config_simulation s s' :
  config s' = config s -> simulation s' = simulation s.
Proof. unfold config. intros H. now inversion H. Qed.

Lemma TimerHit_status_line s : line (TimerHit_status s) = line s.
Proof. destruct s. unfold TimerHit_status. cbn. case_ifs; reflexivity. Qed.

Lemma TimerHit_environment_line_simulated cs s :
  simulation s = true -> line (TimerHit_environment cs s) = line s.
Proof.
  intros Hs. unfold TimerHit_environment.
  rewrite (getTemperature_simulation cs s Hs). now destruct (_ || _).
Qed.

Lemma TimerHit_position_line_simulated cs old s :
  simulation s = true -> line (TimerHit_position cs old s) = line s.
Proof.
  intros Hs. unfold TimerHit_position.
  rewrite (getPosition_simulation cs s Hs).
  destruct (negb (IPState_eqb (FocusAbsPosNP_s s) IPS_IDLE)); [|reflexivity].
  now destruct (negb _).
Qed.

Lemma setPosition_line_simulated cs p s :
  simulation s = true -> line (snd (setPosition cs p s)) = line s.
Proof.
  intros Hs. unfold setPosition.
  pose proof (dispatch_command_line_simulated cs (chr "M") (to_uint32 p) s Hs)
    as H.
  destruct (dispatch_command cs (chr "M") (to_uint32 p) s) as [ok s1].
  cbn [snd] in H. destruct ok; [|exact H].
  now destruct (to_int32 (response_word (currentResponse s1)) =? p).
Qed.

Lemma TimerHit_line_simulated cs s :
  simulation s = true -> line (TimerHit cs s) = line s.
Proof.
  intros Hs. unfold TimerHit. destruct (connected s); [|reflexivity].
  cbn [negb]. rewrite (getStatus_simulation cs s Hs).
  rewrite TimerHit_position_line_simulated.
  - rewrite TimerHit_environment_line_simulated.
    + apply TimerHit_status_line.
    + now rewrite (config_simulation _ _ (TimerHit_status_config s)).
  - rewrite (config_simulation _ _ (TimerHit_environment_config cs _)).
    now rewrite (config_simulation _ _ (TimerHit_status_config s)).
Qed.

(** X16: in simulation nothing touches the serial line.  Every operation of
    the driver, the polling tick, connecting and disconnecting included,
    leaves what was written and what the line has in store exactly as they
    were. *)
Theorem simulation_leaves_line_alone cs s :
  simulation s = true ->
  (forall k l, line (snd (dispatch_command cs k l s)) = line s)
  /\ line (snd (getTemperature cs s)) = line s
  /\ line (snd (getStatus cs s)) = line s
  /\ line (snd (getPosition cs s)) = line s
  /\ (forall p, line (snd (setPosition cs p s)) = line s)
  /\ (forall p, line (snd (setSync cs p s)) = line s)
  /\ line (snd (setPark cs s)) = line s
  /\ line (snd (AbortFocuser cs s)) = line s
  /\ (forall t, line (snd (MoveAbsFocuser cs t s)) = line s)
  /\ (forall dir n, line (snd (MoveRelFocuser cs dir n s)) = line s)
  /\ line (TimerHit cs s) = line s
  /\ (forall port, line (snd (Connect cs port s)) = line s)
  /\ line (snd (Disconnect cs s)) = line s.
Proof.
  intros Hs.
  split; [intros k l; now apply dispatch_command_line_simulated|].
  split; [now rewrite getTemperature_simulation|].
  split; [now rewrite getStatus_simulation|].
  split; [now rewrite getPosition_simulation|].
  split; [intros p; now apply setPosition_line_simulated|].
  split.
  { intros p. unfold setSync.
    pose proof (dispatch_command_line_simulated cs (chr "Z") p s Hs) as H.
    destruct (dispatch_command cs (chr "Z") p s) as [ok s1].
    cbn [snd] in H. destruct ok; [|exact H].
    now destruct (to_uint32 (to_int32 (response_word (currentResponse s1)))
                  =? p). }
  split; [now apply dispatch_command_line_simulated|].
  split; [now apply dispatch_command_line_simulated|].
  split.
  { intros t. unfold MoveAbsFocuser.
    pose proof (setPosition_line_simulated cs (to_int32 t) s Hs) as H.
    destruct (setPosition cs (to_int32 t) s) as [ok s1]. now destruct ok. }
  split.
  { intros dir n. unfold MoveRelFocuser.
    pose proof (setPosition_line_simulated cs (finalTicks dir n s) s Hs) as H.
    destruct (setPosition cs (finalTicks dir n s) s) as [ok s1].
    now destruct ok. }
  split; [now apply TimerHit_line_simulated|].
  split.
  { intros port. unfold Connect. rewrite Hs. now destruct (connected s). }
  unfold Disconnect.
  pose proof (dispatch_command_line_simulated cs (chr "H") 0 s Hs) as H.
  unfold AbortFocuser. now destruct (dispatch_command cs (chr "H") 0 s).
Qed.

Lemma simulation_leaves_line_alone_witness :
  line (TimerHit false (connected_driver true blank_response [TTY_OK] []))
  = line (connected_driver true blank_response [TTY_OK] []).
Proof.
  apply (simulation_leaves_line_alone false
           (connected_driver true blank_response [TTY_OK] [])).
  reflexivity.
Defined.

(** X17: a simulated move or sync is judged against stale bytes.  The
    simulated exchange never writes the payload bytes of [currentResponse],
    so in simulation [MoveAbsFocuser t] returns [IPS_OK] exactly when the
    payload left there from before spells [t], and [setSync q] returns true
    exactly when it spells [q]. *)
Theorem simulated_commands_compare_stale_payload cs s :
  simulation s = true ->
  let stale := response_word (currentResponse s) in
  (forall k l,
     response_word (currentResponse (snd (dispatch_command cs k l s))) = stale)
  /\ (forall t,
        fst (MoveAbsFocuser cs t s)
        = if to_int32 stale =? to_int32 t then IPS_OK else IPS_ALERT)
  /\ (forall q,
        fst (setSync cs q s) = (to_uint32 (to_int32 stale) =? q)).
Proof.
  intros Hs. cbv zeta. split; [|split].
  - intros k l. destruct (command_frame cs k l) as [f|] eqn:Hf.
    + now rewrite (dispatch_command_simulation cs k l f s Hs Hf).
    + unfold dispatch_command. now rewrite (send_command_unknown cs k l s Hf).
  - intros t. unfold MoveAbsFocuser, setPosition.
    destruct (command_frame_known cs (chr "M") (to_uint32 (to_int32 t)) known_M)
      as [f Hf].
    rewrite (dispatch_command_simulation cs _ _ f s Hs Hf).
    cbn [currentResponse set_currentResponse].
    change (response_word (Cmd.mk _ _ (Cmd.a (currentResponse s))
                             (Cmd.b (currentResponse s))
                             (Cmd.c (currentResponse s))
                             (Cmd.d (currentResponse s)) _ _))
      with (response_word (currentResponse s)).
    now destruct (to_int32 (response_word (currentResponse s)) =? to_int32 t).
  - intros q. unfold setSync.
    destruct (command_frame_known cs (chr "Z") q known_Z) as [f Hf].
    rewrite (dispatch_command_simulation cs _ _ f s Hs Hf).
    cbn [currentResponse set_currentResponse].
    change (response_word (Cmd.mk _ _ (Cmd.a (currentResponse s))
                             (Cmd.b (currentResponse s))
                             (Cmd.c (currentResponse s))
                             (Cmd.d (currentResponse s)) _ _))
      with (response_word (currentResponse s)).
    now destruct (to_uint32 (to_int32 (response_word (currentResponse s)))
                  =? q).
Qed.

Lemma simulated_commands_compare_stale_payload_witness :
  let s := connected_driver true blank_response [] [] in
  fst (MoveAbsFocuser false 1000 s)
  = if to_int32 (response_word (currentResponse s)) =? to_int32 1000
    then IPS_OK else IPS_ALERT.
Proof.
  apply (simulated_commands_compare_stale_payload false
           (connected_driver true blank_response [] [])).
  reflexivity.
Defined.

(** ** What each read may change *)

(** [getStatus] changes the two flags at most. *)
Lemma getStatus_members_but_flags cs s :
  members (set_isAbsolute (isAbsolute s)
             (set_isMoving (isMoving s) (snd (getStatus cs s))))
  = members s.
Proof.
  unfold getStatus. destruct (simulation s); [reflexivity|]. cbn [negb].
  pose proof (dispatch_command_members cs (chr "I") 0 s) as Hmem1.
  destruct (dispatch_command cs (chr "I") 0 s) as [moving s1]. cbn [snd] in Hmem1.
  member_fields Hmem1.
  destruct moving; [|cbn [snd]; members_eq].
  pose proof (dispatch_command_members cs (chr "W") 0
                (set_isMoving (Cmd.d (currentResponse s1) =? 1) s1)) as Hmem2.
  destruct (dispatch_command cs (chr "W") 0
              (set_isMoving (Cmd.d (currentResponse s1) =? 1) s1))
    as [absolute s3].
  cbn [snd] in Hmem2. member_fields Hmem2.
  destruct absolute; cbn [snd]; members_eq.
Qed.

(** [getTemperature] changes the cached temperature and humidity at most. *)
Lemma getTemperature_members_but_environment cs s :
  members (set_currentHumidity (currentHumidity s)
             (set_currentTemperature (currentTemperature s)
                (snd (getTemperature cs s))))
  = members s.
Proof.
  unfold getTemperature. destruct (simulation s); [reflexivity|].
  pose proof (dispatch_command_members cs (chr "T") 0 s) as Hmem1.
  destruct (dispatch_command cs (chr "T") 0 s) as [ok s1]. cbn [snd] in Hmem1.
  member_fields Hmem1. destruct ok; cbn [snd]; members_eq.
Qed.

(** [getPosition] changes the cached position at most. *)
Lemma getPosition_members_but_position cs s :
  members (set_currentPosition (currentPosition s) (snd (getPosition cs s)))
  = members s.
Proof.
  unfold getPosition. destruct (simulation s); [reflexivity|].
  pose proof (dispatch_command_members cs (chr "P") 0 s) as Hmem1.
  destruct (dispatch_command cs (chr "P") 0 s) as [ok s1]. cbn [snd] in Hmem1.
  member_fields Hmem1. destruct ok; cbn [snd]; members_eq.
Qed.

Lemma getTemperature_written cs s :
  simulation s = false ->
  tty_written (snd (getTemperature cs s))
  = tty_written s ++ [[0x4D; 0x54; 0; 0; 0; 0; 0; 0xA1]].
Proof.
  intros Hs. unfold getTemperature. rewrite Hs.
  pose proof (dispatch_query_written cs (chr "T") s query_T Hs) as H.
  destruct (dispatch_command cs (chr "T") 0 s) as [ok s1]. cbn [snd] in H.
  now destruct ok.
Qed.

(** A failed [getStatus] has sent 'I', or 'I' and 'W'. *)
Lemma getStatus_written_cases cs s :
  simulation s = false ->
  tty_written (snd (getStatus cs s))
  = tty_written s ++ [[0x4D; 0x49; 0; 0; 0; 0; 0; 0x96]]
  \/ tty_written (snd (getStatus cs s))
     = tty_written s
       ++ [[0x4D; 0x49; 0; 0; 0; 0; 0; 0x96]; [0x4D; 0x57; 0; 0; 0; 0; 0; 0xA4]].
Proof.
  intros Hs. rewrite (getStatus_written cs s Hs).
  destruct (fst (dispatch_command cs (chr "I") 0 s)); auto.
Qed.

(** A successful [getStatus] has sent both. *)
Lemma getStatus_written_success cs s :
  simulation s = false -> fst (getStatus cs s) = true ->
  tty_written (snd (getStatus cs s))
  = tty_written s
    ++ [[0x4D; 0x49; 0; 0; 0; 0; 0; 0x96]; [0x4D; 0x57; 0; 0; 0; 0; 0; 0xA4]].
Proof.
  intros Hs Hok. rewrite (getStatus_written cs s Hs).
  unfold getStatus in Hok. rewrite Hs in Hok. cbn [negb] in Hok.
  destruct (dispatch_command cs (chr "I") 0 s) as [moving s1].
  cbn [fst]. destruct moving; [reflexivity|discriminate].
Qed.

(** ** More on the polling tick *)

(** X18: a tick whose status read fails stops there.  The status property
    goes to ALERT; the absolute-position status, the environment status, the
    published environment values and the cached position, temperature and
    humidity stay as they were; and nothing is exchanged after the failed
    status read: no 'T' and no 'P'. *)
Theorem TimerHit_failed_status cs s :
  connected s = true ->
  fst (getStatus cs s) = false ->
  let s' := TimerHit cs s in
  StatusSP_s s' = IPS_ALERT
  /\ FocusAbsPosNP_s s' = FocusAbsPosNP_s s
  /\ EnvironmentNP_s s' = EnvironmentNP_s s
  /\ EnvironmentN0_value s' = EnvironmentN0_value s
  /\ EnvironmentN1_value s' = EnvironmentN1_value s
  /\ currentPosition s' = currentPosition s
  /\ currentTemperature s' = currentTemperature s
  /\ currentHumidity s' = currentHumidity s
  /\ line s' = line (snd (getStatus cs s)).
Proof.
  intros Hconn Hfail. cbv zeta. unfold TimerHit. rewrite Hconn. cbn [negb].
  pose proof (getStatus_members_but_flags cs s) as Hmem.
  destruct (getStatus cs s) as [ok s1]. cbn [fst snd] in *. subst ok.
  member_fields Hmem.
  cbn [set_StatusSP_s StatusSP_s FocusAbsPosNP_s EnvironmentNP_s
       EnvironmentN0_value EnvironmentN1_value currentPosition
       currentTemperature currentHumidity].
  do 8 (split; [congruence|]). reflexivity.
Qed.

Lemma TimerHit_failed_status_witness :
  let s := connected_driver false blank_response [TTY_OK]
             [mkTtyRead TTY_TIME_OUT []] in
  let s' := TimerHit false s in
  StatusSP_s s' = IPS_ALERT
  /\ FocusAbsPosNP_s s' = FocusAbsPosNP_s s
  /\ EnvironmentNP_s s' = EnvironmentNP_s s
  /\ EnvironmentN0_value s' = EnvironmentN0_value s
  /\ EnvironmentN1_value s' = EnvironmentN1_value s
  /\ currentPosition s' = currentPosition s
  /\ currentTemperature s' = currentTemperature s
  /\ currentHumidity s' = currentHumidity s
  /\ line s' = line (snd (getStatus false s)).
Proof.
  apply (TimerHit_failed_status false
           (connected_driver false blank_response [TTY_OK]
              [mkTtyRead TTY_TIME_OUT []])).
  - reflexivity.
  - reflexivity.
Defined.

(** [TimerHit_status] changes four property fields at most. *)
Lemma TimerHit_status_members s :
  members (set_StatusS0_s (StatusS0_s s)
             (set_StatusS1_s (StatusS1_s s)
                (set_FocusAbsPosNP_s (FocusAbsPosNP_s s)
                   (set_StatusSP_s (StatusSP_s s) (TimerHit_status s)))))
  = members s.
Proof. destruct s. unfold TimerHit_status. cbn. case_ifs; reflexivity. Qed.

Lemma TimerHit_status_idle s :
  FocusAbsPosNP_s s = IPS_IDLE -> isMoving s = false ->
  FocusAbsPosNP_s (TimerHit_status s) = IPS_IDLE.
Proof.
  destruct s. cbn. intros -> ->. unfold TimerHit_status. cbn.
  case_ifs; reflexivity.
Qed.

(** [TimerHit_environment] changes the environment fields at most. *)
Lemma TimerHit_environment_members cs s :
  members (set_EnvironmentN1_value (EnvironmentN1_value s)
             (set_EnvironmentN0_value (EnvironmentN0_value s)
                (set_EnvironmentNP_s (EnvironmentNP_s s)
                   (set_currentHumidity (currentHumidity s)
                      (set_currentTemperature (currentTemperature s)
                         (TimerHit_environment cs s))))))
  = members s.
Proof.
  unfold TimerHit_environment.
  pose proof (getTemperature_members_but_environment cs s) as Hmem.
  destruct (getTemperature cs s) as [ok s1]. cbn [snd] in Hmem.
  member_fields Hmem.
  destruct ok; [destruct (_ || _)|]; members_eq.
Qed.

Lemma TimerHit_environment_written cs s :
  simulation s = false ->
  tty_written (TimerHit_environment cs s)
  = tty_written s ++ [[0x4D; 0x54; 0; 0; 0; 0; 0; 0xA1]].
Proof.
  intros Hs. unfold TimerHit_environment.
  pose proof (getTemperature_written cs s Hs) as H.
  destruct (getTemperature cs s) as [ok s1]. cbn [snd] in H.
  destruct ok; [destruct (_ || _)|]; exact H.
Qed.

Lemma TimerHit_status_written s :
  tty_written (TimerHit_status s) = tty_written s.
Proof.
  pose proof (TimerHit_status_line s) as H. unfold line in H.
  now injection H.
Qed.

(** X19: a tick never starts a position read on an idle focuser.  When the
    absolute-position status is IDLE at the start of the tick and the device
    reports that it is not moving, the status is still IDLE after the tick,
    the cached and the published position are untouched, and outside
    simulation the tick has sent 'I', 'W' and 'T' and no 'P'. *)
Theorem TimerHit_idle_stays_idle cs s :
  connected s = true ->
  FocusAbsPosNP_s s = IPS_IDLE ->
  fst (getStatus cs s) = true ->
  isMoving (snd (getStatus cs s)) = false ->
  let s' := TimerHit cs s in
  FocusAbsPosNP_s s' = IPS_IDLE
  /\ currentPosition s' = currentPosition s
  /\ FocusAbsPosN_value s' = FocusAbsPosN_value s
  /\ (simulation s = false ->
      tty_written s'
      = tty_written s
        ++ [[0x4D; 0x49; 0; 0; 0; 0; 0; 0x96]; [0x4D; 0x57; 0; 0; 0; 0; 0; 0xA4];
            [0x4D; 0x54; 0; 0; 0; 0; 0; 0xA1]]).
Proof.
  intros Hconn Hidle Hok Hstill. cbv zeta. unfold TimerHit. rewrite Hconn.
  cbn [negb].
  pose proof (getStatus_members_but_flags cs s) as Hmem.
  pose proof (getStatus_written_success cs s) as Hw.
  pose proof (getStatus_status cs s) as Hst.
  pose proof (config_simulation _ _ (getStatus_config cs s)) as Hsim.
  destruct (getStatus cs s) as [ok s1]. cbn [fst snd] in *. subst ok.
  set (s2 := TimerHit_status s1).
  set (s3 := TimerHit_environment cs s2).
  assert (Hidle3 : FocusAbsPosNP_s s3 = IPS_IDLE).
  { subst s3 s2. rewrite TimerHit_environment_status.
    apply TimerHit_status_idle; congruence. }
  unfold TimerHit_position. rewrite Hidle3. cbn [IPState_eqb negb].
  pose proof (TimerHit_status_members s1) as Hm2. fold s2 in Hm2.
  pose proof (TimerHit_environment_members cs s2) as Hm3. fold s3 in Hm3.
  member_fields Hmem. member_fields Hm2. member_fields Hm3.
  split; [exact Hidle3|]. split; [congruence|]. split; [congruence|].
  intros Hs.
  assert (Hs2 : simulation s2 = false) by congruence.
  subst s3. rewrite (TimerHit_environment_written cs s2 Hs2).
  subst s2. rewrite TimerHit_status_written, (Hw Hs eq_refl).
  now rewrite <- app_assoc.
Qed.

Lemma TimerHit_idle_stays_idle_witness :
  let s := on_line [reply (chr "I") 0 0 0 0; reply (chr "W") 0 0 0 1;
                    reply (chr "T") 0x03 0x52 0xFF 0xEC] in
  let s' := TimerHit false s in
  FocusAbsPosNP_s s' = IPS_IDLE
  /\ currentPosition s' = currentPosition s
  /\ FocusAbsPosN_value s' = FocusAbsPosN_value s
  /\ (simulation s = false ->
      tty_written s'
      = tty_written s
        ++ [[0x4D; 0x49; 0; 0; 0; 0; 0; 0x96]; [0x4D; 0x57; 0; 0; 0; 0; 0; 0xA4];
            [0x4D; 0x54; 0; 0; 0; 0; 0; 0xA1]]).
Proof.
  apply (TimerHit_idle_stays_idle false
           (on_line [reply (chr "I") 0 0 0 0; reply (chr "W") 0 0 0 1;
                     reply (chr "T") 0x03 0x52 0xFF 0xEC])).
  - reflexivity.
  - reflexivity.
  - vm_compute. reflexivity.
  - vm_compute. reflexivity.
Defined.

(** [TimerHit_position] changes the cached and the published position, the
    absolute-position status and the MOVING switch at most. *)
Lemma TimerHit_position_members cs old s :
  members (set_currentPosition (currentPosition s)
             (set_FocusAbsPosN_value (FocusAbsPosN_value s)
                (set_StatusS1_s (StatusS1_s s)
                   (set_FocusAbsPosNP_s (FocusAbsPosNP_s s)
                      (TimerHit_position cs old s)))))
  = members s.
Proof.
  unfold TimerHit_position.
  destruct (negb (IPState_eqb (FocusAbsPosNP_s s) IPS_IDLE)); [|members_eq].
  pose proof (getPosition_members_but_position cs s) as Hmem.
  destruct (getPosition cs s) as [ok s1]. cbn [snd] in Hmem.
  member_fields Hmem.
  destruct ok; [destruct (negb _)|]; members_eq.
Qed.

(** X20: the environment status of a tick.  In a tick whose status read
    succeeded: when the environment read fails the environment status is
    ALERT and the published temperature and humidity keep their values; when
    it succeeds the new readings are published and the status is OK if both
    equal the values published before the tick, BUSY otherwise.  The position
    block that follows changes none of this. *)
Theorem TimerHit_environment_rule cs s :
  connected s = true ->
  fst (getStatus cs s) = true ->
  let env := getTemperature cs (TimerHit_status (snd (getStatus cs s))) in
  let s' := TimerHit cs s in
  (fst env = false ->
   EnvironmentNP_s s' = IPS_ALERT
   /\ EnvironmentN0_value s' = EnvironmentN0_value s
   /\ EnvironmentN1_value s' = EnvironmentN1_value s)
  /\ (fst env = true ->
      EnvironmentNP_s s'
      = (if Qeq_bool (EnvironmentN0_value s) (currentTemperature (snd env))
            && Qeq_bool (EnvironmentN1_value s) (currentHumidity (snd env))
         then IPS_OK else IPS_BUSY)
      /\ EnvironmentN0_value s' = currentTemperature (snd env)
      /\ EnvironmentN1_value s' = currentHumidity (snd env)
      /\ currentTemperature s' = currentTemperature (snd env)
      /\ currentHumidity s' = currentHumidity (snd env)).
Proof.
  intros Hconn Hok. cbv zeta. unfold TimerHit. rewrite Hconn. cbn [negb].
  pose proof (getStatus_members_but_flags cs s) as Hmem1.
  destruct (getStatus cs s) as [ok s1]. cbn [fst snd] in *. subst ok.
  pose proof (TimerHit_status_members s1) as Hmem2.
  set (s2 := TimerHit_status s1) in *.
  pose proof (TimerHit_position_members cs (to_uint32 (currentPosition s))
                (TimerHit_environment cs s2)) as Hmem4.
  set (s4 := TimerHit_position cs (to_uint32 (currentPosition s))
               (TimerHit_environment cs s2)) in *.
  pose proof (getTemperature_members_but_environment cs s2) as Hmem3.
  unfold TimerHit_environment in Hmem4.
  destruct (getTemperature cs s2) as [okT s3]. cbn [fst snd] in *.
  member_fields Hmem1. member_fields Hmem2. member_fields Hmem3.
  destruct okT.
  - split; [discriminate|]. intros _.
    replace (EnvironmentN0_value s) with (EnvironmentN0_value s3) by congruence.
    replace (EnvironmentN1_value s) with (EnvironmentN1_value s3) by congruence.
    destruct (Qeq_bool (EnvironmentN0_value s3) (currentTemperature s3)),
      (Qeq_bool (EnvironmentN1_value s3) (currentHumidity s3));
      cbn [negb orb andb] in *; member_fields Hmem4;
      (do 4 (split; [congruence|])); congruence.
  - split; [|discriminate]. intros _. member_fields Hmem4.
    split; [congruence|]. split; congruence.
Qed.

Lemma TimerHit_environment_rule_witness :
  let s := on_line [reply (chr "I") 0 0 0 0; reply (chr "W") 0 0 0 1;
                    reply (chr "T") 0x03 0x52 0xFF 0xEC] in
  let env := getTemperature false (TimerHit_status (snd (getStatus false s))) in
  let s' := TimerHit false s in
  EnvironmentNP_s s'
  = (if Qeq_bool (EnvironmentN0_value s) (currentTemperature (snd env))
        && Qeq_bool (EnvironmentN1_value s) (currentHumidity (snd env))
     then IPS_OK else IPS_BUSY)
  /\ EnvironmentN0_value s' = currentTemperature (snd env)
  /\ EnvironmentN1_value s' = currentHumidity (snd env)
  /\ currentTemperature s' = currentTemperature (snd env)
  /\ currentHumidity s' = currentHumidity (snd env).
Proof.
  apply (TimerHit_environment_rule false
           (on_line [reply (chr "I") 0 0 0 0; reply (chr "W") 0 0 0 1;
                     reply (chr "T") 0x03 0x52 0xFF 0xEC])).
  - reflexivity.
  - vm_compute. reflexivity.
  - vm_compute. reflexivity.
Defined.

Lemma TimerHit_position_written cs old s :
  simulation s = false ->
  tty_written (TimerHit_position cs old s)
  = tty_written s
    ++ (if negb (IPState_eqb (FocusAbsPosNP_s s) IPS_IDLE)
        then [[0x4D; 0x50; 0; 0; 0; 0; 0; 0x9D]] else []).
Proof.
  intros Hs. unfold TimerHit_position.
  destruct (negb (IPState_eqb (FocusAbsPosNP_s s) IPS_IDLE));
    [|now rewrite app_nil_r].
  pose proof (getPosition_written cs s Hs) as H.
  destruct (getPosition cs s) as [ok s1]. cbn [snd] in H.
  destruct ok; [destruct (negb _)|]; exact H.
Qed.

(** X21: a tick talks to the device in a fixed order.  Outside simulation
    the requests one [TimerHit] sends are a prefix of 'I', 'W', 'T', 'P':
    never more than four, never out of order, never one of them twice, and
    never a command that moves the focuser. *)
Theorem TimerHit_request_order cs s :
  simulation s = false ->
  exists n,
    tty_written (TimerHit cs s)
    = tty_written s
      ++ firstn n [[0x4D; 0x49; 0; 0; 0; 0; 0; 0x96];
                   [0x4D; 0x57; 0; 0; 0; 0; 0; 0xA4];
                   [0x4D; 0x54; 0; 0; 0; 0; 0; 0xA1];
                   [0x4D; 0x50; 0; 0; 0; 0; 0; 0x9D]].
Proof.
  intros Hs. unfold TimerHit.
  destruct (connected s); cbn [negb];
    [|exists 0%nat; now rewrite app_nil_r].
  pose proof (getStatus_written_cases cs s Hs) as Hcases.
  pose proof (getStatus_written_success cs s Hs) as Hboth.
  pose proof (config_simulation _ _ (getStatus_config cs s)) as Hsim.
  destruct (getStatus cs s) as [ok s1]. cbn [fst snd] in *.
  destruct ok.
  - assert (Hs2 : simulation (TimerHit_status s1) = false).
    { rewrite (config_simulation _ _ (TimerHit_status_config s1)). congruence. }
    assert (Hs3 : simulation (TimerHit_environment cs (TimerHit_status s1))
                  = false).
    { now rewrite (config_simulation _ _ (TimerHit_environment_config cs _)). }
    rewrite (TimerHit_position_written cs _ _ Hs3).
    rewrite (TimerHit_environment_written cs _ Hs2).
    rewrite TimerHit_status_written, (Hboth eq_refl).
    destruct (negb _).
    + exists 4%nat. now rewrite <- !app_assoc.
    + exists 3%nat. now rewrite app_nil_r, <- !app_assoc.
  - cbn [tty_written set_StatusSP_s]. destruct Hcases as [H|H]; rewrite H.
    + now exists 1%nat.
    + now exists 2%nat.
Qed.

Lemma TimerHit_request_order_witness :
  exists n,
    tty_written (TimerHit false moving_tick)
    = tty_written moving_tick
      ++ firstn n [[0x4D; 0x49; 0; 0; 0; 0; 0; 0x96];
                   [0x4D; 0x57; 0; 0; 0; 0; 0; 0xA4];
                   [0x4D; 0x54; 0; 0; 0; 0; 0; 0xA1];
                   [0x4D; 0x50; 0; 0; 0; 0; 0; 0x9D]].
Proof.
  apply (TimerHit_request_order false moving_tick).
  reflexivity.
Defined.

Lemma getPosition_keeps_int32 cs s :
  is_int32 (currentPosition s) -> is_int32 (simulatedPosition s) ->
  is_int32 (currentPosition (snd (getPosition cs s))).
Proof.
  intros Hp Hsim. destruct (fst (getPosition cs s)) eqn:Hok.
  - now apply getPosition_int32.
  - pose proof (getPosition_failed cs s Hok) as Hmem. member_fields Hmem.
    congruence.
Qed.

(** X22: the cached position is always a 32-bit signed value.  If the cached
    and the simulated position are of the [int32_t] range before
    [getPosition], [TimerHit] or [Connect], the cached position is of that
    range afterwards as well, and the simulated position is unchanged: the
    range carries over from one tick to the next. *)
Theorem position_stays_int32 cs s :
  is_int32 (currentPosition s) ->
  is_int32 (simulatedPosition s) ->
  is_int32 (currentPosition (snd (getPosition cs s)))
  /\ is_int32 (currentPosition (TimerHit cs s))
  /\ simulatedPosition (TimerHit cs s) = simulatedPosition s
  /\ (forall port, is_int32 (currentPosition (snd (Connect cs port s)))).
Proof.
  intros Hp Hsim.
  split; [now apply getPosition_keeps_int32|].
  assert (Htick : is_int32 (currentPosition (TimerHit cs s))
                  /\ simulatedPosition (TimerHit cs s) = simulatedPosition s).
  { unfold TimerHit. destruct (connected s); cbn [negb]; [|auto].
    pose proof (getStatus_members_but_flags cs s) as Hmem1.
    destruct (getStatus cs s) as [ok s1]. cbn [snd] in Hmem1.
    member_fields Hmem1.
    destruct ok; [|cbn [currentPosition simulatedPosition set_StatusSP_s];
                   split; congruence].
    pose proof (TimerHit_status_members s1) as Hmem2.
    set (s2 := TimerHit_status s1) in *. member_fields Hmem2.
    pose proof (TimerHit_environment_members cs s2) as Hmem3.
    set (s3 := TimerHit_environment cs s2) in *. member_fields Hmem3.
    assert (Hp3 : is_int32 (currentPosition s3)) by congruence.
    assert (Hsim3 : is_int32 (simulatedPosition s3)) by congruence.
    pose proof (getPosition_keeps_int32 cs s3 Hp3 Hsim3) as Hread.
    pose proof (getPosition_members_but_position cs s3) as Hmem4.
    unfold TimerHit_position.
    destruct (negb (IPState_eqb (FocusAbsPosNP_s s3) IPS_IDLE));
      [|split; congruence].
    destruct (getPosition cs s3) as [okP s4]. cbn [snd] in *.
    member_fields Hmem4.
    destruct okP; [destruct (negb _)|];
      cbn [currentPosition simulatedPosition set_FocusAbsPosNP_s
           set_StatusS1_s set_FocusAbsPosN_value];
      split; congruence. }
  split; [apply Htick|]. split; [apply Htick|].
  intros port. unfold Connect.
  destruct (connected s); [exact Hp|].
  destruct (simulation s); [exact Hsim|].
  destruct (negb (port =? TTY_OK)); [exact Hp|].
  pose proof (getStatus_members_but_flags cs s) as Hmem.
  destruct (getStatus cs s) as [ok s1]. cbn [snd] in Hmem.
  member_fields Hmem. destruct ok; cbn [negb snd]; congruence.
Qed.

Lemma position_stays_int32_witness :
  is_int32 (currentPosition (snd (getPosition false moving_tick)))
  /\ is_int32 (currentPosition (TimerHit false moving_tick))
  /\ simulatedPosition (TimerHit false moving_tick)
     = simulatedPosition moving_tick
  /\ (forall port,
        is_int32 (currentPosition (snd (Connect false port moving_tick)))).
Proof.
  apply (position_stays_int32 false moving_tick).
  - unfold is_int32. simpl. lia.
  - unfold is_int32. simpl. lia.
Defined.

(** X23: the published position follows the cached one only when a tick
    changes it.  After any [TimerHit], if the cached position differs from
    what it was before the tick, [FocusAbsPosN[0].value] is the new cached
    position; if the cached position is the same, the published value is
    left as it was, current or not. *)
Theorem TimerHit_publishes_changed_position cs s :
  is_int32 (currentPosition s) ->
  is_int32 (simulatedPosition s) ->
  let s' := TimerHit cs s in
  FocusAbsPosN_value s'
  = if currentPosition s' =? currentPosition s
    then FocusAbsPosN_value s else currentPosition s'.
Proof.
  intros Hp Hsim. cbv zeta. unfold TimerHit.
  destruct (connected s); cbn [negb]; [|now rewrite Z.eqb_refl].
  pose proof (getStatus_members_but_flags cs s) as Hmem1.
  destruct (getStatus cs s) as [ok s1]. cbn [snd] in Hmem1.
  member_fields Hmem1.
  destruct ok.
  2:{ cbn [currentPosition FocusAbsPosN_value set_StatusSP_s].
      replace (currentPosition s1) with (currentPosition s) by congruence.
      rewrite Z.eqb_refl. congruence. }
  pose proof (TimerHit_status_members s1) as Hmem2.
  set (s2 := TimerHit_status s1) in *. member_fields Hmem2.
  pose proof (TimerHit_environment_members cs s2) as Hmem3.
  set (s3 := TimerHit_environment cs s2) in *. member_fields Hmem3.
  assert (Hp3 : currentPosition s3 = currentPosition s) by congruence.
  assert (Hv3 : FocusAbsPosN_value s3 = FocusAbsPosN_value s) by congruence.
  assert (Hsim3 : is_int32 (simulatedPosition s3)) by congruence.
  pose proof (getPosition_int32 cs s3 Hsim3) as Hread.
  pose proof (getPosition_failed cs s3) as Hfail.
  pose proof (getPosition_members_but_position cs s3) as Hmem4.
  unfold TimerHit_position.
  destruct (negb (IPState_eqb (FocusAbsPosNP_s s3) IPS_IDLE)).
  2:{ rewrite Hp3, Z.eqb_refl. exact Hv3. }
  destruct (getPosition cs s3) as [okP s4]. cbn [fst snd] in *.
  member_fields Hmem4.
  destruct okP.
  - rewrite (to_uint32_eqb _ _ Hp (Hread eq_refl)).
    rewrite (Z.eqb_sym (currentPosition s)).
    destruct (currentPosition s4 =? currentPosition s) eqn:E;
      cbn [negb currentPosition FocusAbsPosN_value set_FocusAbsPosNP_s
           set_StatusS1_s set_FocusAbsPosN_value];
      rewrite E; congruence.
  - specialize (Hfail eq_refl). member_fields Hfail.
    cbn [currentPosition FocusAbsPosN_value set_FocusAbsPosNP_s].
    replace (currentPosition s4) with (currentPosition s) by congruence.
    rewrite Z.eqb_refl. congruence.
Qed.

Lemma TimerHit_publishes_changed_position_witness :
  let s' := TimerHit false moving_tick in
  FocusAbsPosN_value s'
  = if currentPosition s' =? currentPosition moving_tick
    then FocusAbsPosN_value moving_tick else currentPosition s'.
Proof.
  apply (TimerHit_publishes_changed_position false moving_tick).
  - unfold is_int32. simpl. lia.
  - unfold is_int32. simpl. lia.
Defined.

(** ** Connecting and disconnecting *)

(** X24: outside simulation [Connect] is the handshake 'I', 'W'.  On a
    driver that is not yet connected it returns true exactly when the port
    opened and [getStatus] succeeded; when the port does not open nothing is
    sent and nothing changes; when it succeeds exactly the 'I' and the 'W'
    request went out; and in no case is the position read: the cached
    position is left as it was. *)
Theorem Connect_handshake cs port s :
  connected s = false ->
  simulation s = false ->
  let r := Connect cs port s in
  (fst r = true <-> port = TTY_OK /\ fst (getStatus cs s) = true)
  /\ (port <> TTY_OK -> r = (false, s))
  /\ (fst r = true ->
      tty_written (snd r)
      = tty_written s
        ++ [[0x4D; 0x49; 0; 0; 0; 0; 0; 0x96]; [0x4D; 0x57; 0; 0; 0; 0; 0; 0xA4]])
  /\ currentPosition (snd r) = currentPosition s.
Proof.
  intros Hconn Hs. cbv zeta. unfold Connect. rewrite Hconn, Hs.
  destruct (Z.eqb_spec port TTY_OK) as [Hport|Hport]; cbn [negb].
  - pose proof (getStatus_members_but_flags cs s) as Hmem.
    pose proof (getStatus_written_success cs s Hs) as Hw.
    destruct (getStatus cs s) as [ok s1]. cbn [fst snd] in *.
    member_fields Hmem.
    destruct ok; cbn [negb fst snd].
    + split; [tauto|]. split; [contradiction|]. split; [auto|congruence].
    + split; [split; [discriminate|intros [_ H']; discriminate]|].
      split; [contradiction|]. split; [discriminate|congruence].
  - split; [split; [discriminate|tauto]|].
    split; [reflexivity|]. split; [discriminate|reflexivity].
Qed.

Lemma Connect_handshake_witness :
  let s := mkDreamFocuser false false IPS_IDLE 0 IPS_IDLE IPS_IDLE ISS_OFF
             ISS_OFF IPS_IDLE 0 0 300000 20 1 2000 0 0 0 false false
             blank_response [] [TTY_OK; TTY_OK]
             [mkTtyRead TTY_OK (reply (chr "I") 0 0 0 0);
              mkTtyRead TTY_OK (reply (chr "W") 0 0 0 1)] in
  let r := Connect false TTY_OK s in
  (fst r = true <-> TTY_OK = TTY_OK /\ fst (getStatus false s) = true)
  /\ (TTY_OK <> TTY_OK -> r = (false, s))
  /\ (fst r = true ->
      tty_written (snd r)
      = tty_written s
        ++ [[0x4D; 0x49; 0; 0; 0; 0; 0; 0x96]; [0x4D; 0x57; 0; 0; 0; 0; 0; 0xA4]])
  /\ currentPosition (snd r) = currentPosition s.
Proof.
  apply (Connect_handshake false TTY_OK
           (mkDreamFocuser false false IPS_IDLE 0 IPS_IDLE IPS_IDLE ISS_OFF
              ISS_OFF IPS_IDLE 0 0 300000 20 1 2000 0 0 0 false false
              blank_response [] [TTY_OK; TTY_OK]
              [mkTtyRead TTY_OK (reply (chr "I") 0 0 0 0);
               mkTtyRead TTY_OK (reply (chr "W") 0 0 0 1)])).
  - reflexivity.
  - reflexivity.
Defined.

(** X25: [Disconnect] always tries to stop the focuser and always reports
    success.  It returns true whether or not the abort was delivered;
    outside simulation the 'H' request is handed to the line in every case;
    and apart from [currentResponse] and the line no member changes. *)
Theorem Disconnect_always_aborts cs s :
  fst (Disconnect cs s) = true
  /\ members (snd (Disconnect cs s)) = members s
  /\ (simulation s = false ->
      tty_written (snd (Disconnect cs s))
      = tty_written s ++ [[0x4D; 0x48; 0; 0; 0; 0; 0; 0x95]]).
Proof.
  split; [|split].
  - unfold Disconnect. now destruct (AbortFocuser cs s).
  - apply Disconnect_members.
  - intros Hs. unfold Disconnect, AbortFocuser.
    pose proof (dispatch_query_written cs (chr "H") s query_H Hs) as H.
    now destruct (dispatch_command cs (chr "H") 0 s).
Qed.

Lemma Disconnect_always_aborts_witness :
  let s := connected_driver false blank_response [] [] in
  fst (Disconnect false s) = true
  /\ members (snd (Disconnect false s)) = members s
  /\ (simulation s = false ->
      tty_written (snd (Disconnect false s))
      = tty_written s ++ [[0x4D; 0x48; 0; 0; 0; 0; 0; 0x95]]).
Proof.
  exact (Disconnect_always_aborts false
           (connected_driver false blank_response [] [])).
Defined.

Lemma query_G : In (chr "G") query_opcodes.
Proof. vm_compute. tauto. Qed.

(** X26: park and abort need the opcode back and nothing more.  Outside
    simulation, when the device answers 'G' (or 'H') with a checked frame,
    [setPark] (or [AbortFocuser]) succeeds whatever the payload of the
    response is; and when the answer carries any other opcode it fails. *)
Theorem park_and_abort_check_opcode_only cs s k a b c d :
  simulation s = false ->
  is_byte k -> is_byte a -> is_byte b -> is_byte c -> is_byte d ->
  next_exchange s (reply k a b c d) ->
  fst (setPark cs s) = (k =? chr "G")
  /\ fst (AbortFocuser cs s) = (k =? chr "H").
Proof.
  intros Hs Hk Ha Hb Hc Hd Hline.
  pose proof (reply_checked k a b c d Hk Ha Hb Hc Hd) as Hchk.
  destruct (command_frame_known cs (chr "G") 0 (known_query _ query_G))
    as [fG HfG].
  destruct (command_frame_known cs (chr "H") 0 (known_query _ query_H))
    as [fH HfH].
  destruct (dispatch_command_exchange cs (chr "G") 0 fG s _ Hs HfG Hline Hchk)
    as (HokG & _).
  destruct (dispatch_command_exchange cs (chr "H") 0 fH s _ Hs HfH Hline Hchk)
    as (HokH & _).
  split; [exact HokG|exact HokH].
Qed.

Lemma park_and_abort_check_opcode_only_witness :
  let s := on_line [reply (chr "G") 1 2 3 4] in
  fst (setPark false s) = (chr "G" =? chr "G")
  /\ fst (AbortFocuser false s) = (chr "G" =? chr "H").
Proof.
  apply (park_and_abort_check_opcode_only false
           (on_line [reply (chr "G") 1 2 3 4]) (chr "G") 1 2 3 4);
    try (unfold is_byte; lia).
  - reflexivity.
  - vm_compute. split; congruence.
  - split; eexists; reflexivity.
Defined.
